(** * Avionics system simulator: shallow embedding and verified properties

    The C++ sources under [src/] are embedded class by class:

    - [Double]            the binary64 operations the code relies on
                          ([std::max], [std::clamp], [std::abs], comparisons);
    - [FaultHandler]      src/src/FaultHandler.cpp;
    - [FlightController]  src/src/FlightController.cpp;
    - [SensorProcessor]   src/src/SensorProcessor.cpp;
    - [TelemetryLogger]   src/src/TelemetryLogger.cpp (the two sinks);
    - [SystemMonitor]     src/src/SystemMonitor.cpp (the control loop).

    A C++ [double] is a primitive binary64 float of the kernel, so every
    arithmetic operation and comparison below rounds and orders exactly as
    the compiled program does (without fused multiply-add contraction).
    Objects are records, member functions take the object and return the
    updated object.  What the program obtains from its environment is passed
    in explicitly: the readings of the two clocks, the draws of the random
    number generator, the two [libm] functions [std::sin], [std::exp], and
    whether the log files can be opened.  So is the value of the
    identifier [throttle] that the PREFLIGHT guard of
    [FlightController::update] reads: the sources do not declare it, and
    [update] takes what it denotes in a call as an argument.  Of the text
    written to [std::cout] only the lines of the flight controller are kept
    (in [console_]); the files of the logger are kept as the rows and
    events written, without their wall-clock prefix.  Where the program
    converts a [double] to [int] or divides integers, the cases the
    language leaves undefined are kept apart ([Double.to_int],
    [SystemMonitor.statusDue]). *)

From Stdlib Require Import ZArith List Bool String Lia.
From Stdlib Require Import Floats Uint63.
Import ListNotations.

Set Warnings "-inexact-float".

(** ** binary64 helpers *)

Module Double.

(** C++ [a > b], [a >= b] on doubles; [a < b] and [a <= b] are
    [PrimFloat.ltb a b] and [PrimFloat.leb a b].  Every comparison with a
    NaN operand is false. *)
Definition gt (a b : float) : bool := PrimFloat.ltb b a.
Definition ge (a b : float) : bool := PrimFloat.leb b a.

(** [std::max(a, b)] is [(a < b) ? b : a]. *)
Definition max (a b : float) : float := if PrimFloat.ltb a b then b else a.

(** [std::clamp(v, lo, hi)] is [(v < lo) ? lo : (hi < v) ? hi : v]. *)
Definition clamp (v lo hi : float) : float :=
  if PrimFloat.ltb v lo then lo else if PrimFloat.ltb hi v then hi else v.

(** Conversion of a container size ([size_t]) to [double]. *)
Definition of_size (n : nat) : float :=
  PrimFloat.of_uint63 (Uint63.of_Z (Z.of_nat n)).

(** [std::accumulate(first, last, 0.0)]: left-to-right sum from [0.0]. *)
Definition accumulate (l : list float) : float :=
  fold_left PrimFloat.add l 0%float.

(** The values a double can take that are not below zero and not NaN:
    either zero, a positive finite number, or plus infinity. *)
Definition sf_nonneg (s : spec_float) : bool :=
  match s with
  | S754_zero _ => true
  | S754_infinity b => negb b
  | S754_finite b _ _ => negb b
  | S754_nan => false
  end.

Definition nonneg (x : float) : bool := sf_nonneg (Prim2SF x).

(** [static_cast<int>(x)]: the fractional part is dropped.  The result is
    not defined when the value so truncated is not an [int] (32 bits), as
    for NaN and the infinities: [None]. *)
Definition to_int (x : float) : option Z :=
  match Prim2SF x with
  | S754_zero _ => Some 0%Z
  | S754_finite sign m e =>
      let magnitude :=
        if (0 <=? e)%Z then (Z.pos m * 2 ^ e)%Z
        else (Z.pos m / 2 ^ (- e))%Z in
      let z := if sign then (- magnitude)%Z else magnitude in
      if (-2147483648 <=? z)%Z && (z <=? 2147483647)%Z then Some z
      else None
  | S754_infinity _ => None
  | S754_nan => None
  end.

End Double.

(** ** FaultHandler *)

Module FaultHandler.

Inductive FaultSeverity := INFO | WARNING | CRITICAL | FATAL.

Definition FaultSeverity_eqb (a b : FaultSeverity) : bool :=
  match a, b with
  | INFO, INFO | WARNING, WARNING | CRITICAL, CRITICAL | FATAL, FATAL => true
  | _, _ => false
  end.

(** [timestamp] is the reading of [system_clock::now()], in clock ticks. *)
Record FaultRecord := mkFaultRecord {
  timestamp : Z;
  severity : FaultSeverity;
  component : string;
  description : string;
  resolved : bool
}.

(** The counters are C++ [int]s that are only ever incremented; they are
    integers here, and [count_bounded] below bounds them by the number of
    reports, so no run of fewer than 2^31 reports overflows them. *)
Record t := mk {
  faults_ : list FaultRecord;
  criticalFaultCount_ : Z;
  warningFaultCount_ : Z
}.

(** The constructor. *)
Definition new : t := mk [] 0 0.

Definition initialize (_ : t) : t := mk [] 0 0.

Definition reportFault (now : Z) (sev : FaultSeverity)
           (comp descr : string) (h : t) : t :=
  let fault := mkFaultRecord now sev comp descr false in
  let faults := faults_ h ++ [fault] in
  match sev with
  | CRITICAL | FATAL =>
      mk faults (criticalFaultCount_ h + 1) (warningFaultCount_ h)
  | WARNING =>
      mk faults (criticalFaultCount_ h) (warningFaultCount_ h + 1)
  | INFO => mk faults (criticalFaultCount_ h) (warningFaultCount_ h)
  end.

Definition isInRange (value min max : float) : bool :=
  Double.ge value min && PrimFloat.leb value max.

(** One optional report: the body of an [if (c) { reportFault(...); }]. *)
Definition report_if (c : bool) (now : Z) (sev : FaultSeverity)
           (comp descr : string) (h : t) : t :=
  if c then reportFault now sev comp descr h else h.

Definition checkSensorHealth (now : Z) (altitude airspeed pressure : float)
           (sensorValid : bool) (h : t) : t :=
  if negb sensorValid then
    reportFault now CRITICAL "SensorProcessor"
                "Sensor fault detected - invalid data" h
  else
    let h1 := report_if (negb (isInRange altitude (-500.0) 15000.0)) now
                WARNING "AltitudeSensor"
                "Altitude reading out of expected range" h in
    let h2 := report_if (negb (isInRange airspeed 0.0 300.0)) now
                WARNING "AirspeedSensor"
                "Airspeed reading out of expected range" h1 in
    let h3 := report_if (negb (isInRange pressure 100.0 1100.0)) now
                WARNING "PressureSensor"
                "Pressure reading out of expected range" h2 in
    report_if (PrimFloat.ltb altitude 0.0 && Double.gt airspeed 50.0) now
              FATAL "FlightSystem"
              "Critical: Negative altitude with high airspeed" h3.

Definition checkControlSystem (now : Z) (elevator aileron rudder : float)
           (h : t) : t :=
  let h1 := report_if (Double.gt (PrimFloat.abs elevator) 0.95) now
              WARNING "ElevatorControl" "Elevator near saturation limit" h in
  let h2 := report_if (Double.gt (PrimFloat.abs aileron) 0.95) now
              WARNING "AileronControl" "Aileron near saturation limit" h1 in
  report_if (Double.gt (PrimFloat.abs rudder) 0.95) now
            WARNING "RudderControl" "Rudder near saturation limit" h2.

Definition getActiveFaults (h : t) : list FaultRecord :=
  filter (fun fault => negb (resolved fault)) (faults_ h).

Definition isSystemSafe (h : t) : bool := (criticalFaultCount_ h =? 0)%Z.

Definition getFaultCount (sev : FaultSeverity) (h : t) : Z :=
  Z.of_nat (List.length (filter (fun fault =>
    FaultSeverity_eqb (severity fault) sev && negb (resolved fault))
    (faults_ h))).

Definition clearResolvedFaults (h : t) : t :=
  mk (filter (fun fault => negb (resolved fault)) (faults_ h))
     (criticalFaultCount_ h) (warningFaultCount_ h).

(** *** Sequences of public operations *)

Inductive Op :=
| OpInitialize
| OpReportFault (now : Z) (sev : FaultSeverity) (comp descr : string)
| OpCheckSensorHealth (now : Z) (altitude airspeed pressure : float)
                      (sensorValid : bool)
| OpCheckControlSystem (now : Z) (elevator aileron rudder : float)
| OpClearResolvedFaults.

Definition step (h : t) (o : Op) : t :=
  match o with
  | OpInitialize => initialize h
  | OpReportFault now sev comp descr => reportFault now sev comp descr h
  | OpCheckSensorHealth now a s p v => checkSensorHealth now a s p v h
  | OpCheckControlSystem now e a r => checkControlSystem now e a r h
  | OpClearResolvedFaults => clearResolvedFaults h
  end.

Definition exec (ops : list Op) (h : t) : t := fold_left step ops h.

Definition is_critical (sev : FaultSeverity) : bool :=
  match sev with CRITICAL | FATAL => true | _ => false end.

(** The severities one operation reports, read off the operation alone:
    what the caller asked to report, or what the envelope checks of
    section 4.3 of the specification report for the given readings. *)
Definition reports_of (o : Op) : list FaultSeverity :=
  match o with
  | OpReportFault _ sev _ _ => [sev]
  | OpCheckSensorHealth _ a s p v =>
      if v then
        (if isInRange a (-500.0) 15000.0 then [] else [WARNING]) ++
        (if isInRange s 0.0 300.0 then [] else [WARNING]) ++
        (if isInRange p 100.0 1100.0 then [] else [WARNING]) ++
        (if PrimFloat.ltb a 0.0 && Double.gt s 50.0 then [FATAL] else [])
      else [CRITICAL]
  | OpCheckControlSystem _ e a r =>
      (if Double.gt (PrimFloat.abs e) 0.95 then [WARNING] else []) ++
      (if Double.gt (PrimFloat.abs a) 0.95 then [WARNING] else []) ++
      (if Double.gt (PrimFloat.abs r) 0.95 then [WARNING] else [])
  | OpInitialize | OpClearResolvedFaults => []
  end.

(** The severities reported and not cleared since the handler was last
    reset: [initialize] forgets every earlier report, and
    [clearResolvedFaults] forgets none (it drops resolved records, and no
    operation marks a record resolved). *)
Fixpoint outstanding (acc : list FaultSeverity) (ops : list Op)
  : list FaultSeverity :=
  match ops with
  | [] => acc
  | OpInitialize :: ops' => outstanding [] ops'
  | o :: ops' => outstanding (acc ++ reports_of o) ops'
  end.

(** What ties a handler to the severities [acc] reported since its last
    reset: the log lists them in order, no record is marked resolved, and
    the critical counter is the number of CRITICAL and FATAL ones. *)
Definition tracks (h : t) (acc : list FaultSeverity) : Prop :=
  map severity (faults_ h) = acc
  /\ Forall (fun fault => resolved fault = false) (faults_ h)
  /\ criticalFaultCount_ h = Z.of_nat (List.length (filter is_critical acc)).

Definition getSeverityString (sev : FaultSeverity) : string :=
  match sev with
  | INFO => "INFO"
  | WARNING => "WARNING"
  | CRITICAL => "CRITICAL"
  | FATAL => "FATAL"
  end.

(** The two counters agree with what [getFaultCount] counts in the log. *)
Definition tallied (h : t) : Prop :=
  warningFaultCount_ h = getFaultCount WARNING h
  /\ criticalFaultCount_ h
     = (getFaultCount CRITICAL h + getFaultCount FATAL h)%Z.

End FaultHandler.

(** ** FlightController *)

Module FlightController.

Inductive FlightPhase :=
| PREFLIGHT | TAKEOFF | CLIMB | CRUISE | DESCENT | APPROACH | LANDING
| EMERGENCY.

Definition FlightPhase_eqb (a b : FlightPhase) : bool :=
  match a, b with
  | PREFLIGHT, PREFLIGHT | TAKEOFF, TAKEOFF | CLIMB, CLIMB
  | CRUISE, CRUISE | DESCENT, DESCENT | APPROACH, APPROACH
  | LANDING, LANDING | EMERGENCY, EMERGENCY => true
  | _, _ => false
  end.

Record ControlSurfaces := mkControls {
  elevator : float;
  aileron : float;
  rudder : float;
  throttle : float
}.

(** [phaseStartTime_] is a reading of [steady_clock], in nanoseconds.
    [console_] is not a member of the class: it collects the lines the
    object writes to [std::cout], oldest first. *)
Record t := mk {
  currentPhase_ : FlightPhase;
  previousPhase_ : FlightPhase;
  controls_ : ControlSurfaces;
  phaseStartTime_ : Z;
  console_ : list string
}.

Definition getPhaseString (phase : FlightPhase) : string :=
  match phase with
  | PREFLIGHT => "PREFLIGHT"
  | TAKEOFF => "TAKEOFF"
  | CLIMB => "CLIMB"
  | CRUISE => "CRUISE"
  | DESCENT => "DESCENT"
  | APPROACH => "APPROACH"
  | LANDING => "LANDING"
  | EMERGENCY => "EMERGENCY"
  end.

(** The constructor, called when [steady_clock] reads [now]. *)
Definition new (now : Z) : t :=
  mk PREFLIGHT PREFLIGHT (mkControls 0.0 0.0 0.0 0.0) now [].

Definition initialize (now : Z) (fc : t) : t :=
  mk PREFLIGHT (previousPhase_ fc) (mkControls 0.0 0.0 0.0 0.0) now
     (console_ fc ++
      ["[FlightController] Initializing flight control system..."%string]).

Definition getCurrentPhase (fc : t) : FlightPhase := currentPhase_ fc.
Definition getControlSurfaces (fc : t) : ControlSurfaces := controls_ fc.

Definition transitionToPhase (now : Z) (newPhase : FlightPhase) (fc : t)
  : t :=
  if negb (FlightPhase_eqb newPhase (currentPhase_ fc)) then
    mk newPhase (currentPhase_ fc) (controls_ fc) now
       (console_ fc ++
        [("[FlightController] Phase transition: " ++
          getPhaseString (currentPhase_ fc) ++ " -> " ++
          getPhaseString newPhase)%string])
  else fc.

(** Whole seconds between two [steady_clock] readings:
    [duration_cast<seconds>(now - start).count()] truncates toward zero. *)
Definition elapsed_seconds (now start : Z) : Z :=
  Z.quot (now - start) 1000000000.

Definition with_controls (c : ControlSurfaces) (fc : t) : t :=
  mk (currentPhase_ fc) (previousPhase_ fc) c (phaseStartTime_ fc)
     (console_ fc).

(** The three arguments are not read by the C++ body either. *)
Definition updateControlSurfaces (altitude airspeed verticalSpeed : float)
           (fc : t) : t :=
  let c := controls_ fc in
  let c1 :=
    match currentPhase_ fc with
    | PREFLIGHT => mkControls 0.0 (aileron c) (rudder c) 0.0
    | TAKEOFF => mkControls 0.15 (aileron c) (rudder c) 1.0
    | CLIMB => mkControls 0.1 (aileron c) (rudder c) 0.9
    | CRUISE => mkControls 0.0 (aileron c) (rudder c) 0.7
    | DESCENT => mkControls (-0.05) (aileron c) (rudder c) 0.4
    | APPROACH => mkControls (-0.08) (aileron c) (rudder c) 0.3
    | LANDING => mkControls (-0.1) (aileron c) (rudder c) 0.1
    | EMERGENCY => mkControls 0.0 (aileron c) (rudder c) 0.5
    end in
  with_controls
    (mkControls (Double.clamp (elevator c1) (-1.0) 1.0)
                (Double.clamp (aileron c1) (-1.0) 1.0)
                (Double.clamp (rudder c1) (-1.0) 1.0)
                (Double.clamp (throttle c1) 0.0 1.0)) fc.

(** [update] is called when [steady_clock] reads [now]; the CRUISE case and
    [transitionToPhase] read the clock within the same call.  The
    PREFLIGHT guard of the source reads [throttle], an identifier that
    neither the class nor [update] nor any header declares; its
    declaration is missing, so the value it denotes in a call is the
    argument [throttle] here, whatever it is and whether or not it changes
    from call to call. *)
Definition update (now : Z) (throttle : float)
           (altitude airspeed verticalSpeed : float) (fc : t) : t :=
  let fc1 :=
    match currentPhase_ fc with
    | PREFLIGHT =>
        if Double.gt airspeed 5.0 && Double.gt throttle 0.5
        then transitionToPhase now TAKEOFF fc else fc
    | TAKEOFF =>
        if Double.gt altitude 100.0 && Double.gt verticalSpeed 2.0
        then transitionToPhase now CLIMB fc else fc
    | CLIMB =>
        if Double.gt altitude 3000.0
           && PrimFloat.ltb (PrimFloat.abs verticalSpeed) 1.0
        then transitionToPhase now CRUISE fc else fc
    | CRUISE =>
        let elapsed := elapsed_seconds now (phaseStartTime_ fc) in
        if (60 <? elapsed)%Z && PrimFloat.ltb verticalSpeed (-1.0)
        then transitionToPhase now DESCENT fc else fc
    | DESCENT =>
        if PrimFloat.ltb altitude 500.0 && PrimFloat.ltb airspeed 80.0
        then transitionToPhase now APPROACH fc else fc
    | APPROACH =>
        if PrimFloat.ltb altitude 50.0
        then transitionToPhase now LANDING fc else fc
    | LANDING => fc
    | EMERGENCY => fc
    end in
  updateControlSurfaces altitude airspeed verticalSpeed fc1.

Definition triggerEmergency (now : Z) (reason : string) (fc : t) : t :=
  mk EMERGENCY (currentPhase_ fc) (controls_ fc) now
     (console_ fc ++
      [("[FlightController] EMERGENCY TRIGGERED: " ++ reason)%string]).

(** *** Sequences of public operations *)

Inductive Op :=
| OpInitialize (now : Z)
| OpUpdate (now : Z) (throttle : float)
           (altitude airspeed verticalSpeed : float)
| OpTriggerEmergency (now : Z) (reason : string).

Definition step (fc : t) (o : Op) : t :=
  match o with
  | OpInitialize now => initialize now fc
  | OpUpdate now thr a s v => update now thr a s v fc
  | OpTriggerEmergency now reason => triggerEmergency now reason fc
  end.

Definition exec (ops : list Op) (fc : t) : t := fold_left step ops fc.

(** What a client can read after each operation of a sequence: the two
    getters. *)
Fixpoint observe (ops : list Op) (fc : t)
  : list (FlightPhase * ControlSurfaces) :=
  match ops with
  | [] => []
  | o :: ops' =>
      let fc' := step fc o in
      (getCurrentPhase fc', getControlSurfaces fc') :: observe ops' fc'
  end.


Definition in_range (c : ControlSurfaces) : bool :=
  PrimFloat.leb (-1.0) (elevator c) && PrimFloat.leb (elevator c) 1.0
  && PrimFloat.leb (-1.0) (aileron c) && PrimFloat.leb (aileron c) 1.0
  && PrimFloat.leb (-1.0) (rudder c) && PrimFloat.leb (rudder c) 1.0
  && PrimFloat.leb 0.0 (throttle c) && PrimFloat.leb (throttle c) 1.0.

(** The targets of the control law, phase by phase: elevator and
    throttle. *)
Definition law (p : FlightPhase) : float * float :=
  match p with
  | PREFLIGHT => (0.0, 0.0)
  | TAKEOFF => (0.15, 1.0)
  | CLIMB => (0.1, 0.9)
  | CRUISE => (0.0, 0.7)
  | DESCENT => (-0.05, 0.4)
  | APPROACH => (-0.08, 0.3)
  | LANDING => (-0.1, 0.1)
  | EMERGENCY => (0.0, 0.5)
  end%float.

(** Aileron and rudder at rest and every surface within its range. *)
Definition settled (fc : t) : Prop :=
  aileron (controls_ fc) = 0%float /\ rudder (controls_ fc) = 0%float
  /\ in_range (controls_ fc) = true.





(** Two controllers no client can tell apart, now or later: same phase,
    same surfaces, and the same dwell clock where it is read (CRUISE). *)
Definition alike (fc1 fc2 : t) : Prop :=
  currentPhase_ fc1 = currentPhase_ fc2
  /\ controls_ fc1 = controls_ fc2
  /\ (currentPhase_ fc1 = CRUISE ->
      phaseStartTime_ fc1 = phaseStartTime_ fc2).

(** The phase that follows in the nominal sequence, where there is one. *)
Definition next_phase (p : FlightPhase) : option FlightPhase :=
  match p with
  | PREFLIGHT => Some TAKEOFF
  | TAKEOFF => Some CLIMB
  | CLIMB => Some CRUISE
  | CRUISE => Some DESCENT
  | DESCENT => Some APPROACH
  | APPROACH => Some LANDING
  | LANDING => None
  | EMERGENCY => None
  end.

(** The surfaces are the targets of some phase, aileron and rudder at
    rest. *)
Definition on_law (fc : t) : Prop :=
  exists p, controls_ fc
            = mkControls (fst (law p)) 0%float 0%float (snd (law p)).

End FlightController.

(** ** SensorProcessor *)

Module SensorProcessor.

(** The two functions of the C math library the profile uses. *)
Record Libm := mkLibm {
  sin : float -> float;
  exp : float -> float
}.

(** [rng_] together with [noiseDist_]: the sequence of standard normal
    draws the generator will produce (fixed by the seed read from
    [std::random_device]) and the number of draws made so far. *)
Record Rng := mkRng {
  draws : nat -> float;
  cursor : nat
}.

Record SensorData := mkSensorData {
  altitude : float;
  airspeed : float;
  pressure : float;
  temperature : float;
  verticalSpeed : float;
  valid : bool
}.

(** A [std::deque<double>] is a list, front first. *)
Record t := mk {
  rng_ : Rng;
  altitudeHistory_ : list float;
  airspeedHistory_ : list float;
  altitudeFault_ : bool;
  airspeedFault_ : bool;
  pressureFault_ : bool
}.

Definition FILTER_WINDOW_SIZE : nat := 5.

(** The value a faulted channel reads. *)
Definition sentinel : float := (-999.0)%float.

(** The constructor, for a generator that will draw [noise]. *)
Definition new (noise : nat -> float) : t :=
  mk (mkRng noise 0) [] [] false false false.

Definition initialize (sp : t) : t :=
  mk (rng_ sp) [] [] false false false.

Definition injectFault (altitudeFault airspeedFault pressureFault : bool)
           (sp : t) : t :=
  mk (rng_ sp) (altitudeHistory_ sp) (airspeedHistory_ sp)
     altitudeFault airspeedFault pressureFault.

Definition areSensorsHealthy (sp : t) : bool :=
  negb (altitudeFault_ sp) && negb (airspeedFault_ sp)
  && negb (pressureFault_ sp).

(** [noiseDist_(rng_)]: the next draw, and the generator advanced. *)
Definition next_noise (sp : t) : float * t :=
  let r := rng_ sp in
  (draws r (cursor r),
   mk (mkRng (draws r) (S (cursor r))) (altitudeHistory_ sp)
      (airspeedHistory_ sp) (altitudeFault_ sp) (airspeedFault_ sp)
      (pressureFault_ sp)).

(** [applyFilter] on a history passed by reference: the filtered value and
    the history it leaves behind. *)
Definition applyFilter (history : list float) (newValue : float)
  : float * list float :=
  let pushed := history ++ [newValue] in
  let kept :=
    if (FILTER_WINDOW_SIZE <? List.length pushed)%nat then tl pushed
    else pushed in
  let sum := Double.accumulate kept in
  (PrimFloat.div sum (Double.of_size (List.length kept)), kept).

Section Simulate.

Variable libm : Libm.

Definition simulateAltitude (time : float) (sp : t) : float * t :=
  if altitudeFault_ sp then (sentinel, sp)
  else
    let altitude :=
      (if time <? 20.0 then 0.0
       else if time <? 50.0 then
         let t := time - 20.0 in 5.0 * t * t
       else if time <? 150.0 then
         3000.0 + 50.0 * sin libm (time * 0.1)
       else if time <? 200.0 then
         let t := time - 150.0 in 3000.0 - 15.0 * t
       else Double.max 0.0 (2250.0 - 10.0 * (time - 200.0)))%float in
    let (n, sp') := next_noise sp in
    let noise := (n * 2.0)%float in
    (Double.max 0.0 (altitude + noise), sp').

Definition simulateAirspeed (time : float) (sp : t) : float * t :=
  if airspeedFault_ sp then (sentinel, sp)
  else
    let airspeed :=
      (if time <? 15.0 then 0.0
       else if time <? 25.0 then
         let t := time - 15.0 in 8.0 * t
       else if time <? 50.0 then 80.0 + (time - 25.0) * 0.8
       else if time <? 150.0 then
         100.0 + 10.0 * sin libm (time * 0.05)
       else if time <? 200.0 then 95.0
       else let t := time - 200.0 in Double.max 0.0 (95.0 - 3.0 * t)
      )%float in
    let (n, sp') := next_noise sp in
    let noise := (n * 1.5)%float in
    (Double.max 0.0 (airspeed + noise), sp').

Definition simulatePressure (altitude : float) (sp : t) : float * t :=
  if pressureFault_ sp then (sentinel, sp)
  else
    let P0 := 1013.25%float in
    let H := 8500.0%float in
    let pressure := (P0 * exp libm (- altitude / H))%float in
    let (n, sp') := next_noise sp in
    let noise := (n * 0.5)%float in
    ((pressure + noise)%float, sp').

Definition simulateTemperature (altitude : float) (sp : t) : float * t :=
  let T0 := 15.0%float in
  let lapseRate := 0.0065%float in
  let temperature := (T0 - lapseRate * altitude)%float in
  let (n, sp') := next_noise sp in
  let noise := (n * 0.3)%float in
  ((temperature + noise)%float, sp').

Definition with_histories (alt spd : list float) (sp : t) : t :=
  mk (rng_ sp) alt spd (altitudeFault_ sp) (airspeedFault_ sp)
     (pressureFault_ sp).

Definition processSensors (simulationTime : float) (sp : t)
  : SensorData * t :=
  let (rawAltitude, sp1) := simulateAltitude simulationTime sp in
  let (rawAirspeed, sp2) := simulateAirspeed simulationTime sp1 in
  let (alt, altHist) := applyFilter (altitudeHistory_ sp2) rawAltitude in
  let (spd, spdHist) := applyFilter (airspeedHistory_ sp2) rawAirspeed in
  let sp3 := with_histories altHist spdHist sp2 in
  let (pres, sp4) := simulatePressure alt sp3 in
  let (temp, sp5) := simulateTemperature alt sp4 in
  let vs :=
    if (2 <=? List.length altHist)%nat then
      let altDiff :=
        (last altHist 0.0 - nth (List.length altHist - 2) altHist 0.0)%float
      in (altDiff * 10.0)%float
    else 0.0%float in
  let v := negb (altitudeFault_ sp5) && negb (airspeedFault_ sp5)
           && negb (pressureFault_ sp5) in
  (mkSensorData alt spd pres temp vs v, sp5).

(** [processSensors] called once per entry of [times], in order: the
    readings returned, oldest first, and the processor left behind. *)
Fixpoint sample (times : list float) (sp : t) : list SensorData * t :=
  match times with
  | [] => ([], sp)
  | time :: times' =>
      let (d, sp1) := processSensors time sp in
      let (ds, sp2) := sample times' sp1 in
      (d :: ds, sp2)
  end.

End Simulate.

(** The filter alone, fed the entries of [values] in order: the outputs,
    oldest first, and the history left behind. *)
Fixpoint filter_all (history : list float) (values : list float)
  : list float * list float :=
  match values with
  | [] => ([], history)
  | v :: values' =>
      let (out, h1) := applyFilter history v in
      let (outs, h2) := filter_all h1 values' in
      (out :: outs, h2)
  end.

(** The mean [applyFilter] returns for a history: the accumulated sum over
    the size. *)
Definition mean (l : list float) : float :=
  (Double.accumulate l / Double.of_size (List.length l))%float.

(** The newest [FILTER_WINDOW_SIZE] entries of a sequence of samples. *)
Definition window (l : list float) : list float :=
  skipn (List.length l - FILTER_WINDOW_SIZE) l.

(** The raw readings [processSensors] takes at [time]. *)
Definition rawAltitude (libm : Libm) (time : float) (sp : t) : float :=
  fst (simulateAltitude libm time sp).

Definition rawAirspeed (libm : Libm) (time : float) (sp : t) : float :=
  fst (simulateAirspeed libm time (snd (simulateAltitude libm time sp))).

(** Two processors that differ at most in the state of the generator. *)
Definition same_channels (sp sp' : t) : Prop :=
  altitudeHistory_ sp' = altitudeHistory_ sp
  /\ airspeedHistory_ sp' = airspeedHistory_ sp
  /\ altitudeFault_ sp' = altitudeFault_ sp
  /\ airspeedFault_ sp' = airspeedFault_ sp
  /\ pressureFault_ sp' = pressureFault_ sp.

(** The vertical speed [processSensors] derives from an altitude history. *)
Definition verticalSpeed_of (history : list float) : float :=
  if (2 <=? List.length history)%nat then
    ((last history 0 - nth (List.length history - 2) history 0) * 10.0)%float
  else 0%float.

(** For worked examples: a generator that always draws 0, and stand-ins
    for [std::sin] and [std::exp] (constant 0 and constant 1). *)
Definition quiet : nat -> float := fun _ => 0%float.
Definition libm_flat : Libm := mkLibm (fun _ => 0%float) (fun _ => 1%float).

(** The draws one [processSensors] makes: one per channel that is not
    faulted, and one for the temperature. *)
Definition draws_taken (sp : t) : nat :=
  Nat.b2n (negb (altitudeFault_ sp)) + Nat.b2n (negb (airspeedFault_ sp))
  + Nat.b2n (negb (pressureFault_ sp)) + 1.

(** No airspeed fault injected, now or while the history was filled. *)
Definition airspeed_clean (sp : t) : Prop :=
  airspeedFault_ sp = false
  /\ (List.length (airspeedHistory_ sp) <= FILTER_WINDOW_SIZE)%nat
  /\ Forall (fun v => Double.nonneg v = true) (airspeedHistory_ sp).

End SensorProcessor.

(** ** TelemetryLogger *)

Module TelemetryLogger.

(** One line of the telemetry file, as the arguments of [logData]; the
    wall-clock prefix that [getTimestamp] adds to every line and the
    rendering of the numbers as text are left out. *)
Record LogRow := mkLogRow {
  simulationTime : float;
  sensors : SensorProcessor.SensorData;
  phase : FlightController.FlightPhase;
  controls : FlightController.ControlSurfaces;
  activeFaults : Z
}.

(** The two files: whether each stream is open, and what was written to
    it, oldest first. *)
Record t := mk {
  telemetryOpen : bool;
  eventOpen : bool;
  rows : list LogRow;
  events : list string
}.

Definition new : t := mk false false [] [].

Definition logData (row : LogRow) (lg : t) : t :=
  if negb (telemetryOpen lg) then lg
  else mk (telemetryOpen lg) (eventOpen lg) (rows lg ++ [row]) (events lg).

Definition logEvent (event : string) (lg : t) : t :=
  if negb (eventOpen lg) then lg
  else mk (telemetryOpen lg) (eventOpen lg) (rows lg) (events lg ++ [event]).

(** [initialize], where [telemetryOk] and [eventOk] tell whether the file
    system lets the respective file be opened. *)
Definition initialize (telemetryOk eventOk : bool) (lg : t) : bool * t :=
  let lg1 := mk (telemetryOpen lg || telemetryOk) (eventOpen lg)
                (rows lg) (events lg) in
  if negb (telemetryOpen lg1) then (false, lg1)
  else
    let lg2 := mk (telemetryOpen lg1) (eventOpen lg1 || eventOk)
                  (rows lg1) (events lg1) in
    if negb (eventOpen lg2) then (false, lg2)
    else (true, logEvent "Telemetry logging system initialized" lg2).

(** [close]; the destructor calls it too. *)
Definition close (lg : t) : t :=
  let lg1 :=
    if telemetryOpen lg then mk false (eventOpen lg) (rows lg) (events lg)
    else lg in
  if eventOpen lg1 then
    let lg2 := logEvent "Logging system shutdown" lg1 in
    mk (telemetryOpen lg2) false (rows lg2) (events lg2)
  else lg1.

End TelemetryLogger.

(** ** SystemMonitor *)

Module SystemMonitor.

Import FlightController.

(** What one iteration reads from outside the monitor: [steady_clock]
    (the flight controller), [system_clock] (the fault records), and the
    value that [throttle] denotes in that iteration's [update]. *)
Record Clock := mkClock {
  steady : Z;
  wall : Z;
  throttle_read : float
}.

Record t := mk {
  flightController_ : FlightController.t;
  sensorProcessor_ : SensorProcessor.t;
  faultHandler_ : FaultHandler.t;
  logger_ : TelemetryLogger.t;
  simulationTime_ : float
}.

(** The constructor: every member default-constructed. *)
Definition new (noise : nat -> float) (clock : Clock) : t :=
  mk (FlightController.new (steady clock)) (SensorProcessor.new noise)
     FaultHandler.new TelemetryLogger.new 0.0.

Definition with_logger (lg : TelemetryLogger.t) (m : t) : t :=
  mk (flightController_ m) (sensorProcessor_ m) (faultHandler_ m) lg
     (simulationTime_ m).

Definition initialize (clock : Clock) (telemetryOk eventOk : bool) (m : t)
  : bool * t :=
  let fc := FlightController.initialize (steady clock)
              (flightController_ m) in
  let sp := SensorProcessor.initialize (sensorProcessor_ m) in
  let fh := FaultHandler.initialize (faultHandler_ m) in
  let (ok, lg) := TelemetryLogger.initialize telemetryOk eventOk
                    (logger_ m) in
  if negb ok then (false, mk fc sp fh lg (simulationTime_ m))
  else
    (true,
     mk fc sp fh
        (TelemetryLogger.logEvent "System initialization complete" lg)
        0.0).

Section Run.

Variable libm : SensorProcessor.Libm.

(** One iteration of the [while] loop of [run]: the monitor it leaves
    behind and the snapshot it hands to [logData] (and [printStatus]).
    Console output and the real-time sleep are left out; whether the
    condition of the status line and the length of the sleep are defined
    is [iteration_defined], which [run] asks of every iteration made. *)
Definition tick (clock : Clock) (dt : float) (m : t)
  : t * TelemetryLogger.LogRow :=
  let (sensors, sp1) :=
    SensorProcessor.processSensors libm (simulationTime_ m)
      (sensorProcessor_ m) in
  let fc1 :=
    FlightController.update (steady clock) (throttle_read clock)
      (SensorProcessor.altitude sensors) (SensorProcessor.airspeed sensors)
      (SensorProcessor.verticalSpeed sensors) (flightController_ m) in
  let currentPhase := getCurrentPhase fc1 in
  let controls := getControlSurfaces fc1 in
  let fh1 :=
    FaultHandler.checkSensorHealth (wall clock)
      (SensorProcessor.altitude sensors) (SensorProcessor.airspeed sensors)
      (SensorProcessor.pressure sensors) (SensorProcessor.valid sensors)
      (faultHandler_ m) in
  let fh2 :=
    FaultHandler.checkControlSystem (wall clock) (elevator controls)
      (aileron controls) (rudder controls) fh1 in
  let emergency :=
    negb (FaultHandler.isSystemSafe fh2)
    && negb (FlightPhase_eqb currentPhase EMERGENCY) in
  let fc2 :=
    if emergency
    then triggerEmergency (steady clock) "Critical fault detected" fc1
    else fc1 in
  let lg1 :=
    if emergency
    then TelemetryLogger.logEvent
           "Emergency mode activated due to critical fault" (logger_ m)
    else logger_ m in
  let activeFaults :=
    Z.of_nat (List.length (FaultHandler.getActiveFaults fh2)) in
  let row :=
    TelemetryLogger.mkLogRow (simulationTime_ m) sensors currentPhase
      controls activeFaults in
  let lg2 := TelemetryLogger.logData row lg1 in
  let inject := PrimFloat.ltb
                  (PrimFloat.abs (simulationTime_ m - 100.0)) dt in
  let sp2 :=
    if inject then SensorProcessor.injectFault false true false sp1
    else sp1 in
  let lg3 :=
    if inject
    then TelemetryLogger.logEvent "Test fault injected: Airspeed sensor"
           lg2
    else lg2 in
  let clear := PrimFloat.ltb
                 (PrimFloat.abs (simulationTime_ m - 105.0)) dt in
  let sp3 :=
    if clear then SensorProcessor.injectFault false false false sp2
    else sp2 in
  let lg4 :=
    if clear then TelemetryLogger.logEvent "Test fault cleared" lg3
    else lg3 in
  (mk fc2 sp3 fh2 lg4 (simulationTime_ m + dt), row).

(** The [while (simulationTime_ < duration)] loop, cut off after [fuel]
    iterations: the monitor reached and the snapshots emitted, oldest
    first.  [clock i] is what the clocks read in iteration [i]. *)
Fixpoint loop (fuel : nat) (clock : nat -> Clock) (duration dt : float)
         (iterationCount : nat) (m : t)
  : t * list TelemetryLogger.LogRow :=
  match fuel with
  | O => (m, [])
  | S fuel' =>
      if PrimFloat.ltb (simulationTime_ m) duration then
        let (m1, row) := tick (clock iterationCount) dt m in
        let (m2, rows) :=
          loop fuel' clock duration dt (S iterationCount) m1 in
        (m2, row :: rows)
      else (m, [])
  end.

(** The condition of the status line,
    [iterationCount % static_cast<int>(updateRate) == 0]: not defined when
    the cast is not, nor when the divisor is zero (any rate strictly
    between -1 and 1).  The [int] [iterationCount] is taken as a natural
    number. *)
Definition statusDue (updateRate : float) (iterationCount : nat)
  : option bool :=
  match Double.to_int updateRate with
  | Some divisor =>
      if (divisor =? 0)%Z then None
      else Some (Z.rem (Z.of_nat iterationCount) divisor =? 0)%Z
  | None => None
  end.

(** The milliseconds of the sleep, [static_cast<int>(dt * 1000)]. *)
Definition sleepMillis (dt : float) : option Z :=
  Double.to_int (dt * 1000.0).

(** An iteration in which both are defined. *)
Definition iteration_defined (updateRate dt : float) (iterationCount : nat)
  : bool :=
  match statusDue updateRate iterationCount, sleepMillis dt with
  | Some _, Some _ => true
  | _, _ => false
  end.

(** [run]: the monitor at return.  There is none when the loop has not
    ended within [fuel] iterations, and none when an iteration was made
    that is not defined: from there on the program has no behaviour to
    speak of. *)
Definition run (fuel : nat) (clock : nat -> Clock)
           (duration updateRate : float) (m : t) : option t :=
  let m0 := with_logger
              (TelemetryLogger.logEvent "Flight simulation started"
                 (logger_ m)) m in
  let dt := (1.0 / updateRate)%float in
  let (m1, rows) := loop fuel clock duration dt 0 m0 in
  if negb (forallb (iteration_defined updateRate dt)
             (seq 0 (List.length rows))) then None
  else if PrimFloat.ltb (simulationTime_ m1) duration then None
  else Some (with_logger
               (TelemetryLogger.logEvent "Flight simulation completed"
                  (logger_ m1)) m1).

End Run.

(** The monitor as [main] hands it to [run]: constructed and initialized,
    with both log files opened. *)
Definition booted (noise : nat -> float) (clock0 : Clock) : t :=
  snd (initialize clock0 true true (new noise clock0)).

(** The monitor that enters the loop: [booted], past the first line of
    [run]. *)
Definition started (noise : nat -> float) (clock0 : Clock) : t :=
  let m := booted noise clock0 in
  with_logger
    (TelemetryLogger.logEvent "Flight simulation started" (logger_ m)) m.

(** Clocks that read the same in every iteration. *)
Definition still (c : Clock) : nat -> Clock := fun _ => c.

(** The flight controller and the fault handler as one tick leaves them
    before the override is decided. *)
Definition updated (libm : SensorProcessor.Libm) (clock : Clock) (m : t)
  : FlightController.t :=
  let s := fst (SensorProcessor.processSensors libm (simulationTime_ m)
                  (sensorProcessor_ m)) in
  FlightController.update (steady clock) (throttle_read clock)
    (SensorProcessor.altitude s) (SensorProcessor.airspeed s)
    (SensorProcessor.verticalSpeed s) (flightController_ m).

Definition checked (libm : SensorProcessor.Libm) (clock : Clock) (m : t)
  : FaultHandler.t :=
  let s := fst (SensorProcessor.processSensors libm (simulationTime_ m)
                  (sensorProcessor_ m)) in
  let c := FlightController.getControlSurfaces (updated libm clock m) in
  FaultHandler.checkControlSystem (wall clock)
    (FlightController.elevator c) (FlightController.aileron c)
    (FlightController.rudder c)
    (FaultHandler.checkSensorHealth (wall clock) (SensorProcessor.altitude s)
       (SensorProcessor.airspeed s) (SensorProcessor.pressure s)
       (SensorProcessor.valid s) (faultHandler_ m)).

(** No FATAL record in the log. *)
Definition no_fatal (h : FaultHandler.t) : Prop :=
  Forall (fun fault => FaultHandler.severity fault <> FaultHandler.FATAL)
         (FaultHandler.faults_ h).

(** No altitude fault injected, now or while the history was filled. *)
Definition altitude_clean (sp : SensorProcessor.t) : Prop :=
  SensorProcessor.altitudeFault_ sp = false
  /\ (List.length (SensorProcessor.altitudeHistory_ sp)
      <= SensorProcessor.FILTER_WINDOW_SIZE)%nat
  /\ Forall (fun v => Double.nonneg v = true)
            (SensorProcessor.altitudeHistory_ sp).

Definition closed_loop (m : t) : Prop :=
  altitude_clean (sensorProcessor_ m) /\ no_fatal (faultHandler_ m).

(** Unsafe implies EMERGENCY, on the monitor. *)
Definition overridden (m : t) : Prop :=
  FaultHandler.isSystemSafe (faultHandler_ m) = false ->
  FlightController.currentPhase_ (flightController_ m)
  = FlightController.EMERGENCY.

(** [shutdown], without the statistics it prints. *)
Definition shutdown (m : t) : t :=
  with_logger
    (TelemetryLogger.close
       (TelemetryLogger.logEvent "System shutdown initiated" (logger_ m)))
    m.

(** *** The course of the loop, apart from the readings

    What the loop started by [main] does step by step does not depend on
    the noise, on [libm], on the clocks or on the value of [throttle]: the
    simulated time, the airspeed fault flag, the critical counter, whether
    the emergency was triggered, and the events logged. *)
Record Course := mkCourse {
  at_time : float;
  airspeed_faulted : bool;
  critical : Z;
  in_emergency : bool;
  logged : list string
}.

(** One row of telemetry, as far as the course decides it: simulated time,
    validity, and whether the phase is EMERGENCY. *)
Definition Mark : Type := float * bool * bool.

Definition course_tick (dt : float) (c : Course) : Course * Mark :=
  let t := at_time c in
  let valid := negb (airspeed_faulted c) in
  let crit := if valid then critical c else (critical c + 1)%Z in
  let fire := negb (crit =? 0)%Z && negb (in_emergency c) in
  let ev1 :=
    if fire
    then logged c ++ ["Emergency mode activated due to critical fault"%string]
    else logged c in
  let inject := PrimFloat.ltb (PrimFloat.abs (t - 100.0)) dt in
  let ev2 :=
    if inject then ev1 ++ ["Test fault injected: Airspeed sensor"%string]
    else ev1 in
  let clear := PrimFloat.ltb (PrimFloat.abs (t - 105.0)) dt in
  let ev3 := if clear then ev2 ++ ["Test fault cleared"%string] else ev2 in
  let fault :=
    if clear then false else if inject then true else airspeed_faulted c in
  (mkCourse (t + dt) fault crit (in_emergency c || fire) ev3,
   (t, valid, in_emergency c)).

Fixpoint course (fuel : nat) (duration dt : float) (c : Course)
  : Course * list Mark :=
  match fuel with
  | O => (c, [])
  | S fuel' =>
      if PrimFloat.ltb (at_time c) duration then
        let (c1, mark) := course_tick dt c in
        let (c2, marks) := course fuel' duration dt c1 in
        (c2, mark :: marks)
      else (c, [])
  end.

(** The course at the start of the loop. *)
Definition course0 : Course :=
  mkCourse 0.0 false 0 false
    ["Telemetry logging system initialized"; "System initialization complete";
     "Flight simulation started"]%string.

Definition mark_of (row : TelemetryLogger.LogRow) : Mark :=
  (TelemetryLogger.simulationTime row,
   SensorProcessor.valid (TelemetryLogger.sensors row),
   FlightPhase_eqb (TelemetryLogger.phase row) EMERGENCY).

(** A monitor that is at the point [c] of the course. *)
Definition follows (m : t) (c : Course) : Prop :=
  simulationTime_ m = at_time c
  /\ altitude_clean (sensorProcessor_ m)
  /\ SensorProcessor.airspeedFault_ (sensorProcessor_ m) = airspeed_faulted c
  /\ SensorProcessor.pressureFault_ (sensorProcessor_ m) = false
  /\ FaultHandler.criticalFaultCount_ (faultHandler_ m) = critical c
  /\ FlightPhase_eqb (currentPhase_ (flightController_ m)) EMERGENCY
     = in_emergency c
  /\ TelemetryLogger.eventOpen (logger_ m) = true
  /\ TelemetryLogger.events (logger_ m) = logged c.

(** A course on which the emergency is on exactly when the critical
    counter is not zero, and was logged once if so. *)
Definition coherent (c : Course) : Prop :=
  (0 <= critical c)%Z
  /\ in_emergency c = negb (critical c =? 0)%Z
  /\ count_occ string_dec (logged c)
       "Emergency mode activated due to critical fault"%string
     = Nat.b2n (in_emergency c).

(** A snapshot of invalid telemetry. *)
Definition invalid (row : TelemetryLogger.LogRow) : bool :=
  negb (SensorProcessor.valid (TelemetryLogger.sensors row)).

(** The simulated time of [n] consecutive iterations from [t]:
    [simulationTime_ += dt], again and again. *)
Fixpoint times (n : nat) (t dt : float) : list float :=
  match n with
  | O => []
  | S n' => t :: times n' (t + dt) dt
  end.

End SystemMonitor.

(** ** main *)

Module Main.

(** The two command-line arguments after [std::stod]: [None] when the
    argument is absent or [std::stod] throws, in which case the default
    stays. *)
Definition simulationDuration (arg1 : option float) : float :=
  match arg1 with
  | Some d => d
  | None => 240.0%float
  end.

Definition updateRate (arg2 : option float) : float :=
  match arg2 with
  | Some r =>
      if PrimFloat.ltb r 1.0 || Double.gt r 100.0 then 10.0%float else r
  | None => 10.0%float
  end.

(** [main]: the exit code and the monitor at the [return], when the loop
    ends within [fuel] iterations. *)
Definition main (libm : SensorProcessor.Libm) (fuel : nat)
           (noise : nat -> float) (clock0 : SystemMonitor.Clock)
           (clock : nat -> SystemMonitor.Clock) (telemetryOk eventOk : bool)
           (arg1 arg2 : option float) : option (Z * SystemMonitor.t) :=
  let (ok, m) :=
    SystemMonitor.initialize clock0 telemetryOk eventOk
      (SystemMonitor.new noise clock0) in
  if negb ok then Some (1%Z, m)
  else
    match SystemMonitor.run libm fuel clock (simulationDuration arg1)
            (updateRate arg2) m with
    | Some m' => Some (0%Z, SystemMonitor.shutdown m')
    | None => None
    end.

End Main.

(** * Properties *)

(** ** binary64: signs and order *)

Section FloatFacts.

(** Rounding a magnitude that is not negative, with the plus sign, gives
    zero, a positive number or plus infinity: the shifts and the rounding
    to nearest of the IEEE specification keep the mantissa from going
    below zero. *)

Lemma shr_1_nonneg mrs : (0 <= shr_m mrs)%Z -> (0 <= shr_m (shr_1 mrs))%Z.
Proof.
  destruct mrs as [m r s]. cbn. intros H.
  destruct m as [|p|p]; [cbn; lia | | lia].
  destruct p; cbn; lia.
Qed.

Lemma iter_pos_nonneg p : forall mrs,
  (0 <= shr_m mrs)%Z -> (0 <= shr_m (iter_pos shr_1 p mrs))%Z.
Proof.
  induction p as [p IH|p IH|]; intros mrs H; cbn.
  - apply IH, IH, shr_1_nonneg, H.
  - apply IH, IH, H.
  - apply shr_1_nonneg, H.
Qed.

Lemma shr_fexp_nonneg m e l :
  (0 <= m)%Z -> (0 <= shr_m (fst (shr_fexp prec emax m e l)))%Z.
Proof.
  intros H. unfold shr_fexp, shr.
  assert (H0 : (0 <= shr_m (shr_record_of_loc m l))%Z)
    by (destruct l as [|[]]; exact H).
  destruct (fexp prec emax (Zdigits2 m + e) - e)%Z; cbn [fst]; try exact H0.
  now apply iter_pos_nonneg.
Qed.

Lemma round_nearest_even_nonneg m l :
  (0 <= m)%Z -> (0 <= round_nearest_even m l)%Z.
Proof.
  intros H. destruct l as [|[]]; cbn; try lia.
  destruct (Z.even m); lia.
Qed.

Lemma binary_round_aux_nonneg m e l :
  (0 <= m)%Z ->
  Double.sf_nonneg (binary_round_aux prec emax false m e l) = true.
Proof.
  intros H. unfold binary_round_aux.
  pose proof (shr_fexp_nonneg m e l H) as H1.
  destruct (shr_fexp prec emax m e l) as [mrs' e']. cbn [fst] in H1.
  pose proof (shr_fexp_nonneg _ e' loc_Exact
                (round_nearest_even_nonneg _ (loc_of_shr_record mrs') H1))
    as H2.
  destruct (shr_fexp prec emax _ e' loc_Exact) as [mrs'' e''].
  cbn [fst] in H2.
  destruct (shr_m mrs'') as [|q|q]; [reflexivity | | lia].
  destruct (e'' <=? emax - prec)%Z; reflexivity.
Qed.

Lemma binary_round_nonneg m e :
  Double.sf_nonneg (binary_round prec emax false m e) = true.
Proof.
  unfold binary_round. destruct (shl_align _ _ _) as [mz ez].
  apply binary_round_aux_nonneg. lia.
Qed.

Lemma SFadd_nonneg x y :
  Double.sf_nonneg x = true -> Double.sf_nonneg y = true ->
  Double.sf_nonneg (SF64add x y) = true.
Proof.
  destruct x as [sx|sx| |sx mx ex], y as [sy|sy| |sy my ey]; cbn;
    try discriminate; try (destruct sx, sy; cbn; congruence);
    try (destruct sx; cbn; congruence); try (destruct sy; cbn; congruence).
  destruct sx, sy; try discriminate. intros _ _.
  unfold SF64add, SFadd, cond_Zopp, binary_normalize.
  cbn. apply binary_round_nonneg.
Qed.

Lemma SFdiv_nonneg x my ey :
  Double.sf_nonneg x = true ->
  Double.sf_nonneg (SF64div x (S754_finite false my ey)) = true.
Proof.
  destruct x as [sx|sx| |sx mx ex]; cbn; try discriminate;
    try (destruct sx; cbn; congruence).
  destruct sx; [discriminate|]. intros _.
  unfold SF64div, SFdiv, SFdiv_core_binary.
  set (e' := Z.min _ _). set (s := (ex - ey - e')%Z).
  set (m' := match s with Z0 => Z.pos mx | Z.pos _ => Z.shiftl (Z.pos mx) s
                     | Z.neg _ => 0%Z end).
  assert (Hm : (0 <= m')%Z).
  { subst m'. destruct s; [lia | | lia]. apply Z.shiftl_nonneg. lia. }
  pose proof (Z.div_pos m' (Z.pos my) Hm ltac:(lia)) as Hq.
  unfold Z.div in Hq. destruct (Z.div_eucl m' (Z.pos my)) as [q r].
  cbn [xorb]. apply binary_round_aux_nonneg. exact Hq.
Qed.

(** Sums and quotients by a window size of doubles that are not below
    zero are not below zero either (and never NaN). *)
Lemma add_nonneg x y :
  Double.nonneg x = true -> Double.nonneg y = true ->
  Double.nonneg (x + y) = true.
Proof.
  unfold Double.nonneg. rewrite FloatAxioms.add_spec. apply SFadd_nonneg.
Qed.

Lemma accumulate_nonneg l :
  Forall (fun x => Double.nonneg x = true) l ->
  Double.nonneg (Double.accumulate l) = true.
Proof.
  unfold Double.accumulate.
  assert (H0 : Double.nonneg 0 = true) by reflexivity.
  revert H0. generalize 0%float as acc.
  induction l as [|x l IH]; intros acc Hacc Hl; [exact Hacc|].
  inversion Hl; subst. cbn. apply IH; [|assumption].
  now apply add_nonneg.
Qed.

Lemma div_size_nonneg x n :
  (1 <= n <= 5)%nat -> Double.nonneg x = true ->
  Double.nonneg (x / Double.of_size n) = true.
Proof.
  intros Hn Hx. unfold Double.nonneg; rewrite FloatAxioms.div_spec.
  assert (Hs : exists my ey,
             Prim2SF (Double.of_size n) = S754_finite false my ey).
  { destruct n as [|[|[|[|[|[|n]]]]]]; try lia;
      vm_compute; eexists; eexists; reflexivity. }
  destruct Hs as (my & ey & ->). now apply SFdiv_nonneg.
Qed.

Lemma nonneg_not_lt_zero x :
  Double.nonneg x = true -> (x <? 0)%float = false.
Proof.
  unfold Double.nonneg; rewrite FloatAxioms.ltb_spec.
  change (Prim2SF 0) with (S754_zero false).
  destruct (Prim2SF x) as [s|s| |s m e]; cbn; try discriminate;
    try reflexivity; destruct s; cbn; congruence.
Qed.

Lemma max_zero_nonneg x : Double.nonneg (Double.max 0 x) = true.
Proof.
  unfold Double.max. destruct (0 <? x)%float eqn:H; [|reflexivity].
  rewrite FloatAxioms.ltb_spec in H. unfold Double.nonneg.
  change (Prim2SF 0) with (S754_zero false) in H.
  destruct (Prim2SF x) as [s|s| |s m e]; cbn in *; try discriminate;
    destruct s; cbn in *; congruence.
Qed.

(** Order facts used for [std::clamp]. *)
Lemma ltb_false_leb x y :
  PrimFloat.is_nan x = false -> PrimFloat.is_nan y = false ->
  (x <? y)%float = false -> (y <=? x)%float = true.
Proof.
  unfold PrimFloat.is_nan.
  rewrite !FloatAxioms.eqb_spec, FloatAxioms.ltb_spec, FloatAxioms.leb_spec.
  unfold SFeqb, SFltb, SFleb.
  destruct (Prim2SF x) as [sx|sx| |sx mx ex],
           (Prim2SF y) as [sy|sy| |sy my ey];
    cbn; try discriminate; try reflexivity;
    try (destruct sx; cbn; congruence); try (destruct sy; cbn; congruence);
    try (destruct sx, sy; cbn; congruence).
  intros _ _.
  pose proof (Pos.compare_cont_antisym mx my Eq) as E. cbn in E.
  rewrite (Z.compare_antisym ex ey), <- E.
  destruct sx, sy; cbn; try congruence;
    destruct (ex ?= ey)%Z; cbn; try congruence;
    destruct (Pos.compare_cont Eq mx my); cbn; congruence.
Qed.

Lemma clamp_bounds v lo hi :
  PrimFloat.is_nan v = false -> (lo <=? hi)%float = true ->
  (lo <=? Double.clamp v lo hi)%float = true
  /\ (Double.clamp v lo hi <=? hi)%float = true.
Proof.
  intros Hv Hlh.
  assert (Hlo : PrimFloat.is_nan lo = false /\ PrimFloat.is_nan hi = false
                /\ (lo <=? lo)%float = true /\ (hi <=? hi)%float = true).
  { revert Hlh. unfold PrimFloat.is_nan.
    rewrite !FloatAxioms.leb_spec, !FloatAxioms.eqb_spec.
    unfold SFleb, SFeqb.
    destruct (Prim2SF lo) as [sx|sx| |sx mx ex],
             (Prim2SF hi) as [sy|sy| |sy my ey];
      cbn; try discriminate; intros _;
      repeat match goal with b : bool |- _ => destruct b end; cbn;
      rewrite ?Z.compare_refl, ?Pos.compare_cont_refl; cbn; auto. }
  destruct Hlo as (Hlo & Hhi & Hll & Hhh).
  unfold Double.clamp.
  destruct (v <? lo)%float eqn:H1; [now split|].
  destruct (hi <? v)%float eqn:H2; [now split|].
  split; now apply ltb_false_leb.
Qed.

End FloatFacts.

(** ** FaultHandler: the safety aggregate *)

Section FaultHandlerFacts.

Import FaultHandler.

Lemma tracks_initialize h : tracks (initialize h) [].
Proof. repeat split; constructor. Qed.

Lemma tracks_reportFault now sev comp descr h acc :
  tracks h acc -> tracks (reportFault now sev comp descr h) (acc ++ [sev]).
Proof.
  intros (Hlog & Hres & Hcnt).
  assert (Hfaults : faults_ (reportFault now sev comp descr h)
                    = faults_ h ++ [mkFaultRecord now sev comp descr false])
    by (destruct sev; reflexivity).
  repeat split.
  - rewrite Hfaults, map_app, Hlog. reflexivity.
  - rewrite Hfaults. apply Forall_app. split; [assumption|].
    constructor; [reflexivity | constructor].
  - rewrite filter_app, length_app, Nat2Z.inj_add, <- Hcnt.
    destruct sev; cbn; lia.
Qed.

Lemma tracks_report_if c now sev comp descr h acc :
  tracks h acc ->
  tracks (report_if c now sev comp descr h)
         (acc ++ if c then [sev] else []).
Proof.
  intros H. destruct c; cbn.
  - now apply tracks_reportFault.
  - now rewrite app_nil_r.
Qed.

Lemma tracks_clearResolvedFaults h acc :
  tracks h acc -> tracks (clearResolvedFaults h) acc.
Proof.
  intros (Hlog & Hres & Hcnt).
  assert (Hkeep : filter (fun fault => negb (resolved fault)) (faults_ h)
                  = faults_ h).
  { clear Hlog Hcnt. induction Hres as [|f fs Hf _ IH]; cbn.
    - reflexivity.
    - rewrite Hf. cbn. now rewrite IH. }
  unfold tracks, clearResolvedFaults. cbn. rewrite Hkeep. auto.
Qed.

Lemma tracks_step h acc o :
  o <> OpInitialize ->
  tracks h acc -> tracks (step h o) (acc ++ reports_of o).
Proof.
  intros Hinit H.
  destruct o as [|now sev comp descr|now a s p v|now e a r|]; cbn [step].
  - now contradiction Hinit.
  - now apply tracks_reportFault.
  - unfold checkSensorHealth, reports_of. destruct v; cbn [negb].
    + rewrite !app_assoc.
      repeat match goal with
             | |- context [if isInRange ?x ?lo ?hi then [] else [WARNING]] =>
                 replace (if isInRange x lo hi then [] else [WARNING])
                   with (if negb (isInRange x lo hi) then [WARNING] else [])
                   by (now destruct (isInRange x lo hi))
             end.
      now repeat apply tracks_report_if.
    + now apply tracks_reportFault.
  - unfold checkControlSystem, reports_of. rewrite !app_assoc.
    now repeat apply tracks_report_if.
  - cbn [reports_of]. rewrite app_nil_r. now apply tracks_clearResolvedFaults.
Qed.

Lemma tracks_exec ops : forall h acc,
  tracks h acc -> tracks (exec ops h) (outstanding acc ops).
Proof.
  induction ops as [|o ops IH]; intros h acc H; [exact H|].
  unfold exec in *. cbn [fold_left].
  destruct o; cbn [outstanding];
    try (apply IH; apply tracks_step; [discriminate | exact H]).
  apply IH. apply tracks_initialize.
Qed.

(** The critical counter of a handler never exceeds the number of records
    in its log, so it stays within an [int] as long as the log does. *)
Lemma count_bounded ops h0 :
  let h := exec ops (initialize h0) in
  (0 <= criticalFaultCount_ h <= Z.of_nat (List.length (faults_ h)))%Z.
Proof.
  cbn zeta.
  destruct (tracks_exec ops _ _ (tracks_initialize h0)) as (Hlog & _ & Hcnt).
  rewrite Hcnt, <- (length_map severity), Hlog.
  pose proof (filter_length_le is_critical (outstanding [] ops)). lia.
Qed.

Lemma existsb_filter_length {A} (f : A -> bool) (l : list A) :
  existsb f l = true <-> (0 < List.length (filter f l))%nat.
Proof.
  induction l as [|x l IH]; cbn.
  - split; [discriminate | lia].
  - destruct (f x); cbn; [split; [lia | reflexivity] | exact IH].
Qed.

End FaultHandlerFacts.

(** C2.  After [initialize()] and any sequence of public operations,
    [isSystemSafe()] is false exactly when a CRITICAL or FATAL fault has
    been reported (by [reportFault] or by a check) since the last reset;
    the log holds exactly those reports; the answer is read from the
    counter alone, whatever the log holds; and [clearResolvedFaults] never
    changes it. *)
Theorem isSystemSafe_false_iff_critical_reported :
  forall (ops : list FaultHandler.Op) (h0 : FaultHandler.t),
    let h := FaultHandler.exec ops (FaultHandler.initialize h0) in
    (FaultHandler.isSystemSafe h = false <->
     existsb FaultHandler.is_critical (FaultHandler.outstanding [] ops) = true)
    /\ map FaultHandler.severity (FaultHandler.faults_ h)
       = FaultHandler.outstanding [] ops
    /\ (FaultHandler.isSystemSafe h = false <->
        exists fault, In fault (FaultHandler.faults_ h)
                      /\ FaultHandler.is_critical
                           (FaultHandler.severity fault) = true)
    /\ (forall log c w,
           FaultHandler.isSystemSafe (FaultHandler.mk log c w) = (c =? 0)%Z)
    /\ (forall h', FaultHandler.isSystemSafe
                     (FaultHandler.clearResolvedFaults h')
                   = FaultHandler.isSystemSafe h').
Proof.
  intros ops h0 h.
  destruct (tracks_exec ops _ _ (tracks_initialize h0)) as (Hlog & _ & Hcnt).
  fold h in Hlog, Hcnt.
  assert (Hsafe : FaultHandler.isSystemSafe h = false <->
                  existsb FaultHandler.is_critical
                          (FaultHandler.outstanding [] ops) = true).
  { unfold FaultHandler.isSystemSafe. rewrite Hcnt, existsb_filter_length.
    rewrite Z.eqb_neq. lia. }
  split; [exact Hsafe|]. split; [exact Hlog|]. split; [|split].
  - rewrite Hsafe, <- Hlog, existsb_exists. split.
    + intros (sev & Hin & Hc). apply in_map_iff in Hin.
      destruct Hin as (fault & <- & Hin). now exists fault.
    + intros (fault & Hin & Hc). exists (FaultHandler.severity fault).
      split; [now apply in_map | exact Hc].
  - reflexivity.
  - reflexivity.
Qed.

(** C3.  With [sensorValid = false], one call of [checkSensorHealth]
    appends exactly one record, of severity CRITICAL, counts it once, and
    returns before any range check: whatever the three readings are, the
    handler it leaves is the same. *)
Theorem checkSensorHealth_invalid_one_critical :
  forall (now : Z) (altitude airspeed pressure : float) (h : FaultHandler.t),
    let h' := FaultHandler.checkSensorHealth now altitude airspeed pressure
                false h in
    FaultHandler.faults_ h'
    = FaultHandler.faults_ h ++
      [FaultHandler.mkFaultRecord now FaultHandler.CRITICAL "SensorProcessor"
         "Sensor fault detected - invalid data" false]
    /\ FaultHandler.criticalFaultCount_ h'
       = (FaultHandler.criticalFaultCount_ h + 1)%Z
    /\ FaultHandler.warningFaultCount_ h' = FaultHandler.warningFaultCount_ h
    /\ FaultHandler.reports_of
         (FaultHandler.OpCheckSensorHealth now altitude airspeed pressure false)
       = [FaultHandler.CRITICAL]
    /\ (forall altitude' airspeed' pressure',
           FaultHandler.checkSensorHealth now altitude' airspeed' pressure'
             false h = h').
Proof.
  intros. repeat split.
Qed.

(** With valid telemetry the same call does run the range checks: readings
    outside every envelope give three WARNINGs and the FATAL, where the
    invalid call gives the single CRITICAL. *)
Example checkSensorHealth_valid_runs_checks :
  map FaultHandler.severity
      (FaultHandler.faults_
         (FaultHandler.checkSensorHealth 0 (-600.0) 400.0 50.0 true
            FaultHandler.new))
  = [FaultHandler.WARNING; FaultHandler.WARNING; FaultHandler.WARNING;
     FaultHandler.FATAL]
  /\ map FaultHandler.severity
         (FaultHandler.faults_
            (FaultHandler.checkSensorHealth 0 (-600.0) 400.0 50.0 false
               FaultHandler.new))
     = [FaultHandler.CRITICAL].
Proof. split; reflexivity. Qed.

(** ** FlightController: phases and control surfaces *)

Section FlightControllerFacts.

Import FlightController.

Lemma updateControlSurfaces_phase a s v fc :
  currentPhase_ (updateControlSurfaces a s v fc) = currentPhase_ fc.
Proof. reflexivity. Qed.

Lemma updateControlSurfaces_controls a s v fc :
  controls_ (updateControlSurfaces a s v fc)
  = mkControls (Double.clamp (fst (law (currentPhase_ fc))) (-1.0) 1.0)
               (Double.clamp (aileron (controls_ fc)) (-1.0) 1.0)
               (Double.clamp (rudder (controls_ fc)) (-1.0) 1.0)
               (Double.clamp (snd (law (currentPhase_ fc))) 0.0 1.0).
Proof. unfold updateControlSurfaces. now destruct (currentPhase_ fc). Qed.

Lemma transitionToPhase_controls now p fc :
  controls_ (transitionToPhase now p fc) = controls_ fc.
Proof.
  unfold transitionToPhase.
  now destruct (negb (FlightPhase_eqb p (currentPhase_ fc))).
Qed.

(** [update] is the control law applied after at most one transition. *)
Lemma update_unfold now thr a s v fc :
  exists fc1,
    update now thr a s v fc = updateControlSurfaces a s v fc1
    /\ controls_ fc1 = controls_ fc
    /\ (fc1 = fc \/ exists p, fc1 = transitionToPhase now p fc).
Proof.
  unfold update.
  destruct (currentPhase_ fc);
    match goal with
    | |- context [if ?c then _ else _] => destruct c
    | _ => idtac
    end;
    eexists; (split; [reflexivity|]);
    (split; [try apply transitionToPhase_controls; reflexivity|]);
    try (now left); right; eexists; reflexivity.
Qed.

Lemma update_controls now thr a s v fc :
  let fc' := update now thr a s v fc in
  controls_ fc'
  = mkControls (Double.clamp (fst (law (currentPhase_ fc'))) (-1.0) 1.0)
               (Double.clamp (aileron (controls_ fc)) (-1.0) 1.0)
               (Double.clamp (rudder (controls_ fc)) (-1.0) 1.0)
               (Double.clamp (snd (law (currentPhase_ fc'))) 0.0 1.0).
Proof.
  cbn zeta. destruct (update_unfold now thr a s v fc) as (fc1 & -> & Hc & _).
  now rewrite updateControlSurfaces_controls, updateControlSurfaces_phase, Hc.
Qed.

Lemma settled_update now thr a s v fc :
  settled fc -> settled (update now thr a s v fc).
Proof.
  intros (Ha & Hr & _). unfold settled.
  rewrite update_controls, Ha, Hr.
  now destruct (currentPhase_ (update now thr a s v fc)).
Qed.

Lemma settled_step fc o : settled fc -> settled (step fc o).
Proof.
  destruct o; cbn [step].
  - intros _. now repeat split.
  - apply settled_update.
  - exact (fun H => H).
Qed.

Lemma settled_exec ops : forall fc, settled fc -> settled (exec ops fc).
Proof.
  induction ops as [|o ops IH]; intros fc H; [exact H|].
  apply IH, settled_step, H.
Qed.

(** The clamp is enough from any state whose aileron and rudder are
    numbers: whatever values they hold, [update] leaves all four surfaces
    in range. *)
Lemma update_clamps_any_state now thr a s v fc :
  PrimFloat.is_nan (aileron (controls_ fc)) = false ->
  PrimFloat.is_nan (rudder (controls_ fc)) = false ->
  in_range (controls_ (update now thr a s v fc)) = true.
Proof.
  intros Ha Hr. rewrite update_controls. unfold in_range.
  cbn [elevator aileron rudder throttle].
  destruct (clamp_bounds (aileron (controls_ fc)) (-1.0) 1.0 Ha eq_refl)
    as (A1 & A2).
  destruct (clamp_bounds (rudder (controls_ fc)) (-1.0) 1.0 Hr eq_refl)
    as (R1 & R2).
  rewrite A1, A2, R1, R2.
  now destruct (currentPhase_ (update now thr a s v fc)).
Qed.

(** C7.  In every state the controller can reach from its constructor by
    [initialize], [update] and [triggerEmergency], in any order, the
    exposed surfaces are in range: elevator, aileron and rudder within
    [-1, 1], throttle within [0, 1]; so they are after [initialize()] too.
    And [update] clamps all four on every call, from whatever state: what
    it exposes is the clamped target of the phase it ends in and the
    clamped former aileron and rudder; the clamp brings every number into
    the range it is given, so from any state, in range or not, whose
    aileron and rudder are numbers, [update] exposes surfaces in range: a
    controller holding elevator 3, aileron 5, rudder -7 and throttle 2 in
    CRUISE exposes 0, 1, -1 and 0.7 after one [update]. *)
Theorem control_surfaces_in_range :
  forall (now0 : Z) (ops : list Op),
    let fc := exec ops (new now0) in
    in_range (getControlSurfaces fc) = true
    /\ in_range (getControlSurfaces (initialize now0 fc)) = true
    /\ (forall now thr a s v (fc0 : t),
          let fc' := update now thr a s v fc0 in
          getControlSurfaces fc'
          = mkControls
              (Double.clamp (fst (law (currentPhase_ fc'))) (-1.0) 1.0)
              (Double.clamp (aileron (controls_ fc0)) (-1.0) 1.0)
              (Double.clamp (rudder (controls_ fc0)) (-1.0) 1.0)
              (Double.clamp (snd (law (currentPhase_ fc'))) 0.0 1.0))
    /\ (forall now thr a s v (fc0 : t),
          PrimFloat.is_nan (aileron (controls_ fc0)) = false ->
          PrimFloat.is_nan (rudder (controls_ fc0)) = false ->
          in_range (getControlSurfaces (update now thr a s v fc0)) = true)
    /\ (forall v lo hi : float,
          PrimFloat.is_nan v = false -> PrimFloat.leb lo hi = true ->
          PrimFloat.leb lo (Double.clamp v lo hi) = true
          /\ PrimFloat.leb (Double.clamp v lo hi) hi = true)
    /\ (forall now thr a s v,
          getControlSurfaces
            (update now thr a s v
               (mk CRUISE CLIMB (mkControls 3.0 5.0 (-7.0) 2.0) now []))
          = mkControls 0.0 1.0 (-1.0) 0.7).
Proof.
  intros now0 ops fc. repeat apply conj.
  - apply (settled_exec ops (new now0)). now repeat split.
  - reflexivity.
  - intros. apply update_controls.
  - intros now thr a s v fc0 Ha Hr. now apply update_clamps_any_state.
  - intros v lo hi Hv Hlh. now apply clamp_bounds.
  - intros now thr a s v. unfold update, elapsed_seconds.
    cbn [currentPhase_ phaseStartTime_]. rewrite Z.sub_diag.
    reflexivity.
Qed.


Lemma alike_step fc1 fc2 o : alike fc1 fc2 -> alike (step fc1 o) (step fc2 o).
Proof.
  destruct fc1 as [p1 q1 c1 t1 k1], fc2 as [p2 q2 c2 t2 k2].
  unfold alike. cbn. intros (-> & -> & Ht).
  destruct o as [now|now thr a s v|now reason]; cbn.
  - repeat split.
  - unfold update. cbn.
    destruct p2; cbn;
      try (rewrite (Ht eq_refl));
      match goal with
      | |- context [if ?c then _ else _] => destruct c
      | _ => idtac
      end; cbn; repeat split; try discriminate; auto.
  - repeat split.
Qed.

Lemma alike_observe ops : forall fc1 fc2,
  alike fc1 fc2 -> observe ops fc1 = observe ops fc2.
Proof.
  induction ops as [|o ops IH]; intros fc1 fc2 H; [reflexivity|].
  pose proof (alike_step _ _ o H) as H'. cbn.
  rewrite (IH _ _ H'). destruct H' as (Hp & Hc & _).
  unfold getCurrentPhase, getControlSurfaces. now rewrite Hp, Hc.
Qed.



(** C8.  On a controller already in EMERGENCY, [triggerEmergency] changes
    nothing a client can observe: the phase read back is still EMERGENCY,
    the surfaces are the same, and after any further sequence of operations
    both getters answer as they would have without the call.  The one
    trace it leaves is the line with the reason on the console. *)
Theorem triggerEmergency_idempotent :
  forall (now : Z) (reason : string) (fc : t),
    currentPhase_ fc = EMERGENCY ->
    let fc' := triggerEmergency now reason fc in
    getCurrentPhase fc' = EMERGENCY
    /\ getControlSurfaces fc' = getControlSurfaces fc
    /\ console_ fc'
       = console_ fc ++
         [("[FlightController] EMERGENCY TRIGGERED: " ++ reason)%string]
    /\ forall ops, observe ops fc' = observe ops fc.
Proof.
  intros now reason fc He. cbn zeta. repeat split.
  intros ops. apply alike_observe. unfold alike. cbn. rewrite He.
  repeat split; discriminate.
Qed.

Lemma triggerEmergency_idempotent_witness :
  let fc := triggerEmergency 5 "Critical fault detected" (new 0) in
  currentPhase_ fc = EMERGENCY
  /\ forall ops,
       observe ops (triggerEmergency 9 "again" fc) = observe ops fc.
Proof.
  split; [reflexivity|].
  apply (triggerEmergency_idempotent 9 "again"
           (triggerEmergency 5 "Critical fault detected" (new 0))).
  reflexivity.
Defined.









End FlightControllerFacts.

(** ** SensorProcessor: filter, vertical speed, sentinels *)

Section SensorProcessorFacts.

Import SensorProcessor.

Section FilterWindow.

Lemma window_length l : (List.length (window l) <= FILTER_WINDOW_SIZE)%nat.
Proof. unfold window. rewrite length_skipn. unfold FILTER_WINDOW_SIZE. lia. Qed.

Lemma window_short l :
  (List.length l <= FILTER_WINDOW_SIZE)%nat -> window l = l.
Proof.
  intros H. unfold window. replace (_ - _)%nat with 0%nat by lia. reflexivity.
Qed.

Lemma window_app l vs : window (window l ++ vs) = window (l ++ vs).
Proof.
  unfold window. set (k := (List.length l - FILTER_WINDOW_SIZE)%nat).
  assert (Hk : (k <= List.length l)%nat) by (subst k; lia).
  replace (skipn k l ++ vs) with (skipn k (l ++ vs))
    by (rewrite skipn_app; replace (k - List.length l)%nat with 0%nat by lia;
        reflexivity).
  rewrite skipn_skipn, length_skipn. f_equal.
  rewrite length_app. subst k. lia.
Qed.

Lemma applyFilter_fst h v :
  fst (applyFilter h v) = mean (snd (applyFilter h v)).
Proof. reflexivity. Qed.

Lemma applyFilter_window h v :
  (List.length h <= FILTER_WINDOW_SIZE)%nat ->
  snd (applyFilter h v) = window (h ++ [v]).
Proof.
  intros H. unfold applyFilter, window. cbn [snd].
  rewrite length_app. cbn [List.length].
  destruct (Nat.ltb_spec FILTER_WINDOW_SIZE (List.length h + 1)) as [Hlt|Hle].
  - replace (List.length h + 1 - FILTER_WINDOW_SIZE)%nat with 1%nat by lia.
    reflexivity.
  - replace (List.length h + 1 - FILTER_WINDOW_SIZE)%nat with 0%nat by lia.
    reflexivity.
Qed.

Lemma filter_all_window vs : forall h,
  (List.length h <= FILTER_WINDOW_SIZE)%nat ->
  snd (filter_all h vs) = window (h ++ vs).
Proof.
  induction vs as [|v vs IH]; intros h H; cbn [filter_all].
  - rewrite app_nil_r. symmetry. now apply window_short.
  - pose proof (applyFilter_window h v H) as Hw.
    destruct (applyFilter h v) as [out h1]. cbn [snd] in Hw. subst h1.
    specialize (IH (window (h ++ [v])) (window_length _)).
    destruct (filter_all (window (h ++ [v])) vs) as [outs h2].
    cbn [snd] in *. rewrite IH, window_app, <- app_assoc. reflexivity.
Qed.

Lemma filter_all_outputs vs : forall h k,
  (List.length h <= FILTER_WINDOW_SIZE)%nat -> (k < List.length vs)%nat ->
  nth k (fst (filter_all h vs)) 0%float
  = mean (window (h ++ firstn (S k) vs)).
Proof.
  induction vs as [|v vs IH]; intros h k H Hk; [cbn in Hk; lia|].
  cbn [filter_all].
  pose proof (applyFilter_window h v H) as Hw.
  pose proof (applyFilter_fst h v) as Hf.
  destruct (applyFilter h v) as [out h1]. cbn [fst snd] in Hw, Hf. subst h1.
  specialize (IH (window (h ++ [v]))).
  destruct (filter_all (window (h ++ [v])) vs) as [outs h2].
  cbn [fst] in *. destruct k as [|k].
  - cbn. exact Hf.
  - cbn [nth]. rewrite IH; [|apply window_length|cbn in Hk; lia].
    rewrite window_app, <- app_assoc. reflexivity.
Qed.

Lemma window_repeat h V n :
  (FILTER_WINDOW_SIZE <= n)%nat ->
  window (h ++ repeat V n) = repeat V FILTER_WINDOW_SIZE.
Proof.
  intros Hn. unfold window. rewrite length_app, repeat_length, skipn_app.
  rewrite skipn_all2 by lia. cbn [app].
  replace (List.length h + n - FILTER_WINDOW_SIZE - List.length h)%nat
    with (n - FILTER_WINDOW_SIZE)%nat by lia.
  replace n with ((n - FILTER_WINDOW_SIZE) + FILTER_WINDOW_SIZE)%nat at 2
    by lia.
  rewrite repeat_app, skipn_app, skipn_all2 by (rewrite repeat_length; lia).
  rewrite repeat_length, Nat.sub_diag. reflexivity.
Qed.

Lemma firstn_repeat_min {A} (x : A) n : forall k,
  firstn k (repeat x n) = repeat x (Nat.min k n).
Proof.
  induction n as [|n IH]; intros [|k]; cbn; try reflexivity.
  now rewrite IH.
Qed.

End FilterWindow.

(** C6 (amended).  With at most N = 5 entries in the history, the filter
    appends the sample, keeps the newest N, and returns their binary64
    mean; fed from an empty history, output [k] averages the newest
    [min (k+1) N] samples.  Fed a constant [V] at least N times, the history
    becomes N copies of [V] and every output from the N-th on is the
    binary64 value of [(0 + V + V + V + V + V) / 5]: that is [V] itself
    where the sums are exact, as for the sentinel and for [0], and can
    differ from [V] in the last place otherwise. *)
Theorem moving_average_window :
  forall (h : list float) (V : float) (n : nat),
    (List.length h <= FILTER_WINDOW_SIZE)%nat ->
    (FILTER_WINDOW_SIZE <= n)%nat ->
    (forall v, applyFilter h v = (mean (window (h ++ [v])), window (h ++ [v])))
    /\ (forall vs k,
          (k < List.length vs)%nat ->
          nth k (fst (filter_all [] vs)) 0%float
          = mean (window (firstn (S k) vs)))
    /\ snd (filter_all h (repeat V n)) = repeat V FILTER_WINDOW_SIZE
    /\ (forall k,
          (FILTER_WINDOW_SIZE - 1 <= k < n)%nat ->
          nth k (fst (filter_all h (repeat V n))) 0%float
          = ((0 + V + V + V + V + V) / 5)%float)
    /\ ((0 + sentinel + sentinel + sentinel + sentinel + sentinel) / 5)%float
       = sentinel
    /\ ((0 + 0 + 0 + 0 + 0 + 0) / 5)%float = 0%float.
Proof.
  intros h V n Hh Hn. repeat split.
  - intros v. pose proof (applyFilter_window h v Hh) as Hw.
    pose proof (applyFilter_fst h v) as Hf.
    destruct (applyFilter h v) as [out h1]. cbn [fst snd] in *. now subst.
  - intros vs k Hk. now rewrite filter_all_outputs by (cbn; lia).
  - rewrite filter_all_window by exact Hh. now apply window_repeat.
  - intros k Hk. rewrite filter_all_outputs by (rewrite ?repeat_length; lia).
    rewrite firstn_repeat_min.
    replace (Nat.min (S k) n) with (S k) by lia.
    rewrite window_repeat by (unfold FILTER_WINDOW_SIZE in *; lia).
    reflexivity.
Qed.

Lemma moving_average_window_witness :
  snd (filter_all [0; 3000]%float (repeat sentinel 6)) = repeat sentinel 5
  /\ nth 5 (fst (filter_all [0; 3000]%float (repeat sentinel 6))) 0%float
     = sentinel.
Proof.
  destruct (moving_average_window [0; 3000]%float sentinel 6)
    as (_ & _ & Hhist & Hout & Hexact & _).
  - cbn. unfold FILTER_WINDOW_SIZE. lia.
  - unfold FILTER_WINDOW_SIZE. lia.
  - split; [exact Hhist|].
    rewrite Hout by (unfold FILTER_WINDOW_SIZE; lia). exact Hexact.
Defined.

(** C6 as stated fails: fed the constant 0.11 five times from an empty
    history, the filter holds five copies of it and returns the next double
    above it, 0.11000000000000001. *)
Lemma moving_average_constant_not_exact :
  let V := 0.11%float in
  let outs := fst (filter_all [] (repeat V 5)) in
  snd (filter_all [] (repeat V 5)) = repeat V 5
  /\ nth 4 outs 0%float = 0x1.c28f5c28f5c2ap-4%float
  /\ (nth 4 outs 0 =? V)%float = false
  /\ nth 4 outs 0%float <> V.
Proof.
  cbn zeta. repeat split.
  intros H. apply (f_equal (fun x => PrimFloat.eqb x 0.11)) in H.
  vm_compute in H. discriminate H.
Qed.

Section Channels.

Variable libm : Libm.

Lemma simulateAltitude_frame time sp :
  same_channels sp (snd (simulateAltitude libm time sp)).
Proof.
  unfold simulateAltitude, same_channels.
  destruct (altitudeFault_ sp) eqn:E; cbn; rewrite ?E; now repeat split.
Qed.

Lemma simulateAirspeed_frame time sp :
  same_channels sp (snd (simulateAirspeed libm time sp)).
Proof.
  unfold simulateAirspeed, same_channels.
  destruct (airspeedFault_ sp) eqn:E; cbn; rewrite ?E; now repeat split.
Qed.

Lemma simulatePressure_frame a sp :
  same_channels sp (snd (simulatePressure libm a sp)).
Proof.
  unfold simulatePressure, same_channels.
  destruct (pressureFault_ sp) eqn:E; cbn; rewrite ?E; now repeat split.
Qed.

Lemma simulateTemperature_frame a sp :
  same_channels sp (snd (simulateTemperature a sp)).
Proof. unfold simulateTemperature, same_channels. cbn. now repeat split. Qed.

Lemma rawAltitude_faulted time sp :
  altitudeFault_ sp = true -> rawAltitude libm time sp = sentinel.
Proof. unfold rawAltitude, simulateAltitude. now intros ->. Qed.

Lemma rawAltitude_nonneg time sp :
  altitudeFault_ sp = false -> Double.nonneg (rawAltitude libm time sp) = true.
Proof.
  unfold rawAltitude, simulateAltitude. intros ->. cbn.
  apply max_zero_nonneg.
Qed.

Lemma rawAirspeed_faulted time sp :
  airspeedFault_ sp = true -> rawAirspeed libm time sp = sentinel.
Proof.
  unfold rawAirspeed. intros H.
  destruct (simulateAltitude_frame time sp) as (_ & _ & _ & Hs & _).
  unfold simulateAirspeed. now rewrite Hs, H.
Qed.

Lemma rawAirspeed_nonneg time sp :
  airspeedFault_ sp = false -> Double.nonneg (rawAirspeed libm time sp) = true.
Proof.
  unfold rawAirspeed. intros H.
  destruct (simulateAltitude_frame time sp) as (_ & _ & _ & Hs & _).
  unfold simulateAirspeed. rewrite Hs, H. cbn.
  apply max_zero_nonneg.
Qed.

(** What one [processSensors] leaves and returns, channel by channel. *)
Lemma processSensors_spec time sp :
  let d := fst (processSensors libm time sp) in
  let sp' := snd (processSensors libm time sp) in
  altitudeHistory_ sp'
  = snd (applyFilter (altitudeHistory_ sp) (rawAltitude libm time sp))
  /\ airspeedHistory_ sp'
     = snd (applyFilter (airspeedHistory_ sp) (rawAirspeed libm time sp))
  /\ altitudeFault_ sp' = altitudeFault_ sp
  /\ airspeedFault_ sp' = airspeedFault_ sp
  /\ pressureFault_ sp' = pressureFault_ sp
  /\ altitude d = mean (altitudeHistory_ sp')
  /\ airspeed d = mean (airspeedHistory_ sp')
  /\ verticalSpeed d = verticalSpeed_of (altitudeHistory_ sp')
  /\ valid d = areSensorsHealthy sp.
Proof.
  cbn zeta. unfold processSensors, rawAltitude, rawAirspeed.
  pose proof (simulateAltitude_frame time sp) as F1.
  destruct (simulateAltitude libm time sp) as [ra sp1]. cbn [fst snd] in *.
  pose proof (simulateAirspeed_frame time sp1) as F2.
  destruct (simulateAirspeed libm time sp1) as [rs sp2]. cbn [fst snd] in *.
  destruct F1 as (A1 & S1 & Fa1 & Fs1 & Fp1).
  destruct F2 as (A2 & S2 & Fa2 & Fs2 & Fp2).
  rewrite A2, A1, S2, S1.
  rewrite (surjective_pairing (applyFilter (altitudeHistory_ sp) ra)).
  rewrite (surjective_pairing (applyFilter (airspeedHistory_ sp) rs)).
  cbv beta iota.
  set (ah := applyFilter (altitudeHistory_ sp) ra).
  set (sh := applyFilter (airspeedHistory_ sp) rs).
  set (sp3 := with_histories (snd ah) (snd sh) sp2).
  pose proof (simulatePressure_frame (fst ah) sp3) as F4.
  destruct (simulatePressure libm (fst ah) sp3) as [pres sp4].
  cbn [fst snd] in F4.
  pose proof (simulateTemperature_frame (fst ah) sp4) as F5.
  destruct (simulateTemperature (fst ah) sp4) as [temp sp5].
  cbn [fst snd] in F5.
  destruct F4 as (A4 & S4 & Fa4 & Fs4 & Fp4).
  destruct F5 as (A5 & S5 & Fa5 & Fs5 & Fp5).
  cbn [fst snd altitude airspeed verticalSpeed valid].
  rewrite A5, A4, S5, S4, Fa5, Fa4, Fs5, Fs4, Fp5, Fp4.
  subst sp3. cbn [with_histories altitudeHistory_ airspeedHistory_
                  altitudeFault_ airspeedFault_ pressureFault_].
  rewrite Fa2, Fa1, Fs2, Fs1, Fp2, Fp1.
  repeat split.
Qed.

End Channels.

Section VerticalSpeed.

Variable libm : Libm.

Lemma applyFilter_keeps_last_two h p v :
  exists h', snd (applyFilter (h ++ [p]) v) = h' ++ [p; v].
Proof.
  unfold applyFilter. cbn [snd]. rewrite <- app_assoc. cbn [app].
  destruct (_ <? _)%nat eqn:E.
  - destruct h as [|x h]; [discriminate E|]. now exists h.
  - now exists h.
Qed.

Lemma verticalSpeed_of_last_two h p v :
  verticalSpeed_of (h ++ [p; v]) = ((v - p) * 10.0)%float.
Proof.
  unfold verticalSpeed_of. rewrite length_app. cbn [List.length].
  replace (2 <=? List.length h + 2)%nat with true
    by (symmetry; apply Nat.leb_le; lia).
  replace (List.length h + 2 - 2)%nat with (List.length h) by lia.
  rewrite nth_middle.
  change (h ++ [p; v]) with (h ++ [p] ++ [v]).
  now rewrite app_assoc, last_last.
Qed.

Lemma verticalSpeed_first v :
  verticalSpeed_of (snd (applyFilter [] v)) = 0%float.
Proof. reflexivity. Qed.

End VerticalSpeed.

(** C5 (amended).  On the first sample after [initialize()] the vertical
    speed is exactly zero.  On every later one it is the newest raw
    altitude reading minus the raw reading before it (the last two entries
    of the altitude history, not two filtered outputs), times the constant
    10.0; and the snapshot of a tick carries that value whatever the tick
    spacing [dt] is. *)
Theorem verticalSpeed_is_raw_difference_times_ten :
  forall (libm : Libm) (time : float) (rng : Rng) (spd : list float)
         (fa fs fp : bool),
    verticalSpeed (fst (processSensors libm time (mk rng [] spd fa fs fp)))
    = 0%float
    /\ (forall h p,
          let sp := mk rng (h ++ [p]) spd fa fs fp in
          verticalSpeed (fst (processSensors libm time sp))
          = ((rawAltitude libm time sp - p) * 10.0)%float)
    /\ (forall clock dt m,
          TelemetryLogger.sensors (snd (SystemMonitor.tick libm clock dt m))
          = fst (processSensors libm (SystemMonitor.simulationTime_ m)
                   (SystemMonitor.sensorProcessor_ m))).
Proof.
  intros. split; [|split].
  - destruct (processSensors_spec libm time (mk rng [] spd fa fs fp))
      as (Ha & _ & _ & _ & _ & _ & _ & Hv & _).
    rewrite Hv, Ha. reflexivity.
  - intros h p sp.
    destruct (processSensors_spec libm time sp)
      as (Ha & _ & _ & _ & _ & _ & _ & Hv & _).
    rewrite Hv, Ha. cbn [altitudeHistory_ sp].
    destruct (applyFilter_keeps_last_two h p (rawAltitude libm time sp))
      as (h' & ->).
    apply verticalSpeed_of_last_two.
  - intros clock dt m. unfold SystemMonitor.tick.
    destruct (processSensors libm _ _) as [d sp']. reflexivity.
Qed.

(** C5 as stated fails: with a noise-free generator, the samples at 20 s
    and 21 s read raw altitudes 0 and 5, so the filtered altitudes are 0 and
    2.5 and the vertical speed is 50: neither 2.5 times 10 nor 2.5 times the
    tick rate of 1 Hz.  Likewise in the loop run at 1 Hz: the snapshots at
    21 s and 22 s have filtered altitudes 1 and 5 and the one at 22 s has
    vertical speed 150, the raw step from 5 to 20 times 10. *)
Lemma verticalSpeed_not_filtered_difference :
  let ds := fst (sample libm_flat [20.0; 21.0]%float (new quiet)) in
  let d1 := nth 0 ds (mkSensorData 0 0 0 0 0 true) in
  let d2 := nth 1 ds (mkSensorData 0 0 0 0 0 true) in
  let clock := SystemMonitor.mkClock 0 0 0 in
  let rows := snd (SystemMonitor.loop libm_flat 23 (SystemMonitor.still clock)
                     23 (1.0 / 1.0) 0 (SystemMonitor.started quiet clock)) in
  let s21 := TelemetryLogger.sensors
               (nth 21 rows (TelemetryLogger.mkLogRow 0 d1
                               FlightController.PREFLIGHT
                               (FlightController.mkControls 0 0 0 0) 0)) in
  let s22 := TelemetryLogger.sensors
               (nth 22 rows (TelemetryLogger.mkLogRow 0 d1
                               FlightController.PREFLIGHT
                               (FlightController.mkControls 0 0 0 0) 0)) in
  (altitude d1 = 0%float /\ altitude d2 = 2.5%float
   /\ verticalSpeed d1 = 0%float /\ verticalSpeed d2 = 50%float
   /\ verticalSpeed d2 <> ((altitude d2 - altitude d1) * 10.0)%float
   /\ verticalSpeed d2 <> ((altitude d2 - altitude d1) * 1.0)%float)
  /\ (altitude s21 = 1%float /\ altitude s22 = 5%float
      /\ verticalSpeed s22 = 150%float
      /\ verticalSpeed s22 <> ((altitude s22 - altitude s21) * 10.0)%float
      /\ verticalSpeed s22 <> ((altitude s22 - altitude s21) * 1.0)%float).
Proof.
  cbn zeta. repeat split; try (vm_compute; reflexivity);
    intros H;
    first [ apply (f_equal (fun x => PrimFloat.eqb x 50)) in H;
            vm_compute in H; discriminate H
          | apply (f_equal (fun x => PrimFloat.eqb x 150)) in H;
            vm_compute in H; discriminate H ].
Qed.

Section Samples.

Variable libm : Libm.

Lemma window_incl l x : In x (window l) -> In x l.
Proof.
  unfold window. intros H.
  rewrite <- (firstn_skipn (List.length l - FILTER_WINDOW_SIZE) l).
  apply in_or_app. now right.
Qed.




(** The histories after [sample] are those of the filter fed the raw
    readings of the channels, which are the sentinel under a fault and
    not below zero otherwise. *)
Lemma sample_histories times : forall sp,
  let sp' := snd (sample libm times sp) in
  altitudeFault_ sp' = altitudeFault_ sp
  /\ airspeedFault_ sp' = airspeedFault_ sp
  /\ pressureFault_ sp' = pressureFault_ sp
  /\ List.length (fst (sample libm times sp)) = List.length times
  /\ (exists raws,
        List.length raws = List.length times
        /\ altitudeHistory_ sp' = snd (filter_all (altitudeHistory_ sp) raws)
        /\ (altitudeFault_ sp = true -> Forall (eq sentinel) raws)
        /\ (altitudeFault_ sp = false ->
            Forall (fun v => Double.nonneg v = true) raws))
  /\ (exists raws,
        List.length raws = List.length times
        /\ airspeedHistory_ sp' = snd (filter_all (airspeedHistory_ sp) raws)
        /\ (airspeedFault_ sp = true -> Forall (eq sentinel) raws)
        /\ (airspeedFault_ sp = false ->
            Forall (fun v => Double.nonneg v = true) raws)).
Proof.
  induction times as [|time times IH]; intros sp; cbn zeta.
  - cbn. repeat split; exists []; repeat split; constructor.
  - cbn [sample].
    destruct (processSensors_spec libm time sp)
      as (Ha & Hs & Fa & Fs & Fp & _).
    destruct (processSensors libm time sp) as [d sp1]. cbn [fst snd] in *.
    specialize (IH sp1). cbn zeta in IH.
    destruct (sample libm times sp1) as [ds sp2]. cbn [fst snd] in *.
    destruct IH as (Fa2 & Fs2 & Fp2 & Hlen & (ra & La & Ea & Ta & Na)
                    & (rs & Ls & Es & Ts & Ns)).
    rewrite Fa2, Fs2, Fp2, Fa, Fs, Fp. repeat split; [cbn; lia | |].
    + exists (rawAltitude libm time sp :: ra).
      cbn [filter_all List.length].
      rewrite (surjective_pairing (applyFilter _ _)), <- Ha.
      rewrite (surjective_pairing (filter_all _ ra)). cbn [snd].
      repeat split; [lia | exact Ea | |]; intros Hf; constructor;
        rewrite ?Fa in *; auto.
      * symmetry. now apply rawAltitude_faulted.
      * now apply rawAltitude_nonneg.
    + exists (rawAirspeed libm time sp :: rs).
      cbn [filter_all List.length].
      rewrite (surjective_pairing (applyFilter _ _)), <- Hs.
      rewrite (surjective_pairing (filter_all _ rs)). cbn [snd].
      repeat split; [lia | exact Es | |]; intros Hf; constructor;
        rewrite ?Fs in *; auto.
      * symmetry. now apply rawAirspeed_faulted.
      * now apply rawAirspeed_nonneg.
Qed.




End Samples.

Section Sentinel.

Variable libm : Libm.



Lemma applyFilter_length h v :
  (List.length h <= FILTER_WINDOW_SIZE)%nat ->
  (1 <= List.length (snd (applyFilter h v)) <= FILTER_WINDOW_SIZE)%nat.
Proof.
  intros H. rewrite applyFilter_window by exact H.
  unfold window. rewrite length_skipn, length_app. cbn [List.length].
  unfold FILTER_WINDOW_SIZE in *. lia.
Qed.




End Sentinel.



End SensorProcessorFacts.

(** ** SystemMonitor: the control loop *)

Section SystemMonitorFacts.

Import SystemMonitor.

Section ClosedLoop.

Variable libm : SensorProcessor.Libm.

Lemma no_fatal_reportFault now sev comp descr h :
  sev <> FaultHandler.FATAL -> no_fatal h ->
  no_fatal (FaultHandler.reportFault now sev comp descr h).
Proof.
  intros Hs H. unfold no_fatal.
  replace (FaultHandler.faults_ (FaultHandler.reportFault now sev comp descr h))
    with (FaultHandler.faults_ h
          ++ [FaultHandler.mkFaultRecord now sev comp descr false])
    by (now destruct sev).
  apply Forall_app. split; [exact H|]. constructor; [exact Hs|constructor].
Qed.

Lemma no_fatal_report_if c now sev comp descr h :
  (c = true -> sev <> FaultHandler.FATAL) -> no_fatal h ->
  no_fatal (FaultHandler.report_if c now sev comp descr h).
Proof.
  intros Hs H. destruct c; cbn; [|exact H].
  apply no_fatal_reportFault; auto.
Qed.

Lemma no_fatal_checkSensorHealth now a s p v h :
  (a <? 0)%float = false -> no_fatal h ->
  no_fatal (FaultHandler.checkSensorHealth now a s p v h).
Proof.
  intros Ha H. unfold FaultHandler.checkSensorHealth.
  destruct (negb v).
  - apply no_fatal_reportFault; [discriminate | exact H].
  - rewrite Ha. cbn [andb].
    repeat (apply no_fatal_report_if; [intros; discriminate|]). exact H.
Qed.

Lemma no_fatal_checkControlSystem now e a r h :
  no_fatal h -> no_fatal (FaultHandler.checkControlSystem now e a r h).
Proof.
  intros H. unfold FaultHandler.checkControlSystem.
  repeat (apply no_fatal_report_if; [intros; discriminate|]). exact H.
Qed.

Lemma mean_nonneg l :
  (1 <= List.length l <= SensorProcessor.FILTER_WINDOW_SIZE)%nat ->
  Forall (fun v => Double.nonneg v = true) l ->
  Double.nonneg (SensorProcessor.mean l) = true.
Proof.
  intros Hl H. unfold SensorProcessor.mean.
  apply div_size_nonneg; [exact Hl | now apply accumulate_nonneg].
Qed.

Lemma altitude_clean_processSensors time sp :
  altitude_clean sp ->
  altitude_clean (snd (SensorProcessor.processSensors libm time sp))
  /\ Double.nonneg
       (SensorProcessor.altitude
          (fst (SensorProcessor.processSensors libm time sp))) = true.
Proof.
  intros (Hf & Hlen & Hnn).
  destruct (processSensors_spec libm time sp)
    as (Ha & _ & Fa & _ & _ & Hma & _).
  pose proof (applyFilter_length (SensorProcessor.altitudeHistory_ sp)
                (SensorProcessor.rawAltitude libm time sp) Hlen) as Hl.
  assert (Hall : Forall (fun v => Double.nonneg v = true)
                   (SensorProcessor.altitudeHistory_
                      (snd (SensorProcessor.processSensors libm time sp)))).
  { rewrite Ha, applyFilter_window by exact Hlen.
    apply Forall_forall. intros x Hx. apply window_incl in Hx.
    apply in_app_or in Hx. destruct Hx as [Hx|[<-|[]]].
    - rewrite Forall_forall in Hnn. now apply Hnn.
    - now apply rawAltitude_nonneg. }
  rewrite <- Ha in Hl. split.
  - repeat split; [now rewrite Fa | lia | exact Hall].
  - rewrite Hma. now apply mean_nonneg.
Qed.

Lemma tick_closed_loop clock dt m :
  closed_loop m -> closed_loop (fst (tick libm clock dt m)).
Proof.
  intros (Hc & Hn). unfold tick.
  destruct (altitude_clean_processSensors (simulationTime_ m) _ Hc)
    as (Hc' & Halt).
  destruct (SensorProcessor.processSensors libm (simulationTime_ m)
              (sensorProcessor_ m)) as [d sp1].
  cbn [fst snd] in *. split; cbn [sensorProcessor_ faultHandler_].
  - destruct Hc' as (Hf & Hl & Hnn).
    destruct (_ <? dt)%float, (_ <? dt)%float; repeat split; assumption.
  - apply no_fatal_checkControlSystem, no_fatal_checkSensorHealth;
      [now apply nonneg_not_lt_zero | exact Hn].
Qed.

Lemma loop_closed_loop fuel clock duration dt : forall i m,
  closed_loop m -> closed_loop (fst (loop libm fuel clock duration dt i m)).
Proof.
  induction fuel as [|fuel IH]; intros i m H; [exact H|].
  cbn [loop]. destruct (_ <? duration)%float; [|exact H].
  pose proof (tick_closed_loop (clock i) dt m H) as H1.
  destruct (tick libm (clock i) dt m) as [m1 row]. cbn [fst] in H1.
  specialize (IH (S i) m1 H1).
  destruct (loop libm fuel clock duration dt (S i) m1) as [m2 rows].
  exact IH.
Qed.

Lemma started_closed_loop noise clock0 : closed_loop (started noise clock0).
Proof.
  repeat split; try constructor. cbn.
  unfold SensorProcessor.FILTER_WINDOW_SIZE. lia.
Qed.

End ClosedLoop.

Section Tick.

Variable libm : SensorProcessor.Libm.

Lemma tick_spec clock dt m :
  let m' := fst (tick libm clock dt m) in
  let row := snd (tick libm clock dt m) in
  let fc1 := updated libm clock m in
  let fh2 := checked libm clock m in
  let emergency :=
    negb (FaultHandler.isSystemSafe fh2)
    && negb (FlightController.FlightPhase_eqb
               (FlightController.currentPhase_ fc1)
               FlightController.EMERGENCY) in
  faultHandler_ m' = fh2
  /\ flightController_ m'
     = (if emergency
        then FlightController.triggerEmergency (steady clock)
               "Critical fault detected" fc1
        else fc1)
  /\ TelemetryLogger.phase row = FlightController.currentPhase_ fc1
  /\ TelemetryLogger.controls row = FlightController.controls_ fc1
  /\ TelemetryLogger.activeFaults row
     = Z.of_nat (List.length (FaultHandler.getActiveFaults fh2))
  /\ TelemetryLogger.simulationTime row = simulationTime_ m
  /\ simulationTime_ m' = (simulationTime_ m + dt)%float.
Proof.
  cbn zeta. unfold tick, checked, updated.
  destruct (SensorProcessor.processSensors libm (simulationTime_ m)
              (sensorProcessor_ m)) as [s sp1].
  cbn [fst snd]. repeat apply conj; reflexivity.
Qed.

Lemma update_emergency now thr a s v fc :
  FlightController.currentPhase_ fc = FlightController.EMERGENCY ->
  FlightController.currentPhase_ (FlightController.update now thr a s v fc)
  = FlightController.EMERGENCY.
Proof. intros H. unfold FlightController.update. now rewrite H. Qed.

Lemma FlightPhase_eqb_eq a b :
  FlightController.FlightPhase_eqb a b = true <-> a = b.
Proof. destruct a, b; cbn; split; congruence. Qed.

Lemma tick_overridden clock dt m : overridden (fst (tick libm clock dt m)).
Proof.
  unfold overridden.
  destruct (tick_spec clock dt m) as (Hh & Hc & _). cbn zeta in Hc.
  rewrite Hh, Hc. intros Hs. rewrite Hs. cbn [negb andb].
  destruct (FlightController.FlightPhase_eqb _ _) eqn:E; cbn [negb].
  - now apply FlightPhase_eqb_eq.
  - reflexivity.
Qed.

Lemma loop_overridden fuel clock duration dt : forall i m,
  overridden m -> overridden (fst (loop libm fuel clock duration dt i m)).
Proof.
  induction fuel as [|fuel IH]; intros i m H; [exact H|].
  cbn [loop]. destruct (_ <? duration)%float; [|exact H].
  pose proof (tick_overridden (clock i) dt m) as H1.
  destruct (tick libm (clock i) dt m) as [m1 row]. cbn [fst] in H1.
  specialize (IH (S i) m1 H1).
  destruct (loop libm fuel clock duration dt (S i) m1) as [m2 rows].
  exact IH.
Qed.

End Tick.

(** C1 (amended).  In every tick, from every state of the monitor: if the
    handler is unsafe after the two checks and the controller is not in
    EMERGENCY, [triggerEmergency] is called; so when the tick ends, unsafe
    implies that the controller is in EMERGENCY, and the loop started by
    [main] keeps that at every iteration.  The snapshot of a tick that ends
    unsafe shows EMERGENCY unless the override fired in that very tick; in
    particular it shows EMERGENCY whenever the tick began in EMERGENCY. *)
Theorem emergency_override_each_tick :
  forall (libm : SensorProcessor.Libm) (clock : Clock) (dt : float) (m : t),
    let m' := fst (tick libm clock dt m) in
    let row := snd (tick libm clock dt m) in
    let fc1 := updated libm clock m in
    let fired :=
      flightController_ m'
      = FlightController.triggerEmergency (steady clock)
          "Critical fault detected" fc1 in
    (FaultHandler.isSystemSafe (checked libm clock m) = false ->
     FlightController.currentPhase_ fc1 <> FlightController.EMERGENCY ->
     fired)
    /\ faultHandler_ m' = checked libm clock m
    /\ (FaultHandler.isSystemSafe (faultHandler_ m') = false ->
        FlightController.currentPhase_ (flightController_ m')
        = FlightController.EMERGENCY)
    /\ (FaultHandler.isSystemSafe (faultHandler_ m') = false ->
        TelemetryLogger.phase row = FlightController.EMERGENCY \/ fired)
    /\ (FlightController.currentPhase_ (flightController_ m)
        = FlightController.EMERGENCY ->
        TelemetryLogger.phase row = FlightController.EMERGENCY
        /\ FlightController.currentPhase_ (flightController_ m')
           = FlightController.EMERGENCY)
    /\ (forall noise clock0 fuel clocks duration,
          overridden
            (fst (loop libm fuel clocks duration dt 0 (started noise clock0)))).
Proof.
  intros libm clock dt m m' row fc1 fired.
  destruct (tick_spec libm clock dt m) as (Hh & Hc & Hp & _).
  cbn zeta in Hc. fold m' in Hh, Hc. fold row in Hp. fold fc1 in Hc, Hp.
  assert (Hfire : FaultHandler.isSystemSafe (checked libm clock m) = false ->
                  FlightController.currentPhase_ fc1
                  <> FlightController.EMERGENCY -> fired).
  { intros Hs Hne. unfold fired. rewrite Hc, Hs. cbn [negb andb].
    destruct (FlightController.FlightPhase_eqb _ _) eqn:E; [|reflexivity].
    apply FlightPhase_eqb_eq in E. contradiction. }
  split; [exact Hfire|]. split; [exact Hh|]. split; [|split; [|split]].
  - apply (tick_overridden libm clock dt m).
  - intros Hs. rewrite Hh in Hs. rewrite Hp.
    destruct (FlightController.FlightPhase_eqb
                (FlightController.currentPhase_ fc1)
                FlightController.EMERGENCY) eqn:E.
    + left. now apply FlightPhase_eqb_eq.
    + right. apply Hfire; [exact Hs|]. intros H.
      apply FlightPhase_eqb_eq in H. congruence.
  - intros He.
    assert (H1 : FlightController.currentPhase_ fc1
                 = FlightController.EMERGENCY)
      by (now apply update_emergency).
    split; [now rewrite Hp|].
    rewrite Hc, H1. cbn. rewrite andb_false_r. exact H1.
  - intros. apply loop_overridden. intros H. discriminate H.
Qed.

(** C1 as stated fails for the snapshot.  At 1 Hz the airspeed fault is
    injected at the end of the tick at 100 s; the tick at 101 s reads
    invalid telemetry, records a CRITICAL fault and triggers the emergency,
    and the snapshot it emits still shows PREFLIGHT. *)
Lemma snapshot_lags_emergency_override :
  let clock := mkClock 0 0 0 in
  let result := loop SensorProcessor.libm_flat 102 (still clock) 102
                  (1.0 / 1.0) 0 (started SensorProcessor.quiet clock) in
  let m := fst result in
  let row := last (snd result)
               (TelemetryLogger.mkLogRow 0
                  (SensorProcessor.mkSensorData 0 0 0 0 0 true)
                  FlightController.EMERGENCY
                  (FlightController.mkControls 0 0 0 0) 0) in
  List.length (snd result) = 102%nat
  /\ TelemetryLogger.simulationTime row = 101%float
  /\ SensorProcessor.valid (TelemetryLogger.sensors row) = false
  /\ TelemetryLogger.activeFaults row = 1%Z
  /\ FaultHandler.isSystemSafe (faultHandler_ m) = false
  /\ TelemetryLogger.phase row = FlightController.PREFLIGHT
  /\ TelemetryLogger.phase row <> FlightController.EMERGENCY
  /\ FlightController.currentPhase_ (flightController_ m)
     = FlightController.EMERGENCY.
Proof.
  cbn zeta. repeat split; try (vm_compute; reflexivity).
  vm_compute. discriminate.
Qed.

(** [run] returns: at 1 Hz a flight of 102 s ends within 102 iterations,
    in EMERGENCY since the test fault, with 102 rows and the events of the
    run in the two files. *)
Example run_completes_at_1Hz :
  match run SensorProcessor.libm_flat 102 (still (mkClock 0 0 0)) 102 1
            (booted SensorProcessor.quiet (mkClock 0 0 0)) with
  | Some m =>
      FlightController.currentPhase_ (flightController_ m)
      = FlightController.EMERGENCY
      /\ List.length (TelemetryLogger.rows (logger_ m)) = 102%nat
      /\ TelemetryLogger.events (logger_ m)
         = ["Telemetry logging system initialized";
            "System initialization complete";
            "Flight simulation started";
            "Test fault injected: Airspeed sensor";
            "Emergency mode activated due to critical fault";
            "Flight simulation completed"]%string
  | None => False
  end.
Proof. vm_compute. repeat split. Qed.

(** The test fault of the loop, at 1 Hz with a noise-free generator: the
    airspeed reads invalid from 101 s to 105 s (five CRITICAL reports);
    after the fault is cleared the filtered airspeed still holds the
    sentinel for four samples (four out-of-range WARNINGs on valid
    telemetry) and is back at 100 at 110 s. *)
Example airspeed_fault_at_1Hz :
  let result := loop SensorProcessor.libm_flat 111 (still (mkClock 0 0 0)) 111
                  1 0 (started SensorProcessor.quiet (mkClock 0 0 0)) in
  map (fun row =>
         (SensorProcessor.airspeed (TelemetryLogger.sensors row),
          SensorProcessor.valid (TelemetryLogger.sensors row)))
      (skipn 100 (snd result))
  = [(100, true); (-119.8, false); (-339.60000000000002, false);
     (-559.39999999999998, false); (-779.20000000000005, false);
     (-999, false); (-779.20000000000005, true);
     (-559.39999999999998, true); (-339.60000000000002, true);
     (-119.8, true); (100, true)]%float
  /\ map FaultHandler.severity
         (FaultHandler.faults_ (faultHandler_ (fst result)))
     = [FaultHandler.CRITICAL; FaultHandler.CRITICAL; FaultHandler.CRITICAL;
        FaultHandler.CRITICAL; FaultHandler.CRITICAL; FaultHandler.WARNING;
        FaultHandler.WARNING; FaultHandler.WARNING; FaultHandler.WARNING].
Proof. cbn zeta. split; vm_compute; reflexivity. Qed.

(** C9.  The loop that [main] runs never logs a FATAL record, however
    many iterations it makes and whatever the generator, the clocks, the
    duration, the update rate and [libm] are; nor does a completed [run].
    On the way: without an altitude fault the raw altitude is not below
    zero; with no altitude fault, now or while the history was filled, the
    filtered altitude is not below zero; and with any fault flag set the
    telemetry is invalid, on which [checkSensorHealth] reports CRITICAL and
    returns. *)
Theorem closed_loop_reports_no_fatal :
  forall (libm : SensorProcessor.Libm) (noise : nat -> float) (clock0 : Clock)
         (fuel : nat) (clock : nat -> Clock) (duration updateRate : float),
    let dt := (1.0 / updateRate)%float in
    let m := fst (loop libm fuel clock duration dt 0 (started noise clock0)) in
    no_fatal (faultHandler_ m)
    /\ match run libm fuel clock duration updateRate (booted noise clock0) with
       | Some m' => no_fatal (faultHandler_ m')
       | None => True
       end
    /\ (forall time sp,
          SensorProcessor.altitudeFault_ sp = false ->
          Double.nonneg (SensorProcessor.rawAltitude libm time sp) = true)
    /\ (forall time sp,
          altitude_clean sp ->
          (SensorProcessor.altitude
             (fst (SensorProcessor.processSensors libm time sp)) <? 0)%float
          = false)
    /\ (forall time sp now a s p h,
          SensorProcessor.areSensorsHealthy sp = false ->
          SensorProcessor.valid
            (fst (SensorProcessor.processSensors libm time sp)) = false
          /\ FaultHandler.checkSensorHealth now a s p false h
             = FaultHandler.reportFault now FaultHandler.CRITICAL
                 "SensorProcessor" "Sensor fault detected - invalid data" h).
Proof.
  intros libm noise clock0 fuel clock duration updateRate dt m.
  assert (Hm : closed_loop m)
    by (apply loop_closed_loop, started_closed_loop).
  split; [apply Hm|]. split; [|split; [|split]].
  - unfold run. change (with_logger _ (booted noise clock0))
      with (started noise clock0).
    fold dt. fold m.
    rewrite (surjective_pairing (loop _ _ _ _ _ _ _)). fold m.
    destruct (negb (forallb _ _)); [exact I|].
    destruct (_ <? duration)%float; [exact I|]. apply Hm.
  - intros. now apply rawAltitude_nonneg.
  - intros time sp Hc. apply nonneg_not_lt_zero.
    now apply altitude_clean_processSensors.
  - intros time sp now a s p h Hs. split; [|reflexivity].
    destruct (processSensors_spec libm time sp) as (_&_&_&_&_&_&_&_&Hv).
    now rewrite Hv.
Qed.

End SystemMonitorFacts.

(** * Further properties of the code *)

(** ** FaultHandler: log, counters and checks *)

Section FaultHandlerMore.

Import FaultHandler.

Lemma filter_unresolved_id (l : list FaultRecord) :
  Forall (fun fault => resolved fault = false) l ->
  filter (fun fault => negb (resolved fault)) l = l.
Proof.
  induction 1 as [|f fs Hf _ IH]; cbn; [reflexivity|].
  rewrite Hf. cbn. now rewrite IH.
Qed.

(** X1.  No operation marks a record resolved, so on every handler reached from
    [initialize()] the maintenance call [clearResolvedFaults] changes
    nothing, and [getActiveFaults] returns the whole log, in order. *)
Theorem clearResolvedFaults_removes_nothing :
  forall (ops : list Op) (h0 : FaultHandler.t),
    let h := exec ops (initialize h0) in
    clearResolvedFaults h = h
    /\ getActiveFaults h = faults_ h
    /\ Forall (fun fault => resolved fault = false) (faults_ h).
Proof.
  intros ops h0 h.
  destruct (tracks_exec ops _ _ (tracks_initialize h0)) as (_ & Hres & _).
  fold h in Hres. pose proof (filter_unresolved_id _ Hres) as Hid.
  unfold clearResolvedFaults, getActiveFaults. rewrite Hid.
  destruct h; repeat split; assumption.
Qed.

Lemma getFaultCount_app sev log c w log' c' w' extra :
  log' = log ++ extra ->
  getFaultCount sev (mk log' c' w')
  = (getFaultCount sev (mk log c w)
     + Z.of_nat (List.length
                   (filter (fun fault =>
                              FaultSeverity_eqb (severity fault) sev
                              && negb (resolved fault)) extra)))%Z.
Proof.
  intros ->. unfold getFaultCount. cbn [faults_].
  rewrite filter_app, length_app. lia.
Qed.

Lemma tallied_reportFault now sev comp descr h :
  tallied h -> tallied (reportFault now sev comp descr h).
Proof.
  destruct h as [log c w]. unfold tallied. cbn [warningFaultCount_
    criticalFaultCount_]. intros (Hw & Hc).
  destruct sev; cbn [reportFault faults_ warningFaultCount_
                       criticalFaultCount_];
    rewrite !(getFaultCount_app _ log c w _ _ _ _ eq_refl); cbn; lia.
Qed.

Lemma tallied_report_if cond now sev comp descr h :
  tallied h -> tallied (report_if cond now sev comp descr h).
Proof. destruct cond; cbn; [apply tallied_reportFault | auto]. Qed.

Lemma filter_filter_length {A} (f g : A -> bool) (l : list A) :
  (forall x, f x = true -> g x = true) ->
  List.length (filter f (filter g l)) = List.length (filter f l).
Proof.
  intros Hfg. induction l as [|x l IH]; cbn; [reflexivity|].
  destruct (g x) eqn:Eg; cbn.
  - destruct (f x); cbn; now rewrite IH.
  - destruct (f x) eqn:Ef; [|exact IH].
    apply Hfg in Ef. congruence.
Qed.

Lemma tallied_clearResolvedFaults h :
  tallied h -> tallied (clearResolvedFaults h).
Proof.
  unfold tallied, clearResolvedFaults, getFaultCount. cbn.
  intros (Hw & Hc).
  rewrite !filter_filter_length
    by (intros x Hx; apply andb_true_iff in Hx; tauto).
  now split.
Qed.

Lemma tallied_step h o : tallied h -> tallied (step h o).
Proof.
  intros H. destruct o as [|now sev comp descr|now a s p v|now e a r|];
    cbn [step].
  - split; reflexivity.
  - now apply tallied_reportFault.
  - unfold checkSensorHealth. destruct (negb v).
    + now apply tallied_reportFault.
    + now repeat apply tallied_report_if.
  - unfold checkControlSystem. now repeat apply tallied_report_if.
  - now apply tallied_clearResolvedFaults.
Qed.

Lemma tallied_exec ops : forall h, tallied h -> tallied (exec ops h).
Proof.
  induction ops as [|o ops IH]; intros h H; [exact H|].
  apply IH, tallied_step, H.
Qed.

Lemma active_by_severity (l : list FaultRecord) :
  let count sev :=
    Z.of_nat (List.length
                (filter (fun fault =>
                           FaultSeverity_eqb (severity fault) sev
                           && negb (resolved fault)) l)) in
  Z.of_nat (List.length (filter (fun fault => negb (resolved fault)) l))
  = (count INFO + count WARNING + count CRITICAL + count FATAL)%Z.
Proof.
  cbn zeta. induction l as [|f l IH]; [reflexivity|].
  cbn [filter]. destruct (resolved f); cbn [negb].
  - rewrite !andb_false_r. exact IH.
  - rewrite !andb_true_r. destruct (severity f); cbn [FaultSeverity_eqb];
      cbn [List.length]; lia.
Qed.

(** X2.  The counters never drift from the log: after [initialize()] and any
    sequence of operations the warning counter is the number of WARNING
    records [getFaultCount] finds and the critical counter is the number of
    CRITICAL plus FATAL ones; INFO reports are logged and counted by
    neither. *)
Theorem counters_agree_with_getFaultCount :
  forall (ops : list Op) (h0 : FaultHandler.t),
    let h := exec ops (initialize h0) in
    warningFaultCount_ h = getFaultCount WARNING h
    /\ criticalFaultCount_ h
       = (getFaultCount CRITICAL h + getFaultCount FATAL h)%Z
    /\ Z.of_nat (List.length (getActiveFaults h))
       = (getFaultCount INFO h + warningFaultCount_ h
          + criticalFaultCount_ h)%Z
    /\ (forall now comp descr,
          let h' := reportFault now INFO comp descr h in
          warningFaultCount_ h' = warningFaultCount_ h
          /\ criticalFaultCount_ h' = criticalFaultCount_ h
          /\ getFaultCount INFO h' = (getFaultCount INFO h + 1)%Z).
Proof.
  intros ops h0 h.
  assert (Ht : tallied h)
    by (apply tallied_exec; split; reflexivity).
  destruct Ht as (Hw & Hc). split; [exact Hw|]. split; [exact Hc|]. split.
  - rewrite Hw, Hc. unfold getActiveFaults, getFaultCount.
    pose proof (active_by_severity (faults_ h)) as H. cbn zeta in H. lia.
  - intros now comp descr. destruct h as [log c w]. cbn zeta.
    cbn [reportFault warningFaultCount_ criticalFaultCount_].
    repeat split.
    rewrite (getFaultCount_app _ log c w _ _ _ _ eq_refl). reflexivity.
Qed.

Lemma report_if_effect cond now sev comp descr h :
  let h' := report_if cond now sev comp descr h in
  faults_ h'
  = faults_ h ++ (if cond then [mkFaultRecord now sev comp descr false]
                  else [])
  /\ criticalFaultCount_ h'
     = (criticalFaultCount_ h
        + (if cond && is_critical sev then 1 else 0))%Z
  /\ warningFaultCount_ h'
     = (warningFaultCount_ h
        + (if cond && FaultSeverity_eqb sev WARNING then 1 else 0))%Z.
Proof.
  destruct cond; cbn.
  - destruct sev; cbn; repeat split; lia.
  - rewrite app_nil_r. repeat split; lia.
Qed.

(** X3.  [checkControlSystem] only ever warns: it appends one WARNING per axis
    whose magnitude exceeds 0.95 (at most three, in the order elevator,
    aileron, rudder), counts them in the warning counter, and leaves the
    critical counter and [isSystemSafe] as they were.  A NaN on an axis
    raises nothing. *)
Theorem checkControlSystem_only_warns :
  forall (now : Z) (e a r : float) (h : FaultHandler.t),
    let h' := checkControlSystem now e a r h in
    let hit (x : float) := Double.gt (PrimFloat.abs x) 0.95 in
    (exists added,
        faults_ h' = faults_ h ++ added
        /\ List.length added
           = (Nat.b2n (hit e) + Nat.b2n (hit a) + Nat.b2n (hit r))%nat
        /\ Forall (fun fault => severity fault = WARNING
                                /\ resolved fault = false
                                /\ timestamp fault = now) added
        /\ warningFaultCount_ h'
           = (warningFaultCount_ h + Z.of_nat (List.length added))%Z)
    /\ criticalFaultCount_ h' = criticalFaultCount_ h
    /\ isSystemSafe h' = isSystemSafe h
    /\ checkControlSystem now nan nan nan h = h
    /\ (hit e = false -> hit a = false -> hit r = false -> h' = h).
Proof.
  intros now e a r h. cbn zeta. unfold checkControlSystem.
  set (he := Double.gt (PrimFloat.abs e) 0.95).
  set (ha := Double.gt (PrimFloat.abs a) 0.95).
  set (hr := Double.gt (PrimFloat.abs r) 0.95).
  set (h1 := report_if he now WARNING "ElevatorControl"
               "Elevator near saturation limit" h).
  set (h2 := report_if ha now WARNING "AileronControl"
               "Aileron near saturation limit" h1).
  set (h' := report_if hr now WARNING "RudderControl"
               "Rudder near saturation limit" h2).
  destruct (report_if_effect he now WARNING "ElevatorControl"
              "Elevator near saturation limit" h) as (F1 & C1 & W1).
  destruct (report_if_effect ha now WARNING "AileronControl"
              "Aileron near saturation limit" h1) as (F2 & C2 & W2).
  destruct (report_if_effect hr now WARNING "RudderControl"
              "Rudder near saturation limit" h2) as (F3 & C3 & W3).
  cbn zeta in F1, C1, W1, F2, C2, W2, F3, C3, W3.
  fold h1 in F1, C1, W1. fold h2 in F2, C2, W2. fold h' in F3, C3, W3.
  assert (Hc : criticalFaultCount_ h' = criticalFaultCount_ h).
  { rewrite C3, C2, C1. rewrite !andb_false_r. lia. }
  split; [|split; [exact Hc|split; [|split]]].
  - eexists. split; [|split; [|split]].
    + rewrite F3, F2, F1, <- !app_assoc. reflexivity.
    + destruct he, ha, hr; reflexivity.
    + destruct he, ha, hr; cbn;
        repeat (constructor; [now repeat split|]); constructor.
    + rewrite W3, W2, W1. destruct he, ha, hr; cbn; lia.
  - unfold isSystemSafe. now rewrite Hc.
  - reflexivity.
  - intros He Ha Hr. subst h' h2 h1. now rewrite He, Ha, Hr.
Qed.

Lemma checkSensorHealth_valid_count now a s p h :
  criticalFaultCount_ (checkSensorHealth now a s p true h)
  = (criticalFaultCount_ h
     + (if PrimFloat.ltb a 0.0 && Double.gt s 50.0 then 1 else 0))%Z.
Proof.
  unfold checkSensorHealth. cbn [negb].
  repeat match goal with
         | |- context [report_if ?c ?n ?sev ?comp ?d ?g] =>
             let F := fresh "F" in let C := fresh "C" in
             destruct (report_if_effect c n sev comp d g) as (F & C & _);
             cbn zeta in C; rewrite C; clear F C
         end.
  rewrite !andb_false_r, andb_true_r. lia.
Qed.

(** X4.  [checkSensorHealth] on valid telemetry never reports CRITICAL: it
    appends at most four records, and the critical counter grows by one
    exactly when altitude is below zero while airspeed is above 50, so a
    handler with a counter that is not negative turns unsafe exactly then.
    The FATAL report does not need a WARNING beside it: an altitude in
    [-500, 0) with airspeed in (50, 300] and nominal pressure gives the
    FATAL record alone.  NaN readings are out of every envelope (three
    WARNINGs) and never FATAL. *)
Theorem checkSensorHealth_valid_telemetry :
  forall (now : Z) (a s p : float) (h : FaultHandler.t),
    let h' := checkSensorHealth now a s p true h in
    let hazard := PrimFloat.ltb a 0.0 && Double.gt s 50.0 in
    (exists added,
        faults_ h' = faults_ h ++ added
        /\ (List.length added <= 4)%nat
        /\ Forall (fun fault => severity fault = WARNING
                                \/ severity fault = FATAL) added)
    /\ criticalFaultCount_ h'
       = (criticalFaultCount_ h + (if hazard then 1 else 0))%Z
    /\ ((0 <= criticalFaultCount_ h)%Z ->
        isSystemSafe h' = isSystemSafe h && negb hazard)
    /\ (isInRange a (-500.0) 15000.0 = true ->
        isInRange s 0.0 300.0 = true ->
        isInRange p 100.0 1100.0 = true ->
        hazard = true ->
        faults_ h'
        = faults_ h ++
          [mkFaultRecord now FATAL "FlightSystem"
             "Critical: Negative altitude with high airspeed" false])
    /\ map severity (faults_ (checkSensorHealth now nan nan nan true h))
       = map severity (faults_ h) ++ [WARNING; WARNING; WARNING].
Proof.
  intros now a s p h. cbn zeta. unfold checkSensorHealth at 1 2 3 4.
  cbn [negb].
  set (hazard := PrimFloat.ltb a 0.0 && Double.gt s 50.0).
  set (c1 := negb (isInRange a (-500.0) 15000.0)).
  set (c2 := negb (isInRange s 0.0 300.0)).
  set (c3 := negb (isInRange p 100.0 1100.0)).
  set (h1 := report_if c1 now WARNING "AltitudeSensor"
               "Altitude reading out of expected range" h).
  set (h2 := report_if c2 now WARNING "AirspeedSensor"
               "Airspeed reading out of expected range" h1).
  set (h3 := report_if c3 now WARNING "PressureSensor"
               "Pressure reading out of expected range" h2).
  set (h' := report_if hazard now FATAL "FlightSystem"
               "Critical: Negative altitude with high airspeed" h3).
  destruct (report_if_effect c1 now WARNING "AltitudeSensor"
              "Altitude reading out of expected range" h) as (F1 & C1 & _).
  destruct (report_if_effect c2 now WARNING "AirspeedSensor"
              "Airspeed reading out of expected range" h1) as (F2 & C2 & _).
  destruct (report_if_effect c3 now WARNING "PressureSensor"
              "Pressure reading out of expected range" h2) as (F3 & C3 & _).
  destruct (report_if_effect hazard now FATAL "FlightSystem"
              "Critical: Negative altitude with high airspeed" h3)
    as (F4 & C4 & _).
  cbn zeta in F1, C1, F2, C2, F3, C3, F4, C4.
  fold h1 in F1, C1. fold h2 in F2, C2. fold h3 in F3, C3. fold h' in F4, C4.
  assert (Hc : criticalFaultCount_ h'
               = (criticalFaultCount_ h + (if hazard then 1 else 0))%Z).
  { rewrite C4, C3, C2, C1. rewrite !andb_false_r, andb_true_r. lia. }
  split; [|split; [exact Hc|split; [|split]]].
  - eexists. split; [|split].
    + rewrite F4, F3, F2, F1, <- !app_assoc. reflexivity.
    + destruct c1, c2, c3, hazard; cbn; lia.
    + destruct c1, c2, c3, hazard; cbn;
        repeat (constructor; [cbn; tauto|]); constructor.
  - intros H0. unfold isSystemSafe. rewrite Hc.
    destruct hazard; cbn [negb].
    + rewrite andb_false_r. apply Z.eqb_neq. lia.
    + now rewrite andb_true_r, Z.add_0_r.
  - intros R1 R2 R3 Hz. rewrite F4, F3, F2, F1. subst c1 c2 c3.
    rewrite R1, R2, R3, Hz. cbn. now rewrite !app_nil_r.
  - unfold checkSensorHealth. cbn. rewrite !map_app, <- !app_assoc.
    reflexivity.
Qed.

End FaultHandlerMore.

(** ** FlightController: the phase machine *)

Section FlightControllerMore.

Import FlightController.

Lemma update_phase_fields now thr a s v fc :
  exists fc1,
    update now thr a s v fc = updateControlSurfaces a s v fc1
    /\ (fc1 = fc
        \/ exists p, next_phase (currentPhase_ fc) = Some p
                     /\ fc1 = transitionToPhase now p fc
                     /\ FlightPhase_eqb p (currentPhase_ fc) = false).
Proof.
  unfold update.
  destruct (currentPhase_ fc) eqn:Hp;
    match goal with
    | |- context [if ?c then _ else _] => destruct c
    | _ => idtac
    end;
    eexists; (split; [reflexivity|]); try (now left);
    right; eexists; (split; [reflexivity|]); split; reflexivity.
Qed.

Lemma update_nan_keeps_phase now thr fc :
  currentPhase_ (update now thr nan nan nan fc) = currentPhase_ fc.
Proof.
  unfold update. destruct (currentPhase_ fc) eqn:Hp; cbn;
    rewrite ?andb_false_r; cbn; exact Hp.
Qed.

(** X5.  One [update] keeps the phase or moves it one step along the nominal
    sequence PREFLIGHT, TAKEOFF, CLIMB, CRUISE, DESCENT, APPROACH, LANDING;
    it never skips a phase, never goes back, and never enters or leaves
    EMERGENCY; LANDING is final.  When the phase is kept, the dwell clock,
    the previous phase and the console are untouched; when it moves, the
    dwell clock restarts at the reading of the call, the previous phase is
    recorded and one transition line is printed.  Telemetry that is all NaN
    never moves the phase. *)
Theorem update_follows_nominal_sequence :
  forall (now : Z) (thr a s v : float) (fc : FlightController.t),
    let fc' := update now thr a s v fc in
    ((currentPhase_ fc' = currentPhase_ fc
      /\ phaseStartTime_ fc' = phaseStartTime_ fc
      /\ previousPhase_ fc' = previousPhase_ fc
      /\ console_ fc' = console_ fc)
     \/ (next_phase (currentPhase_ fc) = Some (currentPhase_ fc')
         /\ phaseStartTime_ fc' = now
         /\ previousPhase_ fc' = currentPhase_ fc
         /\ console_ fc'
            = console_ fc ++
              [("[FlightController] Phase transition: "
                ++ getPhaseString (currentPhase_ fc) ++ " -> "
                ++ getPhaseString (currentPhase_ fc'))%string]))
    /\ (currentPhase_ fc' = EMERGENCY <-> currentPhase_ fc = EMERGENCY)
    /\ (currentPhase_ fc = LANDING -> currentPhase_ fc' = LANDING)
    /\ (currentPhase_ fc' = PREFLIGHT -> currentPhase_ fc = PREFLIGHT)
    /\ currentPhase_ (update now thr nan nan nan fc) = currentPhase_ fc.
Proof.
  intros now thr a s v fc fc'.
  destruct (update_phase_fields now thr a s v fc) as (fc1 & Hu & Hcase).
  assert (Hsame : currentPhase_ fc' = currentPhase_ fc1
                  /\ phaseStartTime_ fc' = phaseStartTime_ fc1
                  /\ previousPhase_ fc' = previousPhase_ fc1
                  /\ console_ fc' = console_ fc1)
    by (subst fc'; rewrite Hu; repeat split).
  clearbody fc'. destruct Hsame as (Hp & Ht & Hq & Hk).
  assert (Hmain :
    (currentPhase_ fc' = currentPhase_ fc
     /\ phaseStartTime_ fc' = phaseStartTime_ fc
     /\ previousPhase_ fc' = previousPhase_ fc
     /\ console_ fc' = console_ fc)
    \/ (next_phase (currentPhase_ fc) = Some (currentPhase_ fc')
        /\ phaseStartTime_ fc' = now
        /\ previousPhase_ fc' = currentPhase_ fc
        /\ console_ fc'
           = console_ fc ++
             [("[FlightController] Phase transition: "
               ++ getPhaseString (currentPhase_ fc) ++ " -> "
               ++ getPhaseString (currentPhase_ fc'))%string])).
  { destruct Hcase as [->|(p & Hnext & -> & Hne)]; [now left|].
    right. unfold transitionToPhase in Hp, Ht, Hq, Hk.
    rewrite Hne in Hp, Ht, Hq, Hk. cbn in Hp, Ht, Hq, Hk.
    rewrite Hp, Hk. now repeat split. }
  split; [exact Hmain|].
  assert (Hrest :
    (currentPhase_ fc' = EMERGENCY <-> currentPhase_ fc = EMERGENCY)
    /\ (currentPhase_ fc = LANDING -> currentPhase_ fc' = LANDING)
    /\ (currentPhase_ fc' = PREFLIGHT -> currentPhase_ fc = PREFLIGHT)).
  { destruct Hmain as [(E & _)|(Hnext & _)].
    - rewrite E. repeat split; auto.
    - destruct (currentPhase_ fc); cbn in Hnext; inversion Hnext as [E];
        repeat split; try discriminate; congruence. }
  destruct Hrest as (H1 & H2 & H3).
  repeat split; try apply H1; auto. apply update_nan_keeps_phase.
Qed.

(** X6.  The cruise dwell guard counts whole seconds and asks for more than 60:
    from CRUISE, [update] starts the descent exactly when at least 61 s of
    the steady clock have passed since the phase was entered and the
    vertical speed is below -1.0; after 60.999999999 s it does not. *)
Theorem cruise_descent_needs_61_seconds :
  forall (now : Z) (thr a s v : float) (fc : FlightController.t),
    currentPhase_ fc = CRUISE ->
    (currentPhase_ (update now thr a s v fc) = DESCENT
     <-> (61000000000 <= now - phaseStartTime_ fc)%Z
         /\ PrimFloat.ltb v (-1.0) = true)
    /\ (currentPhase_ (update now thr a s v fc) = CRUISE
        \/ currentPhase_ (update now thr a s v fc) = DESCENT).
Proof.
  intros now thr a s v fc Hp.
  set (d := (now - phaseStartTime_ fc)%Z).
  assert (Hq : (60 <? d ÷ 1000000000)%Z = true <-> (61000000000 <= d)%Z).
  { rewrite Z.ltb_lt. destruct (Z.le_gt_cases 0 d) as [Hd|Hd].
    - rewrite Z.quot_div_nonneg by lia.
      pose proof (Z.div_mod d 1000000000 ltac:(lia)) as Hdm.
      pose proof (Z.mod_pos_bound d 1000000000 ltac:(lia)) as Hb. lia.
    - pose proof (Z.quot_opp_l d 1000000000 ltac:(lia)) as Ho.
      pose proof (Z.quot_pos (- d) 1000000000 ltac:(lia) ltac:(lia)). lia. }
  assert (Hphase :
    currentPhase_ (update now thr a s v fc)
    = if (60 <? d ÷ 1000000000)%Z && PrimFloat.ltb v (-1.0)
      then DESCENT else CRUISE).
  { unfold update. rewrite Hp, updateControlSurfaces_phase.
    unfold elapsed_seconds. fold d.
    destruct ((60 <? d ÷ 1000000000)%Z && PrimFloat.ltb v (-1.0));
      [|exact Hp].
    unfold transitionToPhase. now rewrite Hp. }
  rewrite Hphase.
  destruct (60 <? d ÷ 1000000000)%Z eqn:E1;
    destruct (PrimFloat.ltb v (-1.0)) eqn:E2; cbn [andb]; split; auto;
    split; try discriminate; try (intros (H1 & H2); discriminate H2);
    try (intros _; split; [now apply Hq | reflexivity]);
    try reflexivity.
  intros (H1 & _). apply Hq in H1. discriminate H1.
Qed.

Lemma cruise_descent_needs_61_seconds_witness :
  let fc := mk CRUISE CLIMB (mkControls 0 0 0 0.7) 0 [] in
  currentPhase_ (update 61000000000 0 3000 100 (-2) fc) = DESCENT
  /\ currentPhase_ (update 60999999999 0 3000 100 (-2) fc) = CRUISE.
Proof.
  cbn zeta. split.
  - apply (cruise_descent_needs_61_seconds 61000000000 0 3000 100 (-2)
             (mk CRUISE CLIMB (mkControls 0 0 0 0.7) 0 [])).
    + reflexivity.
    + split; [vm_compute; discriminate | reflexivity].
  - reflexivity.
Defined.

(** X7.  The names written to the log and the console tell the phases apart,
    and likewise the severities. *)
Theorem names_identify_phase_and_severity :
  (forall p q, getPhaseString p = getPhaseString q -> p = q)
  /\ (forall a b, FaultHandler.getSeverityString a
                  = FaultHandler.getSeverityString b -> a = b).
Proof.
  split.
  - intros p q; destruct p, q; cbn; intros H; try reflexivity; discriminate H.
  - intros a b; destruct a, b; cbn; intros H; try reflexivity;
      discriminate H.
Qed.

Lemma on_law_step fc o : on_law fc -> on_law (step fc o).
Proof.
  intros (p & Hc). destruct o as [now|now thr a s v|now reason]; cbn [step].
  - now exists PREFLIGHT.
  - exists (currentPhase_ (update now thr a s v fc)).
    rewrite update_controls, Hc. cbn [aileron rudder].
    now destruct (currentPhase_ (update now thr a s v fc)).
  - now exists p.
Qed.

Lemma on_law_exec ops : forall fc, on_law fc -> on_law (exec ops fc).
Proof.
  induction ops as [|o ops IH]; intros fc H; [exact H|].
  apply IH, on_law_step, H.
Qed.

(** X8.  The saturation check never fires on what the controller commands: in
    every state reached from the constructor the surfaces are the targets of
    some phase (elevator within 0.15 of neutral, aileron and rudder at
    rest), and [checkControlSystem] on them leaves any fault handler
    unchanged. *)
Theorem commanded_surfaces_never_saturate :
  forall (now0 : Z) (ops : list Op) (now : Z) (h : FaultHandler.t),
    let c := getControlSurfaces (exec ops (new now0)) in
    (exists p, c = mkControls (fst (law p)) 0%float 0%float (snd (law p)))
    /\ PrimFloat.leb (PrimFloat.abs (elevator c)) 0.15 = true
    /\ FaultHandler.checkControlSystem now (elevator c) (aileron c)
         (rudder c) h = h.
Proof.
  intros now0 ops now h c.
  assert (H : on_law (exec ops (new now0)))
    by (apply on_law_exec; now exists PREFLIGHT).
  destruct H as (p & Hc). fold (getControlSurfaces (exec ops (new now0))) in Hc.
  fold c in Hc. split; [now exists p|].
  rewrite Hc. destruct p; split; reflexivity.
Qed.

End FlightControllerMore.

(** ** SensorProcessor: generator, histories, derived channels *)

Section SensorProcessorMore.

Import SensorProcessor.

Variable libm : Libm.

(** X9.  One [processSensors] draws from the generator once per channel that is
    not faulted and once for the temperature, in the order altitude,
    airspeed, pressure, temperature, and never reseeds it: injecting a fault
    shifts the noise every later reading gets.  The pressure is computed
    from the filtered altitude (or is the sentinel), the temperature from
    the filtered altitude. *)
Theorem processSensors_draws_and_derived_channels :
  forall (time : float) (sp : t),
    let d := fst (processSensors libm time sp) in
    let sp' := snd (processSensors libm time sp) in
    let c := cursor (rng_ sp) in
    let k := (Nat.b2n (negb (altitudeFault_ sp))
              + Nat.b2n (negb (airspeedFault_ sp)))%nat in
    let kp := Nat.b2n (negb (pressureFault_ sp)) in
    draws (rng_ sp') = draws (rng_ sp)
    /\ cursor (rng_ sp') = (draws_taken sp + c)%nat
    /\ (1 <= draws_taken sp <= 4)%nat
    /\ pressure d
       = (if pressureFault_ sp then sentinel
          else (1013.25 * exp libm (- altitude d / 8500.0)
                + draws (rng_ sp) (k + c) * 0.5)%float)
    /\ temperature d
       = (15.0 - 0.0065 * altitude d
          + draws (rng_ sp) (kp + (k + c)) * 0.3)%float.
Proof.
  intros time [[dr c] ah sh fa fs fp].
  destruct fa, fs, fp; cbn; repeat split; lia.
Qed.

Lemma pressure_faulted time sp :
  pressureFault_ sp = true ->
  pressure (fst (processSensors libm time sp)) = sentinel.
Proof.
  destruct sp as [[dr c] ah sh fa fs fp]. cbn [pressureFault_].
  intros ->. now destruct fa, fs.
Qed.

Lemma window_length_min l :
  List.length (window l) = Nat.min (List.length l) FILTER_WINDOW_SIZE.
Proof. unfold window. rewrite length_skipn. lia. Qed.

Lemma processSensors_cursor time sp :
  cursor (rng_ (snd (processSensors libm time sp)))
  = (draws_taken sp + cursor (rng_ sp))%nat
  /\ draws_taken (snd (processSensors libm time sp)) = draws_taken sp.
Proof.
  destruct sp as [[dr c] ah sh fa fs fp].
  destruct fa, fs, fp; cbn; split; lia.
Qed.

Lemma sample_cursor times : forall sp,
  cursor (rng_ (snd (sample libm times sp)))
  = (List.length times * draws_taken sp + cursor (rng_ sp))%nat.
Proof.
  induction times as [|time times IH]; intros sp; [reflexivity|].
  cbn [sample]. destruct (processSensors_cursor time sp) as (Hc & Hd).
  destruct (processSensors libm time sp) as [d sp1]. cbn [snd] in Hc, Hd.
  specialize (IH sp1).
  destruct (sample libm times sp1) as [ds sp2]. cbn [snd] in *.
  rewrite IH, Hc, Hd. cbn [List.length]. lia.
Qed.

(** X10.  The histories fill up and then stay full: after [n] samples from
    [initialize()] each holds [min n 5] readings, [n] readings were
    returned, and the generator has advanced by [4 n] draws. *)
Theorem histories_hold_min_n_5 :
  forall (times : list float) (sp0 : t),
    let sp := snd (sample libm times (initialize sp0)) in
    List.length (altitudeHistory_ sp)
    = Nat.min (List.length times) FILTER_WINDOW_SIZE
    /\ List.length (airspeedHistory_ sp)
       = Nat.min (List.length times) FILTER_WINDOW_SIZE
    /\ List.length (fst (sample libm times (initialize sp0)))
       = List.length times
    /\ cursor (rng_ sp)
       = (4 * List.length times + cursor (rng_ sp0))%nat.
Proof.
  intros times sp0 sp.
  destruct (sample_histories libm times (initialize sp0))
    as (_ & _ & _ & Hlen & (ra & La & Ea & _) & (rs & Ls & Es & _)).
  fold sp in Ea, Es. cbn [initialize altitudeHistory_ airspeedHistory_] in *.
  rewrite Ea, Es, !filter_all_window by (cbn; unfold FILTER_WINDOW_SIZE; lia).
  cbn [app]. rewrite !window_length_min, La, Ls.
  repeat split; auto.
  subst sp. rewrite sample_cursor. cbn. lia.
Qed.

Lemma airspeed_clean_processSensors time sp :
  airspeed_clean sp ->
  airspeed_clean (snd (processSensors libm time sp))
  /\ Double.nonneg (airspeed (fst (processSensors libm time sp))) = true.
Proof.
  intros (Hf & Hlen & Hnn).
  destruct (processSensors_spec libm time sp)
    as (_ & Hs & _ & Fs & _ & _ & Hms & _).
  pose proof (applyFilter_length (airspeedHistory_ sp)
                (rawAirspeed libm time sp) Hlen) as Hl.
  assert (Hall : Forall (fun v => Double.nonneg v = true)
                   (airspeedHistory_ (snd (processSensors libm time sp)))).
  { rewrite Hs, applyFilter_window by exact Hlen.
    apply Forall_forall. intros x Hx. apply window_incl in Hx.
    apply in_app_or in Hx. destruct Hx as [Hx|[<-|[]]].
    - rewrite Forall_forall in Hnn. now apply Hnn.
    - now apply rawAirspeed_nonneg. }
  rewrite <- Hs in Hl. split.
  - repeat split; [now rewrite Fs | lia | exact Hall].
  - rewrite Hms. now apply mean_nonneg.
Qed.

Lemma healthy_sample times : forall sp,
  SystemMonitor.altitude_clean sp -> airspeed_clean sp ->
  pressureFault_ sp = false ->
  Forall (fun d => valid d = true
                   /\ Double.nonneg (altitude d) = true
                   /\ Double.nonneg (airspeed d) = true)
         (fst (sample libm times sp)).
Proof.
  induction times as [|time times IH]; intros sp Ha Hs Hp; [constructor|].
  cbn [sample].
  destruct (altitude_clean_processSensors libm time sp Ha) as (Ha' & Hna).
  destruct (airspeed_clean_processSensors time sp Hs) as (Hs' & Hns).
  destruct (processSensors_spec libm time sp)
    as (_ & _ & _ & _ & Fp & _ & _ & _ & Hv).
  destruct (processSensors libm time sp) as [d sp1]. cbn [fst snd] in *.
  specialize (IH sp1 Ha' Hs' ltac:(congruence)).
  destruct (sample libm times sp1) as [ds sp2]. cbn [fst] in *.
  constructor; [|exact IH]. repeat split; auto.
  rewrite Hv. unfold areSensorsHealthy.
  destruct Ha as (-> & _). destruct Hs as (-> & _). now rewrite Hp.
Qed.

(** X11.  Sensors that were never faulted give valid telemetry that is not below
    zero: every reading sampled after [initialize()], whatever the times,
    the noise and [libm] are, is valid with filtered altitude and airspeed
    that are zero, positive or plus infinity (never negative, never NaN);
    so [checkSensorHealth] on it leaves [isSystemSafe] as it was. *)
Theorem healthy_sensors_never_unsafe :
  forall (times : list float) (sp0 : t) (now : Z) (h : FaultHandler.t),
    Forall (fun d =>
              valid d = true
              /\ Double.nonneg (altitude d) = true
              /\ Double.nonneg (airspeed d) = true
              /\ PrimFloat.ltb (altitude d) 0.0 = false
              /\ PrimFloat.ltb (airspeed d) 0.0 = false
              /\ FaultHandler.isSystemSafe
                   (FaultHandler.checkSensorHealth now (altitude d)
                      (airspeed d) (pressure d) (valid d) h)
                 = FaultHandler.isSystemSafe h)
           (fst (sample libm times (initialize sp0))).
Proof.
  intros times sp0 now h.
  assert (H : Forall (fun d => valid d = true
                               /\ Double.nonneg (altitude d) = true
                               /\ Double.nonneg (airspeed d) = true)
                     (fst (sample libm times (initialize sp0)))).
  { apply healthy_sample; repeat split; try constructor;
      cbn; unfold FILTER_WINDOW_SIZE; lia. }
  eapply Forall_impl; [|exact H]. cbn beta.
  intros d (Hv & Ha & Hs).
  pose proof (nonneg_not_lt_zero _ Ha) as Ha0.
  pose proof (nonneg_not_lt_zero _ Hs) as Hs0.
  repeat split; auto.
  rewrite Hv. unfold FaultHandler.isSystemSafe.
  rewrite checkSensorHealth_valid_count, Ha0. cbn [andb].
  now rewrite Z.add_0_r.
Qed.

(** X12.  [injectFault] replaces all three flags at once, so the last call wins
    and repeating a call changes nothing; it touches neither the histories
    nor the generator, and the very next sample is valid exactly when no
    flag is set. *)
Theorem injectFault_sets_validity_of_next_sample :
  forall (a b c a' b' c' : bool) (time : float) (sp : t),
    injectFault a b c (injectFault a' b' c' sp) = injectFault a b c sp
    /\ areSensorsHealthy (injectFault a b c sp) = negb (a || b || c)
    /\ valid (fst (processSensors libm time (injectFault a b c sp)))
       = negb (a || b || c)
    /\ altitudeHistory_ (injectFault a b c sp) = altitudeHistory_ sp
    /\ airspeedHistory_ (injectFault a b c sp) = airspeedHistory_ sp
    /\ rng_ (injectFault a b c sp) = rng_ sp
    /\ (valid (fst (processSensors libm time sp)) = false ->
        fst (simulateAltitude libm time sp) = sentinel
        \/ rawAirspeed libm time sp = sentinel
        \/ pressure (fst (processSensors libm time sp)) = sentinel).
Proof.
  intros a b c a' b' c' time sp.
  destruct (processSensors_spec libm time (injectFault a b c sp))
    as (_ & _ & _ & _ & _ & _ & _ & _ & Hv).
  rewrite Hv. unfold areSensorsHealthy, injectFault. cbn.
  repeat split; try (now destruct a, b, c).
  destruct (processSensors_spec libm time sp)
    as (_ & _ & _ & _ & _ & _ & _ & _ & Hv').
  rewrite Hv'. unfold areSensorsHealthy. intros H.
  destruct (altitudeFault_ sp) eqn:Fa.
  - left. now apply rawAltitude_faulted.
  - destruct (airspeedFault_ sp) eqn:Fs.
    + right. left. now apply rawAirspeed_faulted.
    + destruct (pressureFault_ sp) eqn:Fp; [|discriminate H].
      right. right.
      now apply pressure_faulted.
Qed.

End SensorProcessorMore.

(** ** TelemetryLogger: opening and closing the files *)

Section TelemetryLoggerMore.

Import TelemetryLogger.

(** X13.  [close] is final and can be repeated: a second [close] changes nothing
    (the destructor and [shutdown] both call it), every later [logData] and
    [logEvent] is dropped, no row is lost, and the shutdown line is written
    exactly when the event file was open. *)
Theorem close_is_final :
  forall (lg : TelemetryLogger.t) (row : LogRow) (event : string),
    close (close lg) = close lg
    /\ logData row (close lg) = close lg
    /\ logEvent event (close lg) = close lg
    /\ telemetryOpen (close lg) = false
    /\ eventOpen (close lg) = false
    /\ rows (close lg) = rows lg
    /\ events (close lg)
       = events lg ++ (if eventOpen lg then ["Logging system shutdown"%string]
                       else []).
Proof.
  intros [tel ev rs es] row event.
  destruct tel, ev; cbn; rewrite ?app_nil_r; repeat split.
Qed.

(** [initialize] on a fresh logger succeeds exactly when both files open,
    and then the event log starts with its one line.  When the telemetry
    file cannot be opened the event file is not even tried; when only the
    event file fails the telemetry file stays open.  Nothing is logged
    through a logger that was never initialized. *)
Lemma logger_initialize_outcomes :
  forall (telemetryOk eventOk : bool) (row : LogRow) (event : string),
    let result := initialize telemetryOk eventOk new in
    fst result = telemetryOk && eventOk
    /\ telemetryOpen (snd result) = telemetryOk
    /\ eventOpen (snd result) = telemetryOk && eventOk
    /\ rows (snd result) = []
    /\ events (snd result)
       = (if telemetryOk && eventOk
          then ["Telemetry logging system initialized"%string] else [])
    /\ logData row new = new
    /\ logEvent event new = new
    /\ rows (logData row (snd result))
       = (if telemetryOk then [row] else []).
Proof.
  intros [|] [|] row event; cbn; repeat split.
Qed.

End TelemetryLoggerMore.

(** ** SystemMonitor: the loop as a whole *)

Section SystemMonitorMore.

Import SystemMonitor.

Variable libm : SensorProcessor.Libm.

(** The sensor processor and the logger one tick leaves. *)
Lemma tick_rest clock dt m :
  let m' := fst (tick libm clock dt m) in
  let row := snd (tick libm clock dt m) in
  let sp1 := snd (SensorProcessor.processSensors libm (simulationTime_ m)
                    (sensorProcessor_ m)) in
  let fired :=
    negb (FaultHandler.isSystemSafe (checked libm clock m))
    && negb (FlightController.FlightPhase_eqb
               (FlightController.currentPhase_ (updated libm clock m))
               FlightController.EMERGENCY) in
  let inject :=
    PrimFloat.ltb (PrimFloat.abs (simulationTime_ m - 100.0)) dt in
  let clear :=
    PrimFloat.ltb (PrimFloat.abs (simulationTime_ m - 105.0)) dt in
  let lg1 :=
    if fired
    then TelemetryLogger.logEvent
           "Emergency mode activated due to critical fault" (logger_ m)
    else logger_ m in
  let lg2 := TelemetryLogger.logData row lg1 in
  let lg3 :=
    if inject
    then TelemetryLogger.logEvent "Test fault injected: Airspeed sensor" lg2
    else lg2 in
  sensorProcessor_ m'
  = (let sp2 := if inject
                then SensorProcessor.injectFault false true false sp1
                else sp1 in
     if clear then SensorProcessor.injectFault false false false sp2
     else sp2)
  /\ logger_ m'
     = (if clear then TelemetryLogger.logEvent "Test fault cleared" lg3
        else lg3)
  /\ TelemetryLogger.sensors row
     = fst (SensorProcessor.processSensors libm (simulationTime_ m)
              (sensorProcessor_ m)).
Proof.
  cbn zeta. unfold tick, checked, updated.
  destruct (SensorProcessor.processSensors libm (simulationTime_ m)
              (sensorProcessor_ m)) as [s sp1].
  cbn [fst snd]. repeat apply conj; reflexivity.
Qed.

Lemma logger_open_kept event lg :
  TelemetryLogger.telemetryOpen (TelemetryLogger.logEvent event lg)
  = TelemetryLogger.telemetryOpen lg
  /\ TelemetryLogger.eventOpen (TelemetryLogger.logEvent event lg)
     = TelemetryLogger.eventOpen lg
  /\ TelemetryLogger.rows (TelemetryLogger.logEvent event lg)
     = TelemetryLogger.rows lg.
Proof.
  unfold TelemetryLogger.logEvent.
  destruct (TelemetryLogger.eventOpen lg) eqn:E; cbn; rewrite ?E; auto.
Qed.

Lemma tick_rows clock dt m :
  let m' := fst (tick libm clock dt m) in
  let row := snd (tick libm clock dt m) in
  TelemetryLogger.telemetryOpen (logger_ m')
  = TelemetryLogger.telemetryOpen (logger_ m)
  /\ TelemetryLogger.rows (logger_ m')
     = TelemetryLogger.rows (logger_ m)
       ++ (if TelemetryLogger.telemetryOpen (logger_ m) then [row] else []).
Proof.
  cbn zeta. destruct (tick_rest clock dt m) as (_ & Hl & _).
  cbn zeta in Hl. rewrite Hl.
  repeat match goal with
         | |- context [if ?c then _ else _] =>
             lazymatch c with
             | TelemetryLogger.telemetryOpen _ => fail
             | _ => destruct c
             end
         end;
    repeat (rewrite ?(proj1 (logger_open_kept _ _)),
                    ?(proj2 (proj2 (logger_open_kept _ _))));
    unfold TelemetryLogger.logData;
    repeat (rewrite ?(proj1 (logger_open_kept _ _)),
                    ?(proj2 (proj2 (logger_open_kept _ _))));
    destruct (TelemetryLogger.telemetryOpen (logger_ m)) eqn:E; cbn;
    repeat (rewrite ?(proj1 (logger_open_kept _ _)),
                    ?(proj2 (proj2 (logger_open_kept _ _))));
    rewrite ?E, ?app_nil_r; auto.
Qed.

Lemma loop_rows fuel clock duration dt : forall i m,
  let m' := fst (loop libm fuel clock duration dt i m) in
  let emitted := snd (loop libm fuel clock duration dt i m) in
  TelemetryLogger.telemetryOpen (logger_ m')
  = TelemetryLogger.telemetryOpen (logger_ m)
  /\ TelemetryLogger.rows (logger_ m')
     = TelemetryLogger.rows (logger_ m)
       ++ (if TelemetryLogger.telemetryOpen (logger_ m) then emitted
           else [])
  /\ (List.length emitted <= fuel)%nat.
Proof.
  induction fuel as [|fuel IH]; intros i m; cbn zeta.
  - cbn. destruct (TelemetryLogger.telemetryOpen (logger_ m));
      rewrite ?app_nil_r; auto.
  - cbn [loop]. destruct (_ <? duration)%float.
    + destruct (tick_rows (clock i) dt m) as (Ho & Hr). cbn zeta in Ho, Hr.
      destruct (tick libm (clock i) dt m) as [m1 row]. cbn [fst snd] in *.
      specialize (IH (S i) m1). cbn zeta in IH.
      destruct (loop libm fuel clock duration dt (S i) m1) as [m2 rows].
      cbn [fst snd] in *. destruct IH as (Ho2 & Hr2 & Hl).
      rewrite Ho2, Hr2, Ho, Hr.
      destruct (TelemetryLogger.telemetryOpen (logger_ m));
        cbn [List.length]; rewrite <- ?app_assoc; cbn [app];
        repeat split; auto; lia.
    + cbn. destruct (TelemetryLogger.telemetryOpen (logger_ m));
        rewrite ?app_nil_r; repeat split; auto; lia.
Qed.

(** *** The loop follows its course *)

Lemma checkControlSystem_critical now e a r h :
  FaultHandler.criticalFaultCount_
    (FaultHandler.checkControlSystem now e a r h)
  = FaultHandler.criticalFaultCount_ h.
Proof.
  unfold FaultHandler.checkControlSystem.
  repeat match goal with
         | |- context [FaultHandler.report_if ?c ?n ?sev ?comp ?d ?g] =>
             let F := fresh "F" in let C := fresh "C" in
             destruct (report_if_effect c n sev comp d g) as (F & C & _);
             cbn zeta in C; rewrite C; clear F C
         end.
  rewrite !andb_false_r. lia.
Qed.

Lemma update_emergency_flag now thr a s v fc :
  FlightController.FlightPhase_eqb
    (FlightController.currentPhase_ (FlightController.update now thr a s v fc))
    FlightController.EMERGENCY
  = FlightController.FlightPhase_eqb (FlightController.currentPhase_ fc)
      FlightController.EMERGENCY.
Proof.
  unfold FlightController.update.
  destruct (FlightController.currentPhase_ fc) eqn:E;
    match goal with
    | |- context [if ?c then _ else _] => destruct c
    | _ => idtac
    end;
    unfold FlightController.transitionToPhase; rewrite ?E; cbn;
    rewrite ?E; reflexivity.
Qed.

Lemma logEvent_open event lg :
  TelemetryLogger.eventOpen lg = true ->
  TelemetryLogger.eventOpen (TelemetryLogger.logEvent event lg) = true
  /\ TelemetryLogger.events (TelemetryLogger.logEvent event lg)
     = TelemetryLogger.events lg ++ [event].
Proof.
  intros H. unfold TelemetryLogger.logEvent. rewrite H. cbn. now split.
Qed.

Lemma logData_events row lg :
  TelemetryLogger.eventOpen (TelemetryLogger.logData row lg)
  = TelemetryLogger.eventOpen lg
  /\ TelemetryLogger.events (TelemetryLogger.logData row lg)
     = TelemetryLogger.events lg.
Proof.
  unfold TelemetryLogger.logData.
  now destruct (negb (TelemetryLogger.telemetryOpen lg)).
Qed.

Lemma follows_tick clock dt m c :
  follows m c ->
  follows (fst (tick libm clock dt m)) (fst (course_tick dt c))
  /\ mark_of (snd (tick libm clock dt m)) = snd (course_tick dt c).
Proof.
  intros (Ht & Hc & Hs & Hp & Hk & Hph & Ho & He).
  destruct (tick_spec libm clock dt m) as (Hh & Hfc & Hrp & _ & _ & Hrt & Htime).
  destruct (tick_rest clock dt m) as (Hsp & Hlg & Hrs).
  cbn zeta in Hfc, Hsp, Hlg.
  destruct (altitude_clean_processSensors libm (simulationTime_ m) _ Hc)
    as (Hc' & Halt).
  destruct (processSensors_spec libm (simulationTime_ m) (sensorProcessor_ m))
    as (_ & _ & Fa & Fs & Fp & _ & _ & _ & Hv).
  assert (Hvalid :
    SensorProcessor.valid
      (fst (SensorProcessor.processSensors libm (simulationTime_ m)
              (sensorProcessor_ m)))
    = negb (airspeed_faulted c)).
  { rewrite Hv. unfold SensorProcessor.areSensorsHealthy.
    rewrite (proj1 Hc), Hs, Hp. cbn. apply andb_true_r. }
  assert (Hcrit :
    FaultHandler.criticalFaultCount_ (checked libm clock m)
    = if negb (airspeed_faulted c) then critical c
      else (critical c + 1)%Z).
  { unfold checked. rewrite checkControlSystem_critical, Hvalid.
    destruct (airspeed_faulted c); cbn [negb].
    - unfold FaultHandler.checkSensorHealth. cbn. now rewrite Hk.
    - rewrite checkSensorHealth_valid_count, Hk.
      rewrite (nonneg_not_lt_zero _ Halt). cbn. lia. }
  assert (Hphase :
    FlightController.FlightPhase_eqb
      (FlightController.currentPhase_ (updated libm clock m))
      FlightController.EMERGENCY
    = in_emergency c).
  { unfold updated. now rewrite update_emergency_flag. }
  set (crit := if negb (airspeed_faulted c) then critical c
               else (critical c + 1)%Z) in *.
  assert (Hfire :
    negb (FaultHandler.isSystemSafe (checked libm clock m))
    && negb (FlightController.FlightPhase_eqb
               (FlightController.currentPhase_ (updated libm clock m))
               FlightController.EMERGENCY)
    = negb (crit =? 0)%Z && negb (in_emergency c)).
  { unfold FaultHandler.isSystemSafe. now rewrite Hcrit, Hphase. }
  rewrite Hfire in Hfc, Hlg.
  set (fire := negb (crit =? 0)%Z && negb (in_emergency c)) in *.
  split.
  - unfold follows, course_tick. fold crit. fold fire.
    cbn [fst at_time airspeed_faulted critical in_emergency logged].
    rewrite Htime, Hh, Hfc, Hsp, Hlg, <- Ht.
    split; [reflexivity|].
    destruct Hc' as (Hf' & Hl' & Hn').
    split.
    { destruct (_ <? dt)%float, (_ <? dt)%float; repeat split; assumption. }
    split.
    { destruct (_ <? dt)%float, (_ <? dt)%float; cbn; try reflexivity.
      now rewrite Fs. }
    split.
    { destruct (_ <? dt)%float, (_ <? dt)%float; cbn; try reflexivity.
      now rewrite Fp. }
    split; [exact Hcrit|].
    split.
    { destruct fire; [now rewrite orb_true_r|].
      now rewrite orb_false_r. }
    assert (H1 : forall lg ev (b : bool),
      TelemetryLogger.eventOpen lg = true ->
      TelemetryLogger.eventOpen
        (if b then TelemetryLogger.logEvent ev lg else lg) = true
      /\ TelemetryLogger.events
           (if b then TelemetryLogger.logEvent ev lg else lg)
         = if b then TelemetryLogger.events lg ++ [ev]
           else TelemetryLogger.events lg).
    { intros lg ev [] H; [now apply logEvent_open | now split]. }
    destruct (H1 (logger_ m)
                "Emergency mode activated due to critical fault"%string
                fire Ho) as (O1 & E1).
    set (lg1 := if fire then _ else logger_ m) in *.
    pose proof (logData_events (snd (tick libm clock dt m)) lg1) as (O2 & E2).
    rewrite O1 in O2.
    destruct (H1 _ "Test fault injected: Airspeed sensor"%string
                (PrimFloat.ltb (PrimFloat.abs (simulationTime_ m - 100.0)) dt)
                O2) as (O3 & E3).
    destruct (H1 _ "Test fault cleared"%string
                (PrimFloat.ltb (PrimFloat.abs (simulationTime_ m - 105.0)) dt)
                O3) as (O4 & E4).
    split; [exact O4|].
    rewrite E4, E3, E2, E1, He.
    now destruct fire, (_ <? dt)%float, (_ <? dt)%float.
  - unfold mark_of, course_tick. cbn [snd].
    now rewrite Hrt, Hrs, Hvalid, Hrp, Hphase, Ht.
Qed.

Lemma follows_loop fuel clock duration dt : forall i m c,
  follows m c ->
  follows (fst (loop libm fuel clock duration dt i m))
          (fst (course fuel duration dt c))
  /\ map mark_of (snd (loop libm fuel clock duration dt i m))
     = snd (course fuel duration dt c).
Proof.
  induction fuel as [|fuel IH]; intros i m c H; [now split|].
  cbn [loop course]. rewrite (proj1 H).
  destruct (_ <? duration)%float; [|now split].
  destruct (follows_tick (clock i) dt m c H) as (H1 & Hm).
  destruct (tick libm (clock i) dt m) as [m1 row].
  destruct (course_tick dt c) as [c1 mark]. cbn [fst snd] in H1, Hm.
  specialize (IH (S i) m1 c1 H1).
  destruct (loop libm fuel clock duration dt (S i) m1) as [m2 rows].
  destruct (course fuel duration dt c1) as [c2 marks].
  cbn [fst snd map] in *. destruct IH as (IH1 & IH2).
  split; [exact IH1 | now rewrite Hm, IH2].
Qed.

Lemma started_follows noise clock0 : follows (started noise clock0) course0.
Proof.
  repeat split; try constructor. cbn.
  unfold SensorProcessor.FILTER_WINDOW_SIZE. lia.
Qed.

Lemma course_done duration dt n k : forall c,
  PrimFloat.ltb (at_time (fst (course n duration dt c))) duration = false ->
  course (n + k) duration dt c = course n duration dt c.
Proof.
  induction n as [|n IH]; intros c H.
  - cbn in *. destruct k; [reflexivity|]. cbn. now rewrite H.
  - cbn [Nat.add course] in *.
    destruct (at_time c <? duration)%float; [|reflexivity].
    destruct (course_tick dt c) as [c1 mark].
    specialize (IH c1).
    destruct (course n duration dt c1) as [c2 marks]. cbn [fst] in *.
    now rewrite IH.
Qed.

Lemma course_tick_coherent dt c :
  coherent c ->
  let c' := fst (course_tick dt c) in
  let mark := snd (course_tick dt c) in
  coherent c'
  /\ snd mark = in_emergency c
  /\ critical c' = (critical c + Z.b2z (negb (snd (fst mark))))%Z
  /\ in_emergency c' = in_emergency c || negb (snd (fst mark)).
Proof.
  intros (H0 & He & Hn). cbn zeta. unfold course_tick, coherent.
  cbn [fst snd at_time airspeed_faulted critical in_emergency logged].
  set (crit := if negb (airspeed_faulted c) then critical c
               else (critical c + 1)%Z).
  assert (Hcrit : crit = (critical c + Z.b2z (negb (negb (airspeed_faulted c))))%Z)
    by (subst crit; destruct (airspeed_faulted c); cbn; lia).
  assert (Hfire : in_emergency c || negb (crit =? 0)%Z && negb (in_emergency c)
                  = negb (crit =? 0)%Z).
  { rewrite He. destruct (critical c =? 0)%Z eqn:E; cbn.
    - apply andb_true_r.
    - apply Z.eqb_neq in E. symmetry. apply negb_true_iff, Z.eqb_neq.
      rewrite Hcrit. destruct (negb (negb (airspeed_faulted c))); cbn; lia. }
  repeat split.
  - rewrite Hcrit. destruct (negb (negb (airspeed_faulted c))); cbn; lia.
  - exact Hfire.
  - set (fire := negb (crit =? 0)%Z && negb (in_emergency c)).
    assert (Hcount : forall (b : bool) l (ev : string),
              ev <> "Emergency mode activated due to critical fault"%string ->
              count_occ string_dec (if b then l ++ [ev] else l)
                "Emergency mode activated due to critical fault"%string
              = count_occ string_dec l
                  "Emergency mode activated due to critical fault"%string).
    { intros [] l ev Hev; [|reflexivity].
      rewrite count_occ_app. cbn [count_occ].
      destruct (string_dec ev _); [contradiction | lia]. }
    rewrite !Hcount by discriminate.
    assert (Hf : count_occ string_dec
                   (if fire
                    then logged c
                         ++ ["Emergency mode activated due to critical fault"%string]
                    else logged c)
                   "Emergency mode activated due to critical fault"%string
                 = (count_occ string_dec (logged c)
                      "Emergency mode activated due to critical fault"%string
                    + Nat.b2n fire)%nat).
    { destruct fire; cbn [Nat.b2n]; [|lia].
      rewrite count_occ_app. cbn [count_occ].
      destruct (string_dec _ _) as [_|ne]; [lia | now elim ne]. }
    rewrite Hf, Hn. subst fire.
    destruct (in_emergency c); cbn; [now rewrite andb_false_r|].
    rewrite andb_true_r. reflexivity.
  - now rewrite Hcrit.
  - rewrite Hfire, Hcrit, He.
    destruct (critical c =? 0)%Z eqn:E; cbn [negb orb].
    + apply Z.eqb_eq in E. rewrite E.
      now destruct (airspeed_faulted c).
    + apply Z.eqb_neq in E. apply negb_true_iff, Z.eqb_neq.
      destruct (negb (negb (airspeed_faulted c))); cbn; lia.
Qed.

Lemma course_coherent fuel duration dt : forall c,
  coherent c ->
  let c' := fst (course fuel duration dt c) in
  let marks := snd (course fuel duration dt c) in
  let bad := fun mark : Mark => negb (snd (fst mark)) in
  coherent c'
  /\ critical c'
     = (critical c + Z.of_nat (List.length (filter bad marks)))%Z
  /\ in_emergency c' = in_emergency c || existsb bad marks
  /\ forall k mark, nth_error marks k = Some mark ->
       snd mark = in_emergency c || existsb bad (firstn k marks).
Proof.
  induction fuel as [|fuel IH]; intros c H; cbn zeta.
  - cbn. repeat split; [apply H | apply H | apply H | lia
                        | now rewrite orb_false_r |].
    intros [|k] mark; discriminate.
  - cbn [course]. destruct (at_time c <? duration)%float.
    + destruct (course_tick_coherent dt c H) as (H1 & Hp & Hk & He).
      cbn zeta in H1, Hp, Hk, He.
      destruct (course_tick dt c) as [c1 mark]. cbn [fst snd] in *.
      specialize (IH c1 H1). cbn zeta in IH.
      destruct (course fuel duration dt c1) as [c2 marks].
      cbn [fst snd] in *. destruct IH as (I1 & I2 & I3 & I4).
      split; [exact I1|]. split.
      { rewrite I2, Hk. cbn [filter].
        destruct (negb (snd (fst mark))); cbn [List.length Z.b2z]; lia. }
      split.
      { rewrite I3, He. cbn [existsb]. now rewrite orb_assoc. }
      intros [|k] mk Hnth.
      * cbn in Hnth. injection Hnth as <-. cbn [firstn existsb].
        now rewrite orb_false_r.
      * cbn in Hnth. cbn [firstn existsb]. rewrite orb_assoc, <- He.
        now apply I4.
    + cbn. repeat split; [apply H | apply H | apply H | lia
                          | now rewrite orb_false_r |].
      intros [|k] mark; discriminate.
Qed.

Lemma coherent_course0 : coherent course0.
Proof. repeat split. cbn. lia. Qed.

Lemma marks_of_rows (rows : list TelemetryLogger.LogRow) :
  let bad := fun mark : Mark => negb (snd (fst mark)) in
  List.length (filter bad (map mark_of rows))
  = List.length (filter invalid rows)
  /\ existsb bad (map mark_of rows) = existsb invalid rows.
Proof.
  cbn zeta. induction rows as [|row rows (IH1 & IH2)]; [now split|].
  cbn [map filter existsb].
  change (negb (snd (fst (mark_of row)))) with (invalid row).
  rewrite IH2. split; [|reflexivity].
  destruct (invalid row); cbn [List.length]; now rewrite IH1.
Qed.

(** X14.  Whatever the noise, [libm], the clocks, the value of [throttle],
    the duration and the step: in the loop that [main] starts, the critical
    counter is the number of snapshots of invalid telemetry; a snapshot
    shows EMERGENCY exactly when an earlier snapshot was invalid (the
    snapshot of the first invalid sample itself does not); the controller
    ends in EMERGENCY, and the handler unsafe, exactly when some snapshot
    was invalid; and the emergency is logged once in that case and never
    otherwise. *)
Theorem emergency_follows_first_invalid_sample :
  forall (noise : nat -> float) (clock0 : Clock) (clock : nat -> Clock)
         (fuel : nat) (duration dt : float),
    let result := loop libm fuel clock duration dt 0 (started noise clock0) in
    let m := fst result in
    let rows := snd result in
    FaultHandler.criticalFaultCount_ (faultHandler_ m)
    = Z.of_nat (List.length (filter invalid rows))
    /\ (forall k row, nth_error rows k = Some row ->
        (TelemetryLogger.phase row = FlightController.EMERGENCY
         <-> existsb invalid (firstn k rows) = true))
    /\ (FlightController.currentPhase_ (flightController_ m)
        = FlightController.EMERGENCY
        <-> existsb invalid rows = true)
    /\ FaultHandler.isSystemSafe (faultHandler_ m)
       = negb (existsb invalid rows)
    /\ count_occ string_dec (TelemetryLogger.events (logger_ m))
         "Emergency mode activated due to critical fault"%string
       = (if existsb invalid rows then 1 else 0)%nat.
Proof.
  intros noise clock0 clock fuel duration dt. cbn zeta.
  destruct (follows_loop fuel clock duration dt 0 _ _
              (started_follows noise clock0)) as (Hf & Hm).
  destruct (course_coherent fuel duration dt _ coherent_course0)
    as ((C0 & Ce & Cn) & Ck & Cx & Cp).
  cbn zeta in Ck, Cx, Cp. rewrite <- Hm in Ck, Cx, Cp.
  destruct (loop libm fuel clock duration dt 0 (started noise clock0))
    as [m rows].
  destruct (course fuel duration dt course0) as [c marks].
  cbn [fst snd] in *.
  destruct (marks_of_rows rows) as (Hlen & Hex). cbn zeta in Hlen, Hex.
  rewrite Hlen in Ck. rewrite Hex in Cx. cbn in Ck, Cx.
  destruct Hf as (_ & _ & _ & _ & Hk & Hph & _ & Hev).
  split; [now rewrite Hk, Ck|]. split.
  { intros k row Hnth.
    specialize (Cp k (mark_of row)). cbn [course0 in_emergency orb] in Cp.
    rewrite firstn_map in Cp.
    rewrite (proj2 (marks_of_rows (firstn k rows))) in Cp.
    rewrite <- Cp by (now apply map_nth_error).
    cbn [mark_of snd]. symmetry. apply FlightPhase_eqb_eq. }
  split.
  { rewrite <- Cx, <- Hph. symmetry. apply FlightPhase_eqb_eq. }
  split.
  { unfold FaultHandler.isSystemSafe. rewrite Hk, <- Cx, Ce.
    now rewrite negb_involutive. }
  rewrite Hev, Cn, Cx. now destruct (existsb invalid rows).
Qed.

Lemma tick_events clock dt m :
  TelemetryLogger.eventOpen (logger_ m) = true ->
  TelemetryLogger.eventOpen (logger_ (fst (tick libm clock dt m))) = true
  /\ exists mid,
       TelemetryLogger.events (logger_ (fst (tick libm clock dt m)))
       = TelemetryLogger.events (logger_ m) ++ mid.
Proof.
  intros Ho. destruct (tick_rest clock dt m) as (_ & Hlg & _).
  cbn zeta in Hlg. rewrite Hlg. clear Hlg.
  assert (H1 : forall lg ev (b : bool) l,
    TelemetryLogger.eventOpen lg = true
    /\ TelemetryLogger.events lg = TelemetryLogger.events (logger_ m) ++ l ->
    exists l',
      TelemetryLogger.eventOpen
        (if b then TelemetryLogger.logEvent ev lg else lg) = true
      /\ TelemetryLogger.events
           (if b then TelemetryLogger.logEvent ev lg else lg)
         = TelemetryLogger.events (logger_ m) ++ l').
  { intros lg ev [] l (H & E).
    - destruct (logEvent_open ev lg H) as (O1 & E1).
      exists (l ++ [ev]). now rewrite O1, E1, E, app_assoc.
    - now exists l. }
  set (fired := negb (FaultHandler.isSystemSafe (checked libm clock m))
                && negb (FlightController.FlightPhase_eqb
                           (FlightController.currentPhase_
                              (updated libm clock m))
                           FlightController.EMERGENCY)).
  destruct (H1 (logger_ m)
              "Emergency mode activated due to critical fault"%string
              fired [])
    as (l1 & O1 & E1); [now rewrite app_nil_r|].
  set (lg1 := if fired then _ else logger_ m) in *.
  pose proof (logData_events (snd (tick libm clock dt m)) lg1) as (O2 & E2).
  rewrite O1 in O2. rewrite E1 in E2.
  destruct (H1 _ "Test fault injected: Airspeed sensor"%string
              (PrimFloat.ltb (PrimFloat.abs (simulationTime_ m - 100.0)) dt)
              l1 (conj O2 E2)) as (l3 & O3 & E3).
  destruct (H1 _ "Test fault cleared"%string
              (PrimFloat.ltb (PrimFloat.abs (simulationTime_ m - 105.0)) dt)
              l3 (conj O3 E3)) as (l4 & O4 & E4).
  split; [exact O4 | now exists l4].
Qed.

Lemma loop_events fuel clock duration dt : forall i m,
  TelemetryLogger.eventOpen (logger_ m) = true ->
  TelemetryLogger.eventOpen
    (logger_ (fst (loop libm fuel clock duration dt i m))) = true
  /\ exists mid,
       TelemetryLogger.events
         (logger_ (fst (loop libm fuel clock duration dt i m)))
       = TelemetryLogger.events (logger_ m) ++ mid.
Proof.
  induction fuel as [|fuel IH]; intros i m H.
  - split; [exact H | exists []; now rewrite app_nil_r].
  - cbn [loop]. destruct (_ <? duration)%float.
    + destruct (tick_events (clock i) dt m H) as (H1 & l1 & E1).
      destruct (tick libm (clock i) dt m) as [m1 row]. cbn [fst] in *.
      destruct (IH (S i) m1 H1) as (H2 & l2 & E2).
      destruct (loop libm fuel clock duration dt (S i) m1) as [m2 rows].
      cbn [fst] in *. split; [exact H2|].
      exists (l1 ++ l2). now rewrite E2, E1, app_assoc.
    + split; [exact H | exists []; now rewrite app_nil_r].
Qed.


End SystemMonitorMore.

Section WholeRun.

Import SystemMonitor.

(** Whether an iteration is defined does not depend on which it is: the
    divisor and the sleep are the same in all. *)
Lemma iteration_defined_any updateRate dt i :
  iteration_defined updateRate dt i = iteration_defined updateRate dt 0.
Proof.
  unfold iteration_defined, statusDue.
  destruct (Double.to_int updateRate) as [d|]; [|reflexivity].
  now destruct (d =? 0)%Z.
Qed.

Lemma defined_all updateRate dt n : forall a,
  forallb (iteration_defined updateRate dt) (seq a n)
  = match n with
    | O => true
    | S _ => iteration_defined updateRate dt 0
    end.
Proof.
  induction n as [|n IH]; intros a; [reflexivity|].
  cbn [seq forallb]. rewrite IH, (iteration_defined_any _ _ a).
  destruct n; [apply andb_true_r | apply andb_diag].
Qed.



(** X16.  The course of the flight does not depend on the readings: two
    runs of the loop that [main] starts, with different noise, different
    [libm], different clocks and different values of [throttle] but the
    same duration and step, emit the same number of snapshots with the
    same simulated times and the same validity flags, show EMERGENCY in
    the same snapshots, log the same events, and end with the same
    simulated time and critical counter, both in EMERGENCY or neither. *)
Theorem course_independent_of_readings :
  forall (libm libm' : SensorProcessor.Libm) (noise noise' : nat -> float)
         (clock0 clock0' : Clock) (clock clock' : nat -> Clock)
         (fuel : nat) (duration dt : float),
    let r := loop libm fuel clock duration dt 0 (started noise clock0) in
    let r' := loop libm' fuel clock' duration dt 0 (started noise' clock0') in
    map mark_of (snd r) = map mark_of (snd r')
    /\ map TelemetryLogger.simulationTime (snd r)
       = map TelemetryLogger.simulationTime (snd r')
    /\ map invalid (snd r) = map invalid (snd r')
    /\ TelemetryLogger.events (logger_ (fst r))
       = TelemetryLogger.events (logger_ (fst r'))
    /\ simulationTime_ (fst r) = simulationTime_ (fst r')
    /\ FaultHandler.criticalFaultCount_ (faultHandler_ (fst r))
       = FaultHandler.criticalFaultCount_ (faultHandler_ (fst r'))
    /\ (FlightController.currentPhase_ (flightController_ (fst r))
        = FlightController.EMERGENCY
        <-> FlightController.currentPhase_ (flightController_ (fst r'))
            = FlightController.EMERGENCY).
Proof.
  intros libm libm' noise noise' clock0 clock0' clock clock' fuel duration
         dt. cbn zeta.
  destruct (follows_loop libm fuel clock duration dt 0 _ _
              (started_follows noise clock0))
    as ((Ht & _ & _ & _ & Hk & Hp & _ & He) & Hm).
  destruct (follows_loop libm' fuel clock' duration dt 0 _ _
              (started_follows noise' clock0'))
    as ((Ht' & _ & _ & _ & Hk' & Hp' & _ & He') & Hm').
  assert (Hmarks : map mark_of
                     (snd (loop libm fuel clock duration dt 0
                             (started noise clock0)))
                   = map mark_of
                       (snd (loop libm' fuel clock' duration dt 0
                               (started noise' clock0'))))
    by (now rewrite Hm, Hm').
  repeat apply conj.
  - exact Hmarks.
  - apply (f_equal (map (fun mark : Mark => fst (fst mark)))) in Hmarks.
    rewrite !map_map in Hmarks. exact Hmarks.
  - apply (f_equal (map (fun mark : Mark => negb (snd (fst mark)))))
      in Hmarks.
    rewrite !map_map in Hmarks. exact Hmarks.
  - now rewrite He, He'.
  - now rewrite Ht, Ht'.
  - now rewrite Hk, Hk'.
  - rewrite <- !FlightPhase_eqb_eq. now rewrite Hp, Hp'.
  - rewrite <- !FlightPhase_eqb_eq. now rewrite Hp, Hp'.
Qed.

(** What [run] and [shutdown] leave after the loop. *)
Lemma finish_fields m :
  TelemetryLogger.eventOpen (logger_ m) = true ->
  let m' := shutdown
              (with_logger
                 (TelemetryLogger.logEvent "Flight simulation completed"
                    (logger_ m)) m) in
  TelemetryLogger.rows (logger_ m') = TelemetryLogger.rows (logger_ m)
  /\ TelemetryLogger.events (logger_ m')
     = TelemetryLogger.events (logger_ m)
       ++ ["Flight simulation completed"; "System shutdown initiated";
           "Logging system shutdown"]%string
  /\ TelemetryLogger.telemetryOpen (logger_ m') = false
  /\ TelemetryLogger.eventOpen (logger_ m') = false
  /\ flightController_ m' = flightController_ m
  /\ faultHandler_ m' = faultHandler_ m
  /\ simulationTime_ m' = simulationTime_ m.
Proof.
  destruct m as [fc sp fh [tel ev rs es] t]. cbn. intros ->.
  destruct tel; cbn; rewrite <- !app_assoc; repeat split.
Qed.

Lemma main_started libm fuel noise clock0 clock arg1 arg2 :
  Main.main libm fuel noise clock0 clock true true arg1 arg2
  = (let duration := Main.simulationDuration arg1 in
     let rate := Main.updateRate arg2 in
     let r := loop libm fuel clock duration (1.0 / rate) 0
                (started noise clock0) in
     if negb (match List.length (snd r) with
              | O => true
              | S _ => iteration_defined rate (1.0 / rate) 0
              end) then None
     else if PrimFloat.ltb (simulationTime_ (fst r)) duration then None
     else Some (0%Z,
                shutdown
                  (with_logger
                     (TelemetryLogger.logEvent "Flight simulation completed"
                        (logger_ (fst r))) (fst r)))).
Proof.
  unfold Main.main.
  change (initialize clock0 true true (new noise clock0))
    with (true, booted noise clock0).
  cbn [negb]. unfold run.
  change (with_logger
            (TelemetryLogger.logEvent "Flight simulation started"
               (logger_ (booted noise clock0))) (booted noise clock0))
    with (started noise clock0).
  cbn zeta.
  destruct (loop libm fuel clock (Main.simulationDuration arg1)
              (1.0 / Main.updateRate arg2) 0 (started noise clock0))
    as [m1 rows].
  cbn [fst snd]. rewrite defined_all.
  destruct (negb _); [reflexivity|]. now destruct (_ <? _)%float.
Qed.



(** X18.  The default invocation ends.  With no arguments (240 s at
    10 Hz), whatever the noise, [libm], the clocks and the value of
    [throttle], [main] returns 0 after exactly 2401 iterations, not 2400:
    the simulated time is summed in binary64 and reads 239.99999999999065
    after 2400 steps; 2400 iterations do not end the loop.  The test fault
    is both injected and cleared twice, since two consecutive simulated
    times lie within one step of 100 s and of 105 s; exactly 50 snapshots
    are invalid and the critical counter ends at 50; the emergency is
    triggered by the first invalid sample, at 100.09999999999859 s, whose
    snapshot does not show EMERGENCY yet, while the next one does; the run
    ends in EMERGENCY with both files closed and eleven events logged. *)
Theorem default_run_takes_2401_iterations :
  forall (libm : SensorProcessor.Libm) (noise : nat -> float)
         (clock0 : Clock) (clock : nat -> Clock) (spare : nat),
    (exists m,
        Main.main libm (2401 + spare) noise clock0 clock true true None None
        = Some (0%Z, m)
        /\ List.length (TelemetryLogger.rows (logger_ m)) = 2401%nat
        /\ List.length (filter invalid (TelemetryLogger.rows (logger_ m)))
           = 50%nat
        /\ map (fun row =>
                  (TelemetryLogger.simulationTime row,
                   SensorProcessor.valid (TelemetryLogger.sensors row),
                   FlightController.FlightPhase_eqb
                     (TelemetryLogger.phase row) FlightController.EMERGENCY))
               (firstn 3 (skipn 1000 (TelemetryLogger.rows (logger_ m))))
           = [(99.999999999998593, true, false);
              (100.09999999999859, false, false);
              (100.19999999999858, false, true)]%float
        /\ simulationTime_ m = 240.09999999999064%float
        /\ FaultHandler.criticalFaultCount_ (faultHandler_ m) = 50%Z
        /\ FlightController.currentPhase_ (flightController_ m)
           = FlightController.EMERGENCY
        /\ TelemetryLogger.events (logger_ m)
           = ["Telemetry logging system initialized";
              "System initialization complete";
              "Flight simulation started";
              "Test fault injected: Airspeed sensor";
              "Emergency mode activated due to critical fault";
              "Test fault injected: Airspeed sensor";
              "Test fault cleared";
              "Test fault cleared";
              "Flight simulation completed";
              "System shutdown initiated";
              "Logging system shutdown"]%string
        /\ TelemetryLogger.telemetryOpen (logger_ m) = false
        /\ TelemetryLogger.eventOpen (logger_ m) = false)
    /\ Main.main libm 2400 noise clock0 clock true true None None = None.
Proof.
  intros libm noise clock0 clock spare.
  rewrite !main_started. cbn zeta.
  change (Main.simulationDuration None) with 240%float.
  change (Main.updateRate None) with 10%float.
  replace (iteration_defined 10 (1 / 10) 0) with true
    by (vm_compute; reflexivity).
  split.
  - destruct (follows_loop libm (2401 + spare) clock 240 (1 / 10) 0 _ _
                (started_follows noise clock0)) as (Hf & Hm).
    rewrite (course_done 240 (1 / 10) 2401 spare course0) in Hf, Hm
      by (vm_compute; reflexivity).
    destruct (loop_rows libm (2401 + spare) clock 240 (1 / 10) 0
                (started noise clock0)) as (_ & Hr & _).
    cbn zeta in Hr.
    destruct (loop libm (2401 + spare) clock 240 (1 / 10) 0
                (started noise clock0)) as [m1 rows].
    cbn [fst snd] in *.
    change (TelemetryLogger.rows (logger_ (started noise clock0)))
      with (@nil TelemetryLogger.LogRow) in Hr.
    change (TelemetryLogger.telemetryOpen (logger_ (started noise clock0)))
      with true in Hr.
    cbn [app] in Hr.
    destruct Hf as (Ht & _ & _ & _ & Hk & Hp & Ho & He).
    rewrite Ht.
    replace (at_time (fst (course 2401 240 (1 / 10) course0)))
      with 240.09999999999064%float in * by (vm_compute; reflexivity).
    replace (240.09999999999064 <? 240)%float with false
      by (vm_compute; reflexivity).
    replace (negb match List.length rows with O => true | S _ => true end)
      with false by (now destruct (List.length rows)).
    destruct (finish_fields m1 Ho) as (Fr & Fe & Ft & Fo & Fc & Fh & Fs).
    cbn zeta in Fr, Fe, Ft, Fo, Fc, Fh, Fs.
    eexists. split; [reflexivity|].
    rewrite Fr, Fe, Ft, Fo, Fc, Fh, Fs, Hr, Ht, Hk, He.
    split.
    { rewrite <- (length_map mark_of), Hm. vm_compute. reflexivity. }
    split.
    { rewrite <- (proj1 (marks_of_rows rows)), Hm. vm_compute. reflexivity. }
    split.
    { change (map (fun row => _) (firstn 3 (skipn 1000 rows)))
        with (map mark_of (firstn 3 (skipn 1000 rows))).
      rewrite <- firstn_map, <- skipn_map, Hm. vm_compute. reflexivity. }
    split; [reflexivity|].
    split; [vm_compute; reflexivity|].
    split.
    { apply FlightPhase_eqb_eq. rewrite Hp. vm_compute. reflexivity. }
    split; [vm_compute; reflexivity|].
    split; reflexivity.
  - destruct (follows_loop libm 2400 clock 240 (1 / 10) 0 _ _
                (started_follows noise clock0)) as ((Ht & _) & _).
    rewrite Ht.
    replace (at_time (fst (course 2400 240 (1 / 10) course0)) <? 240)%float
      with true by (vm_compute; reflexivity).
    now destruct (negb _).
Qed.

Lemma cmp_lex_trans (e1 e2 e3 : Z) (m1 m2 m3 : positive) :
  let lex e m e' m' :=
    match (e ?= e')%Z with
    | Lt => Lt
    | Gt => Gt
    | Eq => Pos.compare_cont Eq m m'
    end in
  (lex e1 m1 e2 m2 = Lt -> lex e2 m2 e3 m3 <> Gt -> lex e1 m1 e3 m3 = Lt)
  /\ (lex e1 m1 e2 m2 = Gt -> lex e2 m2 e3 m3 <> Lt ->
      lex e1 m1 e3 m3 = Gt).
Proof.
  cbv beta zeta. change (Pos.compare_cont Eq) with Pos.compare.
  destruct (e1 ?= e2)%Z eqn:E12, (e2 ?= e3)%Z eqn:E23, (e1 ?= e3)%Z eqn:E13;
    rewrite ?Z.compare_eq_iff, ?Z.compare_lt_iff, ?Z.compare_gt_iff in *;
    try lia; try (split; intros; congruence);
    destruct (m1 ?= m2)%positive eqn:M12, (m2 ?= m3)%positive eqn:M23,
      (m1 ?= m3)%positive eqn:M13;
    rewrite ?Pos.compare_eq_iff, ?Pos.compare_lt_iff, ?Pos.compare_gt_iff
      in *;
    try lia; split; intros; congruence.
Qed.

(** The order of binary64 is transitive. *)
Lemma ltb_leb_trans x y z :
  (x <? y)%float = true -> (y <=? z)%float = true -> (x <? z)%float = true.
Proof.
  rewrite !FloatAxioms.ltb_spec, FloatAxioms.leb_spec.
  unfold SFltb, SFleb.
  destruct (Prim2SF x) as [sx|sx| |sx mx ex],
           (Prim2SF y) as [sy|sy| |sy my ey],
           (Prim2SF z) as [sz|sz| |sz mz ez];
    cbn; try discriminate; try reflexivity;
    try (destruct sx; cbn; congruence);
    try (destruct sy; cbn; congruence);
    try (destruct sz; cbn; congruence);
    try (destruct sx, sy; cbn; congruence);
    try (destruct sy, sz; cbn; congruence);
    try (destruct sx, sz; cbn; congruence);
    try (destruct sx, sy, sz; cbn; congruence).
  destruct (cmp_lex_trans ex ey ez mx my mz) as (L1 & G1).
  cbv beta zeta in L1, G1.
  change (PosDef.Pos.compare_cont Eq) with (Pos.compare_cont Eq).
  destruct sx, sy, sz; cbn; try congruence;
    destruct (ex ?= ey)%Z, (ey ?= ez)%Z, (ex ?= ez)%Z;
    try destruct (Pos.compare_cont Eq mx my);
    try destruct (Pos.compare_cont Eq my mz);
    try destruct (Pos.compare_cont Eq mx mz);
    cbn in *; intros H1 H2; try reflexivity; try discriminate;
    try (discriminate (L1 eq_refl ltac:(discriminate)));
    try (discriminate (G1 eq_refl ltac:(discriminate))).
Qed.

(** If the time after [n] steps is not below the duration, the loop ends
    within [n] iterations. *)
Lemma loop_ends libm clock duration dt n : forall fuel i m,
  (n <= fuel)%nat ->
  PrimFloat.ltb (last (times (S n) (simulationTime_ m) dt) 0%float) duration
  = false ->
  PrimFloat.ltb
    (simulationTime_ (fst (loop libm fuel clock duration dt i m))) duration
  = false
  /\ (List.length (snd (loop libm fuel clock duration dt i m)) <= n)%nat.
Proof.
  induction n as [|n IH]; intros fuel i m Hle Hlast.
  - cbn in Hlast. destruct fuel; cbn [loop]; rewrite ?Hlast; cbn; auto.
  - destruct fuel as [|fuel]; [lia|]. cbn [loop].
    destruct (simulationTime_ m <? duration)%float eqn:G.
    + destruct (tick_spec libm (clock i) dt m)
        as (_ & _ & _ & _ & _ & _ & Htime).
      destruct (tick libm (clock i) dt m) as [m1 row]. cbn [fst] in Htime.
      change (times (S (S n)) (simulationTime_ m) dt)
        with (simulationTime_ m
              :: (simulationTime_ m + dt)%float
              :: times n (simulationTime_ m + dt + dt) dt) in Hlast.
      change (last (simulationTime_ m
                    :: (simulationTime_ m + dt)%float
                    :: times n (simulationTime_ m + dt + dt) dt) 0%float)
        with (last (times (S n) (simulationTime_ m + dt) dt) 0%float)
        in Hlast.
      rewrite <- Htime in Hlast.
      destruct (IH fuel (S i) m1 ltac:(lia) Hlast) as (H1 & H2).
      destruct (loop libm fuel clock duration dt (S i) m1) as [m2 rows].
      cbn [fst snd List.length] in *. split; [exact H1 | lia].
    + cbn [fst snd List.length]. split; [exact G | lia].
Qed.

(** X20.  Short flights end.  With the default update rate, for every
    duration up to 240 s (zero and negative ones included), whatever the
    noise, [libm], the clocks and the value of [throttle], [main] returns
    0 after at most 2401 iterations, with the simulated time no longer
    below the duration, both files closed and no more telemetry rows than
    iterations. *)
Theorem main_returns_within_2401_iterations :
  forall (libm : SensorProcessor.Libm) (noise : nat -> float)
         (clock0 : Clock) (clock : nat -> Clock) (d : float) (spare : nat),
    PrimFloat.leb d 240 = true ->
    exists m,
      Main.main libm (2401 + spare) noise clock0 clock true true (Some d)
                None = Some (0%Z, m)
      /\ (List.length (TelemetryLogger.rows (logger_ m)) <= 2401)%nat
      /\ PrimFloat.ltb (simulationTime_ m) d = false
      /\ TelemetryLogger.telemetryOpen (logger_ m) = false
      /\ TelemetryLogger.eventOpen (logger_ m) = false.
Proof.
  intros libm noise clock0 clock d spare Hd.
  rewrite main_started. cbn zeta.
  change (Main.simulationDuration (Some d)) with d.
  change (Main.updateRate None) with 10%float.
  assert (Hlast : PrimFloat.ltb
                    (last (times 2402
                             (simulationTime_ (started noise clock0))
                             (1 / 10)) 0%float) d = false).
  { change (simulationTime_ (started noise clock0)) with 0%float.
    replace (last (times 2402 0 (1 / 10)) 0%float)
      with 240.09999999999064%float by (vm_compute; reflexivity).
    destruct (240.09999999999064 <? d)%float eqn:E; [|reflexivity].
    pose proof (ltb_leb_trans _ _ _ E Hd) as C. vm_compute in C.
    discriminate C. }
  destruct (loop_ends libm clock d (1 / 10) 2401 (2401 + spare) 0
              (started noise clock0) ltac:(lia) Hlast) as (Hg & Hl).
  destruct (loop_rows libm (2401 + spare) clock d (1 / 10) 0
              (started noise clock0)) as (_ & Hr & _).
  destruct (loop_events libm (2401 + spare) clock d (1 / 10) 0
              (started noise clock0) eq_refl) as (Ho & _).
  cbn zeta in Hr.
  change (TelemetryLogger.rows (logger_ (started noise clock0)))
    with (@nil TelemetryLogger.LogRow) in Hr.
  change (TelemetryLogger.telemetryOpen (logger_ (started noise clock0)))
    with true in Hr.
  cbn [app] in Hr.
  destruct (finish_fields _ Ho) as (Fr & _ & Ft & Fo & _ & _ & Fs).
  cbn zeta in Fr, Ft, Fo, Fs.
  replace (iteration_defined 10 (1 / 10) 0) with true
    by (vm_compute; reflexivity).
  rewrite Hg.
  replace (negb match List.length _ with O => true | S _ => true end)
    with false by (now destruct (List.length _)).
  eexists. split; [reflexivity|].
  rewrite Fr, Fs, Hr. repeat split; assumption.
Qed.

Lemma main_returns_within_2401_iterations_witness :
  PrimFloat.leb 1 240 = true
  /\ exists m,
       Main.main SensorProcessor.libm_flat (2401 + 0) SensorProcessor.quiet
                 (mkClock 0 0 0) (still (mkClock 0 0 0)) true true (Some 1%float)
                 None = Some (0%Z, m)
       /\ (List.length (TelemetryLogger.rows (logger_ m)) <= 2401)%nat
       /\ PrimFloat.ltb (simulationTime_ m) 1 = false
       /\ TelemetryLogger.telemetryOpen (logger_ m) = false
       /\ TelemetryLogger.eventOpen (logger_ m) = false.
Proof.
  split; [reflexivity|].
  apply (main_returns_within_2401_iterations SensorProcessor.libm_flat
           SensorProcessor.quiet (mkClock 0 0 0) (still (mkClock 0 0 0))
           1%float 0).
  reflexivity.
Defined.

Lemma nan_not_lt x y :
  PrimFloat.is_nan x = true ->
  (x <? y)%float = false /\ (y <? x)%float = false.
Proof.
  unfold PrimFloat.is_nan.
  rewrite !FloatAxioms.eqb_spec, !FloatAxioms.ltb_spec.
  unfold SFeqb, SFltb.
  destruct (Prim2SF x) as [sx|sx| |sx mx ex]; cbn.
  - discriminate.
  - now destruct sx.
  - intros _. now destruct (Prim2SF y).
  - rewrite Z.compare_refl, Pos.compare_cont_refl. now destruct sx.
Qed.

Lemma leb_not_gt x y :
  (x <=? y)%float = true -> (y <? x)%float = false.
Proof.
  rewrite FloatAxioms.ltb_spec, FloatAxioms.leb_spec.
  unfold SFltb, SFleb.
  destruct (Prim2SF x) as [sx|sx| |sx mx ex],
           (Prim2SF y) as [sy|sy| |sy my ey];
    cbn; try discriminate; try reflexivity;
    try (destruct sx; cbn; congruence); try (destruct sy; cbn; congruence);
    try (destruct sx, sy; cbn; congruence).
  pose proof (Pos.compare_cont_antisym mx my Eq) as E. cbn in E.
  rewrite (Z.compare_antisym ex ey), <- E.
  destruct sx, sy; cbn; try congruence;
    destruct (ex ?= ey)%Z; cbn; try congruence;
    destruct (Pos.compare_cont Eq mx my); cbn; congruence.
Qed.

(** X19.  The arguments of [main].  The update rate that reaches [run] is
    within [1, 100] or is NaN: the range check replaces every number
    outside the range by 10, keeps every number inside it, and lets a NaN
    through, as both of its comparisons are false on NaN.  The duration is
    not checked: with a duration that is not above zero (zero, negative,
    NaN) the loop makes no iteration, whatever the rate, and [main]
    returns 0 with an empty telemetry file and the six lines of start and
    shutdown in the event log. *)
Theorem main_arguments :
  forall arg2 : option float,
    let rate := Main.updateRate arg2 in
    (PrimFloat.is_nan rate = true
     \/ (PrimFloat.leb 1 rate = true /\ PrimFloat.leb rate 100 = true))
    /\ (forall r, arg2 = Some r -> PrimFloat.is_nan r = true ->
        PrimFloat.is_nan rate = true)
    /\ (forall r, arg2 = Some r ->
        PrimFloat.ltb r 1 = true \/ PrimFloat.ltb 100 r = true ->
        rate = 10%float)
    /\ (forall r, arg2 = Some r ->
        PrimFloat.leb 1 r = true -> PrimFloat.leb r 100 = true -> rate = r)
    /\ (arg2 = None -> rate = 10%float)
    /\ (forall libm fuel noise clock0 clock d,
        PrimFloat.ltb 0 d = false ->
        exists m,
          Main.main libm fuel noise clock0 clock true true (Some d) arg2
          = Some (0%Z, m)
          /\ TelemetryLogger.rows (logger_ m) = []
          /\ FaultHandler.faults_ (faultHandler_ m) = []
          /\ TelemetryLogger.events (logger_ m)
             = ["Telemetry logging system initialized";
                "System initialization complete";
                "Flight simulation started";
                "Flight simulation completed";
                "System shutdown initiated";
                "Logging system shutdown"]%string).
Proof.
  intros arg2. cbn zeta. repeat apply conj.
  - destruct arg2 as [r|]; cbn [Main.updateRate].
    + unfold Double.gt.
      destruct (r <? 1)%float eqn:L; cbn [orb].
      * right. split; vm_compute; reflexivity.
      * destruct (100 <? r)%float eqn:G.
        { right. split; vm_compute; reflexivity. }
        destruct (PrimFloat.is_nan r) eqn:N; [now left|]. right.
        split; apply ltb_false_leb; try assumption; reflexivity.
    + right. split; vm_compute; reflexivity.
  - intros r -> N. cbn [Main.updateRate]. unfold Double.gt.
    destruct (nan_not_lt r 1 N) as (-> & _).
    destruct (nan_not_lt r 100 N) as (_ & ->). exact N.
  - intros r -> [L|G]; cbn [Main.updateRate]; unfold Double.gt.
    + now rewrite L.
    + rewrite G. now rewrite orb_true_r.
  - intros r -> L G. cbn [Main.updateRate]. unfold Double.gt.
    now rewrite (leb_not_gt _ _ L), (leb_not_gt _ _ G).
  - now intros ->.
  - intros libm fuel noise clock0 clock d Hd.
    rewrite main_started. cbn zeta.
    change (Main.simulationDuration (Some d)) with d.
    assert (Hloop : loop libm fuel clock d (1 / Main.updateRate arg2) 0
                      (started noise clock0)
                    = (started noise clock0, [])).
    { destruct fuel; [reflexivity|]. cbn [loop].
      change (simulationTime_ (started noise clock0)) with 0%float.
      now rewrite Hd. }
    rewrite Hloop. cbn [fst snd List.length negb].
    change (simulationTime_ (started noise clock0)) with 0%float.
    rewrite Hd. eexists. split; [reflexivity|]. now repeat split.
Qed.

End WholeRun.
